(** * Warehousesim: the simulation engine of [backend.cpp], embedded in Rocq

    The engine is a single-threaded discrete-time simulation: a warehouse of
    per-product batch queues, a supplier pipeline, a demand generator and the
    day orchestrator [SimulatorImpl::AdvanceDay].  The embedding is shallow:
    every method becomes a function that passes the state it touches
    explicitly.

    Conventions.
    - [int] is a 32-bit two's complement integer kept in [Z]; every
      arithmetic operation of the source is followed by [wrap32].
    - [float] and [double] are IEEE-754 binary32 and binary64 values, taken
      from the reference specification [SpecFloat] ([prec = 24, emax = 128]
      and [prec = 53, emax = 1024]).
    - [std::mt19937] and the three standard distributions are not part of
      the repository: they are the interface [RandomStream]; the range
      contract of the distributions is [RandomStreamLaws].
    - [std::vector] and [std::deque] are lists, [std::map] is a [gmap]. *)

From stdpp Require Import gmap strings list pretty.
From Stdlib Require Import ZArith Lia Sorted.
From Stdlib Require Import Floats.SpecFloat.
From Stdlib Require QArith Qabs Qround.

#[local] Open Scope Z_scope.

(** ** 32-bit integers *)

Definition INT_MIN : Z := - 2 ^ 31.
Definition INT_MAX : Z := 2 ^ 31 - 1.

Definition wrap32 (x : Z) : Z := (x + 2 ^ 31) mod 2 ^ 32 - 2 ^ 31.

Definition is_int (x : Z) : Prop := INT_MIN <= x <= INT_MAX.

Definition add32 (a b : Z) : Z := wrap32 (a + b).
Definition sub32 (a b : Z) : Z := wrap32 (a - b).
Definition mul32 (a b : Z) : Z := wrap32 (a * b).

(** [std::clamp(v, lo, hi)] on [int]. *)
Definition clampZ (v lo hi : Z) : Z :=
  if v <? lo then lo else if hi <? v then hi else v.

(** [std::to_string(int)]. *)
Definition to_string (z : Z) : string := pretty z.

(** ** Floating point *)

Abbreviation float := spec_float.
Abbreviation double := spec_float.

Module F32.
Definition prec : Z := 24.
Definition emax : Z := 128.
Definition of_int (z : Z) : float := binary_normalize prec emax z 0 false.
Definition add : float -> float -> float := SFadd prec emax.
Definition sub : float -> float -> float := SFsub prec emax.
Definition mul : float -> float -> float := SFmul prec emax.
Definition div : float -> float -> float := SFdiv prec emax.
Definition valid (x : float) : bool := valid_binary prec emax x.
  (** A decimal literal [n/d] with [n] and [d] exactly representable is the
      correctly rounded quotient. *)
Definition lit (n d : Z) : float := div (of_int n) (of_int d).
End F32.

Module F64.
Definition prec : Z := 53.
Definition emax : Z := 1024.
Definition of_int (z : Z) : double := binary_normalize prec emax z 0 false.
  (** [double(x)] for a [float] [x]: the same value, renormalised. *)
Definition of_float (x : float) : double :=
    match x with
    | S754_finite s m e => binary_round prec emax s m e
    | _ => x
    end.
Definition add : double -> double -> double := SFadd prec emax.
Definition sub : double -> double -> double := SFsub prec emax.
Definition mul : double -> double -> double := SFmul prec emax.
Definition zero : double := S754_zero false.
End F64.

(** [std::max], [std::min] and [std::clamp] on floating-point values, with
    the comparisons the standard prescribes. *)
Definition fmax_std (a b : float) : float := if SFltb a b then b else a.
Definition fmin_std (a b : float) : float := if SFltb b a then b else a.
Definition fclamp (v lo hi : float) : float :=
  if SFltb v lo then lo else if SFltb hi v then hi else v.

(** The integer part functions.  [None] stands for a value with no integer
    part (infinities and NaN). *)
Definition SFfloor (x : float) : option Z :=
  match x with
  | S754_zero _ => Some 0
  | S754_finite s m e =>
      let v := if s then Z.neg m else Z.pos m in
      Some (if 0 <=? e then v * 2 ^ e else v / 2 ^ (- e))
  | _ => None
  end.

Definition SFceil (x : float) : option Z :=
  match x with
  | S754_zero _ => Some 0
  | S754_finite s m e =>
      let v := if s then Z.neg m else Z.pos m in
      Some (if 0 <=? e then v * 2 ^ e else - ((- v) / 2 ^ (- e)))
  | _ => None
  end.

(** [std::round]: to nearest, halves away from zero. *)
Definition SFround (x : float) : option Z :=
  match x with
  | S754_zero _ => Some 0
  | S754_finite s m e =>
      let a := if 0 <=? e then Z.pos m * 2 ^ e
               else (2 * Z.pos m + 2 ^ (- e)) / 2 ^ (- e + 1) in
      Some (if s then - a else a)
  | _ => None
  end.

(** Truncation toward zero, the value conversion of [(int)x]. *)
Definition SFtrunc (x : float) : option Z :=
  match x with
  | S754_zero _ => Some 0
  | S754_finite s m e =>
      let a := if 0 <=? e then Z.pos m * 2 ^ e else Z.pos m / 2 ^ (- e) in
      Some (if s then - a else a)
  | _ => None
  end.

(** The cast [(int)] of an integral floating-point value.  Out of range the
    conversion is undefined in C++; the model takes the x86 result. *)
Definition cast_int (v : option Z) : Z :=
  match v with
  | Some z => if (INT_MIN <=? z) && (z <=? INT_MAX) then z else INT_MIN
  | None => INT_MIN
  end.

(** Float literals of the source. *)
Definition f0 : float := S754_zero false.
Definition f1 : float := Eval vm_compute in F32.of_int 1.
Definition f0_5 : float := Eval vm_compute in F32.lit 1 2.
Definition f0_35 : float := Eval vm_compute in F32.lit 35 100.
Definition f100 : float := Eval vm_compute in F32.of_int 100.

(** [FmtMoney]: fixed notation with two decimals.  A NaN of [SpecFloat]
    carries no sign, so every NaN prints as nan, where the source prints
    -nan for one whose sign bit is set; only the text of a log line depends
    on it. *)
Definition round_half_even (n d : Z) : Z :=
  let q := n / d in
  match Z.compare (2 * (n mod d)) d with
  | Lt => q
  | Gt => q + 1
  | Eq => if Z.even q then q else q + 1
  end.

Definition fixed2 (neg : bool) (cents : Z) : string :=
  (if neg then "-" else "") +:+ pretty (cents / 100) +:+ "." +:+
  pretty (cents mod 100 / 10) +:+ pretty (cents mod 10).

Definition FmtMoney (v : double) : string :=
  match v with
  | S754_nan => "nan"
  | S754_infinity s => if s then "-inf" else "inf"
  | S754_zero s => fixed2 s 0
  | S754_finite s m e =>
      fixed2 s (if 0 <=? e then Z.pos m * 100 * 2 ^ e
                else round_half_even (Z.pos m * 100) (2 ^ (- e)))
  end.

(** ** Public structures *)

Module ProductConfig.
Record t := mk {
    name : string;
    unitName : string;
    unitsPerPackage : Z;
    capacityPackages : Z;
    shelfLifeDays : Z;
    discountBeforeDays : Z;
    basePricePerUnit : float;
    discountPercent : float;
    reorderThreshold : Z;
    reorderAmount : Z }.
  (** The default member initialisers. *)
Definition default : t :=
    mk "Product" "pcs" 10 20 14 3 f1 (F32.of_int 25) 6 12.
End ProductConfig.

Module DayStats.
Record t := mk {
    revenue : double;
    discountLoss : double;
    writeOffLoss : double;
    totalSoldUnits : Z;
    totalWriteOffUnits : Z }.
Definition zero : t := mk F64.zero F64.zero F64.zero 0 0.
End DayStats.

Module SimConfig.
Record t := mk {
    N : Z;
    M : Z;
    K : Z;
    seed : Z;
    orderProbability : float;
    maxLinesPerOrder : Z;
    minUnitsPerLine : Z;
    maxUnitsPerLine : Z;
    discountDemandBoost : float;
    supplierLeadTimeMin : Z;
    supplierLeadTimeMax : Z;
    secondsPerDay : float }.
Definition default : t :=
    mk 20 5 12 12345 (F32.lit 85 100) 6 5 120 (F32.of_int 2) 1 5 (F32.of_int 6).
End SimConfig.

Module OrderRow.
Record t := mk {
    shopId : Z;
    productId : Z;
    requestedUnits : Z;
    chosenPackages : Z;
    deliveredPackages : Z;
    deliveredUnits : Z }.
End OrderRow.

Inductive AnimType := SupplyTruck | ShipmentTruck | OrderPaper | WasteTruck.

Module Anim.
Record t := mk {
    type : AnimType;
    t0 : float;
    t1 : float;
    shopId : Z;
    payload : Z }.
End Anim.

(** ** Helpers *)

Definition Clamp01 (x : float) : float :=
  if SFltb x f0 then f0 else if SFltb f1 x then f1 else x.

Definition ClampConfig (c : SimConfig.t) : SimConfig.t :=
  let minU := Z.max 1 (SimConfig.minUnitsPerLine c) in
  let ltMin := clampZ (SimConfig.supplierLeadTimeMin c) 1 30 in
  SimConfig.mk
    (clampZ (SimConfig.N c) 10 30)
    (clampZ (SimConfig.M c) 3 9)
    (clampZ (SimConfig.K c) 12 20)
    (SimConfig.seed c)
    (fclamp (SimConfig.orderProbability c) f0 f1)
    (clampZ (SimConfig.maxLinesPerOrder c) 1 20)
    minU
    (Z.max minU (SimConfig.maxUnitsPerLine c))
    (fclamp (SimConfig.discountDemandBoost c) f0 (F32.of_int 10))
    ltMin
    (clampZ (SimConfig.supplierLeadTimeMax c) ltMin 60)
    (fclamp (SimConfig.secondsPerDay c) (F32.lit 25 100) (F32.of_int 30)).

Definition ClampProduct (p : ProductConfig.t) : ProductConfig.t :=
  let cap := clampZ (ProductConfig.capacityPackages p) 0 5000 in
  let life := clampZ (ProductConfig.shelfLifeDays p) 1 365 in
  ProductConfig.mk
    (ProductConfig.name p)
    (ProductConfig.unitName p)
    (clampZ (ProductConfig.unitsPerPackage p) 1 1000)
    cap
    life
    (clampZ (ProductConfig.discountBeforeDays p) 0 life)
    (fmax_std (F32.lit 1 100) (ProductConfig.basePricePerUnit p))
    (fclamp (ProductConfig.discountPercent p) f0 (F32.of_int 95))
    (clampZ (ProductConfig.reorderThreshold p) 0 cap)
    (clampZ (ProductConfig.reorderAmount p) 0 cap).

(** ** The random stream

    One generator is shared by every stochastic decision.  [rng_seed] is
    [std::mt19937(seed)]; the three draws are one use of
    [std::uniform_int_distribution<int>], [std::uniform_real_distribution<float>]
    and [std::bernoulli_distribution], each returning the value drawn and the
    generator after the draw. *)

Class RandomStream (G : Type) := {
  rng_seed : Z -> G;
  uniform_int : G -> Z -> Z -> Z * G;
  uniform_real : G -> float -> float -> float * G;
  bernoulli : G -> float -> bool * G }.

(** The range contract of the standard distributions. *)
Class RandomStreamLaws (G : Type) `{RandomStream G} := {
  uniform_int_range : forall g lo hi,
    lo <= hi -> lo <= (uniform_int g lo hi).1 <= hi;
  uniform_real_range : forall g lo hi,
    F32.valid lo = true -> F32.valid hi = true -> SFltb lo hi = true ->
    F32.valid (uniform_real g lo hi).1 = true /\
    SFleb lo (uniform_real g lo hi).1 = true /\
    SFltb (uniform_real g lo hi).1 hi = true }.

Section Helpers.
Context {G : Type} `{RandomStream G}.

Definition RandInt (rng : G) (lo hi : Z) : Z * G := uniform_int rng lo hi.
Definition RandFloat (rng : G) (lo hi : float) : float * G := uniform_real rng lo hi.
Definition RandBernoulli (rng : G) (p : float) : bool * G := bernoulli rng (Clamp01 p).
End Helpers.

(** ** Internal simulation model *)

Module Batch.
Record t := mk {
    packages : Z;
    daysLeft : Z;
    discounted : bool;
    unitPrice : float }.
End Batch.

Module SupplierDelivery.
Record t := mk {
    productId : Z;
    packages : Z;
    daysUntilArrival : Z }.
End SupplierDelivery.

Module OrderLine.
Record t := mk {
    productId : Z;
    requestedUnits : Z;
    chosenPackages : Z;
    deliveredPackages : Z;
    deliveredUnits : Z }.
End OrderLine.

Module Order.
Record t := mk {
    day : Z;
    shopId : Z;
    lines : list OrderLine.t }.
End Order.

Module Shipment.
Record t := mk {
    day : Z;
    shopId : Z;
    items : list (Z * Z) }.
End Shipment.

(** ** Warehouse: the inventory ledger

    [Warehouse] has the single member [inv], a vector of batch deques. *)

Module Warehouse.

Abbreviation t := (list (list Batch.t)).

(** The index guard [pid < 0 || pid >= (int)inv.size()], negated. *)
Definition valid_pid {A} (v : list A) (pid : Z) : bool :=
  (0 <=? pid) && (pid <? Z.of_nat (length v)).

(** [inv[pid]] under the guard. *)
Definition queue (wh : t) (pid : Z) : list Batch.t :=
  if valid_pid wh pid then wh !!! Z.to_nat pid else [].

Definition set_queue (wh : t) (pid : Z) (dq : list Batch.t) : t :=
  if valid_pid wh pid then <[Z.to_nat pid := dq]> wh else wh.

Definition sum_packages (dq : list Batch.t) : Z :=
  fold_left (fun s b => add32 s (Batch.packages b)) dq 0.

Definition TotalPackages (wh : t) (pid : Z) : Z :=
  if negb (valid_pid wh pid) then 0 else sum_packages (queue wh pid).

Definition HasDiscountStock (wh : t) (pid : Z) : bool :=
  if negb (valid_pid wh pid) then false
  else existsb (fun b => (0 <? Batch.packages b) && Batch.discounted b) (queue wh pid).

Definition age_batch (b : Batch.t) : Batch.t :=
  Batch.mk (Batch.packages b) (sub32 (Batch.daysLeft b) 1)
           (Batch.discounted b) (Batch.unitPrice b).

Definition DecrementShelfLife (wh : t) : t :=
  map (map age_batch) wh.

(** The [while] loop of [WriteOffExpired]: pops expired batches off the
    front, adding their packages to [acc]. *)
Fixpoint pop_expired (dq : list Batch.t) (acc : Z) : Z * list Batch.t :=
  match dq with
  | [] => (acc, [])
  | b :: rest =>
      if Batch.daysLeft b <=? 0
      then pop_expired rest (add32 acc (Batch.packages b))
      else (acc, dq)
  end.

Definition book_write_off (pc : ProductConfig.t) (st : DayStats.t)
    (writeOffPackages : Z) : DayStats.t :=
  if 0 <? writeOffPackages then
    let units := mul32 writeOffPackages (ProductConfig.unitsPerPackage pc) in
    DayStats.mk (DayStats.revenue st) (DayStats.discountLoss st)
      (F64.add (DayStats.writeOffLoss st)
         (F64.mul (F64.of_int units)
                  (F64.of_float (ProductConfig.basePricePerUnit pc))))
      (DayStats.totalSoldUnits st)
      (add32 (DayStats.totalWriteOffUnits st) units)
  else st.

Definition WriteOffExpired (wh : t) (pid : Z) (pc : ProductConfig.t)
    (st : DayStats.t) : Z * t * DayStats.t :=
  if negb (valid_pid wh pid) then (0, wh, st)
  else
    let '(writeOffPackages, dq) := pop_expired (queue wh pid) 0 in
    (writeOffPackages, set_queue wh pid dq, book_write_off pc st writeOffPackages).

Definition Receive (wh : t) (pid packages : Z) (pc : ProductConfig.t)
    : t :=
  if negb (valid_pid wh pid) then wh
  else if packages <=? 0 then wh
  else set_queue wh pid
         (queue wh pid ++
          [Batch.mk packages (ProductConfig.shelfLifeDays pc) false
                    (ProductConfig.basePricePerUnit pc)]).

(** [basePricePerUnit * (1.0f - discountPercent / 100.0f)]. *)
Definition discounted_price (pc : ProductConfig.t) : float :=
  F32.mul (ProductConfig.basePricePerUnit pc)
          (F32.sub f1 (F32.div (ProductConfig.discountPercent pc) f100)).

Definition discount_due (pc : ProductConfig.t) (b : Batch.t) : bool :=
  negb (Batch.discounted b) && (0 <? Batch.daysLeft b) &&
  (Batch.daysLeft b <=? ProductConfig.discountBeforeDays pc).

(** The [for] loop of [ApplyDiscountIfNeeded], with the running count. *)
Fixpoint discount_batches (pc : ProductConfig.t) (dq : list Batch.t)
    (affectedPackages : Z) : Z * list Batch.t :=
  match dq with
  | [] => (affectedPackages, [])
  | b :: rest =>
      if discount_due pc b then
        let b' := Batch.mk (Batch.packages b) (Batch.daysLeft b) true
                           (discounted_price pc) in
        let '(n, rest') :=
          discount_batches pc rest (add32 affectedPackages (Batch.packages b)) in
        (n, b' :: rest')
      else
        let '(n, rest') := discount_batches pc rest affectedPackages in
        (n, b :: rest')
  end.

Definition ApplyDiscountIfNeeded (wh : t) (pid : Z) (pc : ProductConfig.t)
    : Z * t :=
  if negb (valid_pid wh pid) then (0, wh)
  else
    let '(affectedPackages, dq) := discount_batches pc (queue wh pid) 0 in
    (affectedPackages, set_queue wh pid dq).

Definition reprice (pc : ProductConfig.t) (b : Batch.t) : Batch.t :=
  Batch.mk (Batch.packages b) (Batch.daysLeft b) (Batch.discounted b)
    (if Batch.discounted b then discounted_price pc
     else ProductConfig.basePricePerUnit pc).

Definition RepriceBatches (wh : t) (pid : Z) (pc : ProductConfig.t)
    : t :=
  if negb (valid_pid wh pid) then wh
  else set_queue wh pid (map (reprice pc) (queue wh pid)).

(** One pass of the drain loop books the sale of [take] packages of [b]. *)
Definition book_sale (pc : ProductConfig.t) (b : Batch.t) (take : Z)
    (st : DayStats.t) : DayStats.t :=
  let units := mul32 take (ProductConfig.unitsPerPackage pc) in
  let base := F64.mul (F64.of_int units)
                      (F64.of_float (ProductConfig.basePricePerUnit pc)) in
  let actual := F64.mul (F64.of_int units) (F64.of_float (Batch.unitPrice b)) in
  DayStats.mk
    (F64.add (DayStats.revenue st) actual)
    (if Batch.discounted b
     then F64.add (DayStats.discountLoss st) (F64.sub base actual)
     else DayStats.discountLoss st)
    (DayStats.writeOffLoss st)
    (add32 (DayStats.totalSoldUnits st) units)
    (DayStats.totalWriteOffUnits st).

(** The loop [while (remaining > 0 && !dq.empty())] of [FulfillLine].  When
    the front batch is not emptied the loop test is evaluated once more on
    the same batch; [drain_stops] below shows that [remaining] is then [0],
    so the loop ends there. *)
Fixpoint drain (pc : ProductConfig.t) (remaining : Z) (dq : list Batch.t)
    (st : DayStats.t) : list Batch.t * DayStats.t :=
  match dq with
  | [] => ([], st)
  | b :: rest =>
      if 0 <? remaining then
        let take := Z.min remaining (Batch.packages b) in
        let left := sub32 (Batch.packages b) take in
        let st' := book_sale pc b take st in
        if left =? 0 then drain pc (sub32 remaining take) rest st'
        else (Batch.mk left (Batch.daysLeft b) (Batch.discounted b)
                       (Batch.unitPrice b) :: rest, st')
      else (dq, st)
  end.

Section Fulfil.
Context {G : Type} `{RandomStream G}.

(** Steps 1 to 5 of the package quantisation: the number of packages chosen
    for [requestedUnits] units, and the generator after the coins. *)
Definition choose_packages (rng : G) (requestedUnits unitsPerPackage : Z)
    : Z * G :=
  let exact := F32.div (F32.of_int requestedUnits) (F32.of_int unitsPerPackage) in
  let fl := cast_int (SFfloor exact) in
  let ce := cast_int (SFceil exact) in
  let '(chosen, rng) :=
    if fl =? ce then (fl, rng)
    else
      let errFl := SFabs (F32.sub exact (F32.of_int fl)) in
      let errCe := SFabs (F32.sub (F32.of_int ce) exact) in
      if SFltb errFl errCe then (fl, rng)
      else if SFltb errCe errFl then (ce, rng)
      else let '(coin, rng) := RandBernoulli rng f0_5 in
           (if coin then fl else ce, rng) in
  let '(jitter, rng) := RandBernoulli rng f0_35 in
  let '(chosen, rng) :=
    if jitter then
      let '(down, rng) := RandBernoulli rng f0_5 in
      (Z.max 0 (add32 chosen (if down then -1 else 1)), rng)
    else (chosen, rng) in
  (if chosen =? 0 then 1 else chosen, rng).

Definition FulfillLine (wh : t) (line : OrderLine.t) (pc : ProductConfig.t)
    (rng : G) (st : DayStats.t) : t * OrderLine.t * G * DayStats.t :=
  if OrderLine.requestedUnits line <=? 0 then (wh, line, rng, st)
  else if ProductConfig.unitsPerPackage pc <=? 0 then (wh, line, rng, st)
  else
    let '(chosen, rng) :=
      choose_packages rng (OrderLine.requestedUnits line)
                      (ProductConfig.unitsPerPackage pc) in
    let available := TotalPackages wh (OrderLine.productId line) in
    let give := Z.min chosen available in
    let line' :=
      OrderLine.mk (OrderLine.productId line) (OrderLine.requestedUnits line)
        chosen give (mul32 give (ProductConfig.unitsPerPackage pc)) in
    let '(dq, st) := drain pc give (queue wh (OrderLine.productId line)) st in
    (set_queue wh (OrderLine.productId line) dq, line', rng, st).

End Fulfil.

End Warehouse.

(** ** The quantisation policy as the specification words it

    Steps 1 to 5 of the package quantisation over the rationals: [exact] is
    the real quotient, the two errors are compared exactly, a tie is broken
    by a fair coin of the shared generator, a second coin of probability
    0.35 decides the perturbation and a third its direction. *)

Section QuantisationPolicy.
Context {G : Type} `{RandomStream G}.

Definition policy_packages (rng : G) (requestedUnits unitsPerPackage : Z)
    : Z * G :=
  let exact := QArith_base.Qmake requestedUnits (Z.to_pos unitsPerPackage) in
  let fl := Qround.Qfloor exact in
  let ce := Qround.Qceiling exact in
  let '(chosen, rng) :=
    if fl =? ce then (fl, rng)
    else
      let errFl := Qabs.Qabs (QArith_base.Qminus exact (QArith_base.inject_Z fl)) in
      let errCe := Qabs.Qabs (QArith_base.Qminus (QArith_base.inject_Z ce) exact) in
      match QArith_base.Qcompare errFl errCe with
      | Lt => (fl, rng)
      | Gt => (ce, rng)
      | Eq => let '(coin, rng) := RandBernoulli rng f0_5 in
              (if coin then fl else ce, rng)
      end in
  let '(jitter, rng) := RandBernoulli rng f0_35 in
  let '(chosen, rng) :=
    if jitter then
      let '(down, rng) := RandBernoulli rng f0_5 in
      (Z.max 0 (chosen + (if down then -1 else 1)), rng)
    else (chosen, rng) in
  (if chosen =? 0 then 1 else chosen, rng).

End QuantisationPolicy.

(** ** Simulator implementation *)

#[global] Instance ProductConfig_inhabited : Inhabited ProductConfig.t :=
  populate ProductConfig.default.

(** [products[pid]].  The source indexes without a guard; every index it
    uses is below [products.size()] in the states the simulator reaches. *)
Definition product_at (products : list ProductConfig.t) (pid : Z)
    : ProductConfig.t :=
  products !!! Z.to_nat pid.

Module SimulatorImpl.

Record t (G : Type) := mk {
  cfg : SimConfig.t;
  rng : G;
  day : Z;
  wh : Warehouse.t;
  products : list ProductConfig.t;
  shopNames : list string;
  pipeline : list SupplierDelivery.t;
  shipmentsByDay : gmap Z (list Shipment.t);
  todaysOrders : list Order.t;
  todaysStats : DayStats.t;
  totalStats : DayStats.t;
  log : list string;
  dailyAnims : list Anim.t }.

Arguments mk {G}.
Arguments cfg {G}.
Arguments rng {G}.
Arguments day {G}.
Arguments wh {G}.
Arguments products {G}.
Arguments shopNames {G}.
Arguments pipeline {G}.
Arguments shipmentsByDay {G}.
Arguments todaysOrders {G}.
Arguments todaysStats {G}.
Arguments totalStats {G}.
Arguments log {G}.
Arguments dailyAnims {G}.

(** [PushLog] on the log vector: append, then keep the last 400 entries. *)
Definition PushLog (log : list string) (s : string) : list string :=
  let log' := log ++ [s] in
  if 400 <? Z.of_nat (length log')
  then drop (length log' - 400)%nat log'
  else log'.

Definition IncomingPackages (pipeline : list SupplierDelivery.t) (pid : Z) : Z :=
  fold_left
    (fun s d => if SupplierDelivery.productId d =? pid
                then add32 s (SupplierDelivery.packages d) else s)
    pipeline 0.

Definition baseNames : list string :=
  [ "Рис"; "Макароны"; "Мука"; "Сахар"; "Соль"; "Масло"; "Чай"; "Кофе";
    "Тушёнка"; "Фасоль"; "Кукуруза"; "Молоко"; "Гречка"; "Овсянка";
    "Печенье"; "Консервы рыбные"; "Сок"; "Вода"; "Специи"; "Шоколад" ].

Definition product_name (i : Z) : string :=
  if i <? Z.of_nat (length baseNames)
  then default "" (baseNames !! Z.to_nat i)
  else "Товар " +:+ to_string (add32 i 1).

Definition DayStats_add (total today : DayStats.t) : DayStats.t :=
  DayStats.mk
    (F64.add (DayStats.revenue total) (DayStats.revenue today))
    (F64.add (DayStats.discountLoss total) (DayStats.discountLoss today))
    (F64.add (DayStats.writeOffLoss total) (DayStats.writeOffLoss today))
    (add32 (DayStats.totalSoldUnits total) (DayStats.totalSoldUnits today))
    (add32 (DayStats.totalWriteOffUnits total) (DayStats.totalWriteOffUnits today)).

Section Methods.
Context {G : Type} `{RandomStream G}.

(** The body of the product loop of [Reset] for index [i]. *)
Definition init_product (i : Z)
    (acc : G * list ProductConfig.t * Warehouse.t)
    : G * list ProductConfig.t * Warehouse.t :=
  let '(rng, products, wh) := acc in
  let '(unitsPerPackage, rng) := RandInt rng 6 24 in
  let '(capacityPackages, rng) := RandInt rng 18 40 in
  let '(shelfLifeDays, rng) := RandInt rng 7 25 in
  let discountBeforeDays := Z.min 5 (Z.max 2 (Z.quot shelfLifeDays 5)) in
  let '(basePricePerUnit, rng) := RandFloat rng (F32.lit 8 10) (F32.lit 55 10) in
  let pc :=
    ClampProduct
      (ProductConfig.mk (product_name i) "ед." unitsPerPackage capacityPackages
         shelfLifeDays discountBeforeDays basePricePerUnit (F32.of_int 25)
         (Z.max 3 (Z.quot capacityPackages 5))
         (Z.max 4 (Z.quot capacityPackages 2))) in
  let products := <[Z.to_nat i := pc]> products in
  let '(share, rng) := RandFloat rng (F32.lit 30 100) (F32.lit 70 100) in
  let initP :=
    cast_int (SFround (F32.mul (F32.of_int (ProductConfig.capacityPackages pc))
                               share)) in
  (rng, products, Warehouse.Receive wh i initP (product_at products i)).

(** The product loop of [Reset] after [n] rounds, started on the freshly
    seeded generator, [K] default products and [K] empty queues. *)
Definition init_products (cfg : SimConfig.t) (n : Z)
    : G * list ProductConfig.t * Warehouse.t :=
  fold_left (fun acc i => init_product i acc) (seqZ 0 n)
    (rng_seed (SimConfig.seed cfg),
     replicate (Z.to_nat (SimConfig.K cfg)) ProductConfig.default,
     replicate (Z.to_nat (SimConfig.K cfg)) []).

Definition Reset (s : t G) (c : SimConfig.t) : t G :=
  let cfg := ClampConfig c in
  let '(rng, products, wh) := init_products cfg (SimConfig.K cfg) in
  mk cfg rng 0 wh products
     (map (fun i => "Точка " +:+ to_string (add32 i 1)) (seqZ 0 (SimConfig.M cfg)))
     [] ∅ [] DayStats.zero DayStats.zero
     (PushLog [] "Симуляция сброшена. День = 0.")
     [].

(** The constructor: the member initialisers are overwritten by [Reset]. *)
Definition create (c : SimConfig.t) : t G :=
  Reset (mk c (rng_seed (SimConfig.seed c)) 0
            (replicate (Z.to_nat (SimConfig.K c)) [])
            [] [] [] ∅ [] DayStats.zero DayStats.zero [] [])
        c.

(** [ClampAllProducts] clamps every product and reprices its batches. *)
Definition ClampAllProducts (products : list ProductConfig.t) (wh : Warehouse.t)
    : list ProductConfig.t * Warehouse.t :=
  let products' := map ClampProduct products in
  (products',
   fold_left (fun w pid => Warehouse.RepriceBatches w pid (product_at products' pid))
             (seqZ 0 (Z.of_nat (length products))) wh).

(** The roulette scan [for (; idx < size; ++idx) { r -= w[idx]; if (r <= 0) break; }]. *)
Fixpoint roulette (w : list float) (r : float) (idx : Z) : Z :=
  match w with
  | [] => idx
  | x :: w' =>
      let r' := F32.sub r x in
      if SFleb r' f0 then idx else roulette w' r' (add32 idx 1)
  end.

Definition weight (cfg : SimConfig.t) (products : list ProductConfig.t)
    (wh : Warehouse.t) (pid : Z) : float :=
  if Warehouse.HasDiscountStock wh pid
  then F32.add f1
         (F32.mul (F32.div (ProductConfig.discountPercent (product_at products pid)) f100)
                  (SimConfig.discountDemandBoost cfg))
  else f1.

(** The [pick] loop of [PickDistinctProductsWeighted], [count] rounds. *)
Fixpoint pick_loop (cfg : SimConfig.t) (products : list ProductConfig.t)
    (wh : Warehouse.t) (count : nat) (rng : G) (remaining chosen : list Z)
    : list Z * G :=
  match count with
  | O => (chosen, rng)
  | S count' =>
      let w := map (weight cfg products wh) remaining in
      let sum := fold_left F32.add w f0 in
      if SFleb sum (F32.lit 1 10000) then (chosen, rng)
      else
        let '(r, rng) := RandFloat rng f0 sum in
        let idx := clampZ (roulette w r 0) 0 (sub32 (Z.of_nat (length remaining)) 1) in
        pick_loop cfg products wh count' rng
          (delete (Z.to_nat idx) remaining)
          (chosen ++ [default 0 (remaining !! Z.to_nat idx)])
  end.

(** [PickDistinctProductsWeighted].  For a negative [count] or [K] the
    source throws (in [chosen.reserve] or in the constructor of [remaining]);
    the model then picks nothing, and the statements about the result assume
    both are at least 0.  [AdvanceDay] passes a count drawn from
    [1 .. max(1, min(maxLinesPerOrder, K))]. *)
Definition PickDistinctProductsWeighted (cfg : SimConfig.t)
    (products : list ProductConfig.t) (wh : Warehouse.t) (rng : G) (count : Z)
    : list Z * G :=
  let count := Z.min count (SimConfig.K cfg) in
  pick_loop cfg products wh (Z.to_nat count) rng (seqZ 0 (SimConfig.K cfg)) [].

Definition set_supply (s : t G) (rng : G) (pipeline : list SupplierDelivery.t)
    (log : list string) : t G :=
  mk (cfg s) rng (day s) (wh s) (products s) (shopNames s) pipeline
     (shipmentsByDay s) (todaysOrders s) (todaysStats s) (totalStats s) log
     (dailyAnims s).

Definition CreateSupplierRequestIfNeeded (s : t G) (pid : Z) : t G :=
  let pc := product_at (products s) pid in
  let cur := Warehouse.TotalPackages (wh s) pid in
  let incoming := IncomingPackages (pipeline s) pid in
  if add32 cur incoming <? ProductConfig.reorderThreshold pc then
    let freeCap := sub32 (ProductConfig.capacityPackages pc) (add32 cur incoming) in
    let want := Z.min (ProductConfig.reorderAmount pc) (Z.max 0 freeCap) in
    if 0 <? want then
      let '(lead, rng) :=
        RandInt (rng s) (SimConfig.supplierLeadTimeMin (cfg s))
                        (SimConfig.supplierLeadTimeMax (cfg s)) in
      set_supply s rng
        (pipeline s ++ [SupplierDelivery.mk pid want lead])
        (PushLog (log s)
           ("Заявка поставщику: " +:+ ProductConfig.name pc +:+ " x" +:+
            to_string want +:+ " уп. (прибытие через " +:+ to_string lead +:+
            " дн.)"))
    else s
  else s.

(** The four loops of [BuildDailyAnimations]; only the order papers draw
    from the generator. *)
Definition order_anim (acc : list Anim.t * G) (o : Order.t) : list Anim.t * G :=
  let '(anims, rng) := acc in
  let '(a, rng) := RandFloat rng f0 (F32.lit 8 100) in
  let '(b, rng) := RandFloat rng f0 (F32.lit 6 100) in
  (anims ++ [Anim.mk OrderPaper (F32.add (F32.lit 10 100) a)
                     (F32.add (F32.lit 42 100) b) (Order.shopId o)
                     (Z.of_nat (length (Order.lines o)))], rng).

Definition shipment_anim (count : Z) (acc : list Anim.t * Z) (sh : Shipment.t)
    : list Anim.t * Z :=
  let '(anims, idx) := acc in
  let base0 := F32.lit 58 100 in
  let base1 := F32.lit 98 100 in
  let totalPk := fold_left (fun n it => add32 n it.2) (Shipment.items sh) 0 in
  let span := F32.sub base1 base0 in
  let per := F32.div span (F32.of_int (Z.max 1 count)) in
  let t0 := F32.add (F32.add base0 (F32.mul per (F32.of_int idx))) (F32.lit 1 100) in
  let t1 := F32.add t0 (fmin_std (F32.lit 20 100) (F32.mul per (F32.lit 90 100))) in
  (anims ++ [Anim.mk ShipmentTruck t0 t1 (Shipment.shopId sh) totalPk], add32 idx 1).

Definition BuildDailyAnimations (rng : G) (supplierArrivals : list (Z * Z))
    (orders : list Order.t) (shipmentsDueToday : list Shipment.t)
    (writeOffByProduct : list (Z * Z)) : list Anim.t * G :=
  let anims :=
    map (fun a => Anim.mk SupplyTruck (F32.lit 2 100) (F32.lit 22 100) (-1) a.2)
        supplierArrivals in
  let '(anims, rng) := fold_left order_anim orders (anims, rng) in
  let totalWriteOffPackages :=
    fold_left (fun n w => add32 n w.2) writeOffByProduct 0 in
  let anims :=
    if 0 <? totalWriteOffPackages
    then anims ++ [Anim.mk WasteTruck (F32.lit 30 100) (F32.lit 55 100) (-1)
                           totalWriteOffPackages]
    else anims in
  ((fold_left (shipment_anim (Z.of_nat (length shipmentsDueToday)))
              shipmentsDueToday (anims, 0)).1, rng).

(** The loops of [AdvanceDay], one definition per loop body. *)
Definition tick_delivery (d : SupplierDelivery.t) : SupplierDelivery.t :=
  SupplierDelivery.mk (SupplierDelivery.productId d) (SupplierDelivery.packages d)
                      (sub32 (SupplierDelivery.daysUntilArrival d) 1).

Definition arrived (d : SupplierDelivery.t) : bool :=
  SupplierDelivery.daysUntilArrival d <=? 0.

Definition receive_arrival (products : list ProductConfig.t)
    (acc : Warehouse.t * list string) (a : Z * Z) : Warehouse.t * list string :=
  let '(wh, log) := acc in
  let '(pid, pk) := a in
  let cur := Warehouse.TotalPackages wh pid in
  let freeCap := sub32 (ProductConfig.capacityPackages (product_at products pid)) cur in
  let accepted := Z.max 0 (Z.min pk freeCap) in
  let '(wh, log) :=
    if 0 <? accepted
    then (Warehouse.Receive wh pid accepted (product_at products pid),
          PushLog log ("Поставка: " +:+ ProductConfig.name (product_at products pid) +:+
                       " +" +:+ to_string accepted +:+ " уп."))
    else (wh, log) in
  (wh,
   if accepted <? pk
   then PushLog log ("Внимание: склад переполнен для " +:+
                     ProductConfig.name (product_at products pid) +:+
                     " (не принято " +:+ to_string (sub32 pk accepted) +:+ " уп.)")
   else log).

Definition write_off_product (products : list ProductConfig.t)
    (acc : Warehouse.t * DayStats.t * list (Z * Z) * list string) (pid : Z)
    : Warehouse.t * DayStats.t * list (Z * Z) * list string :=
  let '(wh, st, writeOffByProduct, log) := acc in
  let '(pk, wh, st) := Warehouse.WriteOffExpired wh pid (product_at products pid) st in
  if 0 <? pk
  then (wh, st, writeOffByProduct ++ [(pid, pk)],
        PushLog log ("Списание (просрочка): " +:+
                     ProductConfig.name (product_at products pid) +:+ " -" +:+
                     to_string pk +:+ " уп."))
  else (wh, st, writeOffByProduct, log).

Definition discount_product (products : list ProductConfig.t)
    (acc : Warehouse.t * list string) (pid : Z) : Warehouse.t * list string :=
  let '(wh, log) := acc in
  let '(aff, wh) := Warehouse.ApplyDiscountIfNeeded wh pid (product_at products pid) in
  if 0 <? aff
  then (wh,
        PushLog log ("Уценка: " +:+ ProductConfig.name (product_at products pid) +:+
                     " (" +:+
                     to_string (cast_int (SFtrunc (ProductConfig.discountPercent
                                                     (product_at products pid)))) +:+
                     "%) затронуто " +:+ to_string aff +:+ " уп."))
  else (wh, log).

Definition order_line (cfg : SimConfig.t) (acc : G * list OrderLine.t) (pid : Z)
    : G * list OrderLine.t :=
  let '(rng, lines) := acc in
  let '(units, rng) :=
    RandInt rng (SimConfig.minUnitsPerLine cfg) (SimConfig.maxUnitsPerLine cfg) in
  (rng, lines ++ [OrderLine.mk pid units 0 0 0]).

Definition shop_order (cfg : SimConfig.t) (products : list ProductConfig.t)
    (wh : Warehouse.t) (day : Z) (acc : G * list Order.t) (s : Z)
    : G * list Order.t :=
  let '(rng, orders) := acc in
  let '(orders_today, rng) := RandBernoulli rng (SimConfig.orderProbability cfg) in
  if negb orders_today then (rng, orders)
  else
    let maxLines := Z.min (SimConfig.maxLinesPerOrder cfg) (SimConfig.K cfg) in
    let '(lines, rng) := RandInt rng 1 (Z.max 1 maxLines) in
    let '(picked, rng) := PickDistinctProductsWeighted cfg products wh rng lines in
    let '(rng, lns) := fold_left (order_line cfg) picked (rng, []) in
    (rng, orders ++ [Order.mk day s lns]).

Definition fulfil_line (products : list ProductConfig.t)
    (acc : Warehouse.t * G * DayStats.t * list OrderLine.t * list (Z * Z))
    (ln : OrderLine.t)
    : Warehouse.t * G * DayStats.t * list OrderLine.t * list (Z * Z) :=
  let '(wh, rng, st, lines, items) := acc in
  let '(wh, ln, rng, st) :=
    Warehouse.FulfillLine wh ln (product_at products (OrderLine.productId ln)) rng st in
  (wh, rng, st, lines ++ [ln],
   if 0 <? OrderLine.deliveredPackages ln
   then items ++ [(OrderLine.productId ln, OrderLine.deliveredPackages ln)]
   else items).

Definition fulfil_order (products : list ProductConfig.t) (day : Z)
    (acc : Warehouse.t * G * DayStats.t * list Order.t * list Shipment.t)
    (o : Order.t)
    : Warehouse.t * G * DayStats.t * list Order.t * list Shipment.t :=
  let '(wh, rng, st, orders, shipmentsTomorrow) := acc in
  let '(wh, rng, st, lines, items) :=
    fold_left (fulfil_line products) (Order.lines o) (wh, rng, st, [], []) in
  (wh, rng, st, orders ++ [Order.mk (Order.day o) (Order.shopId o) lines],
   match items with
   | [] => shipmentsTomorrow
   | _ => shipmentsTomorrow ++ [Shipment.mk (add32 day 1) (Order.shopId o) items]
   end).

Definition AdvanceDay (s : t G) : t G :=
  if SimConfig.N (cfg s) <=? day s then s
  else
    let cfg := cfg s in
    let K := SimConfig.K cfg in
    let '(products, wh) := ClampAllProducts (products s) (wh s) in
    let day := add32 (day s) 1 in
    let log := PushLog (log s) "--------------------------------------------------" in
    let log := PushLog log ("День " +:+ to_string day +:+ " начался.") in
    let ticked := map tick_delivery (pipeline s) in
    let arrivals :=
      map (fun d => (SupplierDelivery.productId d, SupplierDelivery.packages d))
          (filter (fun d => arrived d = true) ticked) in
    let pipeline := filter (fun d => arrived d = false) ticked in
    let '(wh, log) := fold_left (receive_arrival products) arrivals (wh, log) in
    let wh := Warehouse.DecrementShelfLife wh in
    let '(wh, today, writeOffByProduct, log) :=
      fold_left (write_off_product products) (seqZ 0 K)
                (wh, DayStats.zero, [], log) in
    let '(wh, log) := fold_left (discount_product products) (seqZ 0 K) (wh, log) in
    let shipmentsDueToday := default [] (shipmentsByDay s !! day) in
    let '(rng, orders) :=
      fold_left (shop_order cfg products wh day) (seqZ 0 (SimConfig.M cfg))
                (rng s, []) in
    let '(wh, rng, today, orders, shipmentsTomorrow) :=
      fold_left (fulfil_order products day) orders (wh, rng, today, [], []) in
    let '(shipments, log) :=
      match shipmentsTomorrow with
      | [] => (shipmentsByDay s, PushLog log "На завтра перевозок не сформировано.")
      | _ =>
          (<[add32 day 1 :=
               default [] (shipmentsByDay s !! add32 day 1) ++ shipmentsTomorrow]>
             (shipmentsByDay s),
           PushLog log ("Сформировано перевозок на завтра: " +:+
                        to_string (Z.of_nat (length shipmentsTomorrow))))
      end in
    let s1 :=
      fold_left CreateSupplierRequestIfNeeded (seqZ 0 K)
        (mk cfg rng day wh products (shopNames s) pipeline shipments orders
            today (totalStats s) log (dailyAnims s)) in
    let total := DayStats_add (totalStats s1) (todaysStats s1) in
    let log :=
      PushLog (SimulatorImpl.log s1)
        ("Итог дня " +:+ to_string day +:+ ": выручка=" +:+
         FmtMoney (DayStats.revenue (todaysStats s1)) +:+
         ", потери(уценка)=" +:+ FmtMoney (DayStats.discountLoss (todaysStats s1)) +:+
         ", потери(списание)=" +:+ FmtMoney (DayStats.writeOffLoss (todaysStats s1))) in
    let '(anims, rng) :=
      BuildDailyAnimations (SimulatorImpl.rng s1) arrivals (todaysOrders s1)
                           shipmentsDueToday writeOffByProduct in
    mk cfg rng day (SimulatorImpl.wh s1) (SimulatorImpl.products s1) (shopNames s1)
       (SimulatorImpl.pipeline s1) (shipmentsByDay s1) (todaysOrders s1)
       (todaysStats s1) total log anims.

End Methods.

End SimulatorImpl.

(** ** Opaque handle and API

    A [SimulatorHandle*] is [Some] simulator or the null pointer [None]. *)

Abbreviation SimulatorHandle G := (option (SimulatorImpl.t G)).

Section API.
Context {G : Type} `{RandomStream G}.

Definition CreateSimulator (c : SimConfig.t) : SimulatorHandle G :=
  Some (SimulatorImpl.create (ClampConfig c)).

Definition ResetSimulator (h : SimulatorHandle G) (c : SimConfig.t)
    : SimulatorHandle G :=
  match h with
  | None => None
  | Some s => Some (SimulatorImpl.Reset s (ClampConfig c))
  end.

Definition AdvanceDay (h : SimulatorHandle G) : SimulatorHandle G :=
  match h with
  | None => None
  | Some s => Some (SimulatorImpl.AdvanceDay s)
  end.

Definition GetDay (h : SimulatorHandle G) : Z :=
  match h with Some s => SimulatorImpl.day s | None => 0 end.

Definition GetConfigCopy (h : SimulatorHandle G) : SimConfig.t :=
  match h with Some s => SimulatorImpl.cfg s | None => SimConfig.default end.

Definition set_cfg (s : SimulatorImpl.t G) (c : SimConfig.t) : SimulatorImpl.t G :=
  SimulatorImpl.mk c (SimulatorImpl.rng s) (SimulatorImpl.day s) (SimulatorImpl.wh s)
    (SimulatorImpl.products s) (SimulatorImpl.shopNames s) (SimulatorImpl.pipeline s)
    (SimulatorImpl.shipmentsByDay s) (SimulatorImpl.todaysOrders s)
    (SimulatorImpl.todaysStats s) (SimulatorImpl.totalStats s) (SimulatorImpl.log s)
    (SimulatorImpl.dailyAnims s).

Definition SetRuntimeTuning (h : SimulatorHandle G) (orderProbability : float)
    (maxLinesPerOrder minUnitsPerLine maxUnitsPerLine : Z)
    (discountDemandBoost secondsPerDay : float) : SimulatorHandle G :=
  match h with
  | None => None
  | Some s =>
      let c := SimulatorImpl.cfg s in
      Some (set_cfg s
              (ClampConfig
                 (SimConfig.mk (SimConfig.N c) (SimConfig.M c) (SimConfig.K c)
                    (SimConfig.seed c) orderProbability maxLinesPerOrder
                    minUnitsPerLine maxUnitsPerLine discountDemandBoost
                    (SimConfig.supplierLeadTimeMin c)
                    (SimConfig.supplierLeadTimeMax c) secondsPerDay)))
  end.

Definition GetTodaysStats (h : SimulatorHandle G) : DayStats.t :=
  match h with Some s => SimulatorImpl.todaysStats s | None => DayStats.zero end.

Definition GetTotalStats (h : SimulatorHandle G) : DayStats.t :=
  match h with Some s => SimulatorImpl.totalStats s | None => DayStats.zero end.

Definition GetShopNames (h : SimulatorHandle G) : list string :=
  match h with Some s => SimulatorImpl.shopNames s | None => [] end.

Definition GetProductConfigs (h : SimulatorHandle G) : list ProductConfig.t :=
  match h with Some s => SimulatorImpl.products s | None => [] end.

Definition set_products (s : SimulatorImpl.t G)
    (pw : list ProductConfig.t * Warehouse.t) : SimulatorImpl.t G :=
  SimulatorImpl.mk (SimulatorImpl.cfg s) (SimulatorImpl.rng s) (SimulatorImpl.day s)
    pw.2 pw.1 (SimulatorImpl.shopNames s) (SimulatorImpl.pipeline s)
    (SimulatorImpl.shipmentsByDay s) (SimulatorImpl.todaysOrders s)
    (SimulatorImpl.todaysStats s) (SimulatorImpl.totalStats s) (SimulatorImpl.log s)
    (SimulatorImpl.dailyAnims s).

Definition SetProductConfigs (h : SimulatorHandle G) (l : list ProductConfig.t)
    : SimulatorHandle G :=
  match h with
  | None => None
  | Some s =>
      if negb (Z.of_nat (length l) =? SimConfig.K (SimulatorImpl.cfg s)) then Some s
      else Some (set_products s
                   (SimulatorImpl.ClampAllProducts l (SimulatorImpl.wh s)))
  end.

Definition GetStockPackages (h : SimulatorHandle G) (pid : Z) : Z :=
  match h with
  | Some s => Warehouse.TotalPackages (SimulatorImpl.wh s) pid
  | None => 0
  end.

Definition HasDiscountStock (h : SimulatorHandle G) (pid : Z) : bool :=
  match h with
  | Some s => Warehouse.HasDiscountStock (SimulatorImpl.wh s) pid
  | None => false
  end.

Definition order_rows (o : Order.t) : list OrderRow.t :=
  map (fun ln =>
         OrderRow.mk (Order.shopId o) (OrderLine.productId ln)
           (OrderLine.requestedUnits ln) (OrderLine.chosenPackages ln)
           (OrderLine.deliveredPackages ln) (OrderLine.deliveredUnits ln))
      (Order.lines o).

Definition GetTodaysOrderRows (h : SimulatorHandle G) : list OrderRow.t :=
  match h with
  | Some s => concat (map order_rows (SimulatorImpl.todaysOrders s))
  | None => []
  end.

Definition GetLog (h : SimulatorHandle G) (maxLines : Z) : list string :=
  match h with
  | None => []
  | Some s =>
      let maxLines := Z.max 1 maxLines in
      let size := Z.of_nat (length (SimulatorImpl.log s)) in
      let start := if maxLines <? size then size - maxLines else 0 in
      drop (Z.to_nat start) (SimulatorImpl.log s)
  end.

Definition GetDailyAnims (h : SimulatorHandle G) : list Anim.t :=
  match h with Some s => SimulatorImpl.dailyAnims s | None => [] end.

End API.

(** ** Runs of the API

    A client drives one handle by a sequence of calls. *)

Inductive Action :=
| DoAdvanceDay
| DoReset (c : SimConfig.t)
| DoSetRuntimeTuning (orderProbability : float)
    (maxLinesPerOrder minUnitsPerLine maxUnitsPerLine : Z)
    (discountDemandBoost secondsPerDay : float)
| DoSetProductConfigs (l : list ProductConfig.t).

Section Runs.
Context {G : Type} `{RandomStream G}.

Definition perform (h : SimulatorHandle G) (a : Action) : SimulatorHandle G :=
  match a with
  | DoAdvanceDay => AdvanceDay h
  | DoReset c => ResetSimulator h c
  | DoSetRuntimeTuning p maxL minU maxU boost spd =>
      SetRuntimeTuning h p maxL minU maxU boost spd
  | DoSetProductConfigs l => SetProductConfigs h l
  end.

Definition run (h : SimulatorHandle G) (acts : list Action) : SimulatorHandle G :=
  fold_left perform acts h.

(** [AdvanceDay] simulates a day exactly when [day < N]. *)
Definition simulates_a_day (h : SimulatorHandle G) : bool :=
  match h with
  | Some s => SimulatorImpl.day s <? SimConfig.N (SimulatorImpl.cfg s)
  | None => false
  end.

(** The run, together with [todaysStats] as it stood at the end of every
    day simulated since the last reset, oldest day first. *)
Definition record_day (acc : SimulatorHandle G * list DayStats.t) (a : Action)
    : SimulatorHandle G * list DayStats.t :=
  let '(h, days) := acc in
  let h' := perform h a in
  (h',
   match a with
   | DoAdvanceDay => if simulates_a_day h then days ++ [GetTodaysStats h'] else days
   | DoReset _ => []
   | _ => days
   end).

Definition days_since_reset (h : SimulatorHandle G) (acts : list Action)
    : list DayStats.t :=
  (fold_left record_day acts (h, [])).2.

(** What a client observes of a handle. *)
Definition observe (h : SimulatorHandle G) (maxLines : Z)
    : Z * DayStats.t * DayStats.t * list OrderRow.t * list string :=
  (GetDay h, GetTodaysStats h, GetTotalStats h, GetTodaysOrderRows h,
   GetLog h maxLines).

End Runs.

(** ** A concrete random stream

    A linear congruential generator with the three draws reduced to the
    simplest functions inside the standard's ranges; it instantiates the
    interface wherever a run of the simulator is evaluated. *)

Definition lcg_next (g : Z) : Z := (g * 48271 + 11) mod 2147483647.

#[global] Instance lcg_stream : RandomStream Z := {
  rng_seed z := z mod 2147483647;
  uniform_int g lo hi := (lo + lcg_next g mod (hi - lo + 1), lcg_next g);
  uniform_real g lo hi := (lo, lcg_next g);
  bernoulli g p := (SFltb (F32.div (F32.of_int (lcg_next g mod 1000)) (F32.of_int 1000)) p,
                    lcg_next g) }.

(** ** Concrete runs used to instantiate the statements below *)

Definition demo_handle : SimulatorHandle Z := CreateSimulator SimConfig.default.

Definition demo_sim : SimulatorImpl.t Z := SimulatorImpl.create SimConfig.default.

(** Twenty days of the default configuration: the terminal state. *)
Definition demo_terminal : SimulatorImpl.t Z :=
  Eval vm_compute in Nat.iter 20 SimulatorImpl.AdvanceDay demo_sim.

Definition demo_line (units : Z) : OrderLine.t := OrderLine.mk 0 units 0 0 0.

(** The reorder scenario: threshold 6, capacity 20, reorder amount 12 (the
    default product), 4 packages in stock and nothing incoming. *)
Definition reorder_scenario : SimulatorImpl.t Z :=
  SimulatorImpl.mk SimConfig.default 1 0
    [[Batch.mk 4 14 false f1]] [ProductConfig.default] [] [] ∅ []
    DayStats.zero DayStats.zero [] [].


Definition edited_config : SimConfig.t :=
  SimConfig.mk 20 5 12 12345 (F32.lit 85 100) 6 5 120 (F32.of_int 2) 1 1
               (F32.of_int 6).



Definition expired (b : Batch.t) : Prop := Batch.daysLeft b <= 0.

(** A product sold by the unit, and a request too large for a [float]. *)
Definition unit_product : ProductConfig.t :=
  ProductConfig.mk "Product" "pcs" 1 20 14 3 f1 (F32.of_int 25) 6 12.

Definition large_line : OrderLine.t := OrderLine.mk 0 16777217 0 0 0.

(** ** Vocabulary of the rounding proofs *)

(** [located N D k mrs]: the record [mrs = (m, r, s)] describes the real number
    [N / (D * 2^k)]: [m] is its integer part and the two bits say where the
    remainder [rem] lies with respect to one half. *)
Definition located (N D : Z) (k : Z) (mrs : shr_record) : Prop :=
  exists rem,
    N = shr_m mrs * (D * 2 ^ k) + rem /\ 0 <= rem < D * 2 ^ k /\
    match shr_r mrs, shr_s mrs with
    | false, false => rem = 0
    | false, true => 0 < 2 * rem < D * 2 ^ k
    | true, false => 2 * rem = D * 2 ^ k
    | true, true => D * 2 ^ k < 2 * rem
    end.

(** The canonical binary32 representation of the positive number
    [a * 2^c], for an integer [a] of at most 24 digits. *)
Definition canon (a c : Z) : float :=
  S754_finite false (Z.to_pos (a * 2 ^ (24 - Zdigits2 a))) (c + Zdigits2 a - 24).


(** ** Vocabulary of the invariants *)

(** The packages of a queue, and the packages under way for a product, as
    sums of integers without wrap-around. *)
Definition packages_of (dq : list Batch.t) : Z :=
  foldr (fun b n => Batch.packages b + n) 0 dq.

Definition incoming_of (pipeline : list SupplierDelivery.t) (pid : Z) : Z :=
  foldr (fun d n => if SupplierDelivery.productId d =? pid
                    then SupplierDelivery.packages d + n else n)
        0 pipeline.

Definition positive_batches (dq : list Batch.t) : Prop :=
  Forall (fun b => 0 < Batch.packages b) dq.

(** [wh'] holds, product by product, no more than [wh], and no empty batch
    where [wh] held none. *)
Definition shrinks (wh wh' : Warehouse.t) : Prop :=
  forall q, positive_batches (Warehouse.queue wh q) ->
            packages_of (Warehouse.queue wh q) <= 5000 ->
            positive_batches (Warehouse.queue wh' q) /\
            packages_of (Warehouse.queue wh' q)
            <= packages_of (Warehouse.queue wh q).

(** The orders of a day.  A line as it is requested: a product of the
    catalogue and a number of units within the configured bounds.  A line
    as it is served: no more packages delivered than chosen, and the units
    delivered are the packages delivered times the package size, in [int]
    arithmetic. *)
Definition line_requested (cfg : SimConfig.t) (ln : OrderLine.t) : Prop :=
  0 <= OrderLine.productId ln < SimConfig.K cfg /\
  SimConfig.minUnitsPerLine cfg <= OrderLine.requestedUnits ln
    <= SimConfig.maxUnitsPerLine cfg.

Definition line_served (products : list ProductConfig.t) (ln : OrderLine.t) : Prop :=
  OrderLine.deliveredPackages ln <= OrderLine.chosenPackages ln /\
  OrderLine.deliveredUnits ln
  = mul32 (OrderLine.deliveredPackages ln)
          (ProductConfig.unitsPerPackage (product_at products (OrderLine.productId ln))).

Definition order_ok (cfg : SimConfig.t) (products : list ProductConfig.t)
    (day : Z) (o : Order.t) : Prop :=
  Order.day o = day /\
  0 <= Order.shopId o < SimConfig.M cfg /\
  NoDup (map OrderLine.productId (Order.lines o)) /\
  Forall (line_requested cfg) (Order.lines o) /\
  Forall (line_served products) (Order.lines o).

(** A product as [Reset] generates it: the integer members within the
    ranges of their draws, the derived members as computed from them. *)
Definition generated_product (p : ProductConfig.t) : Prop :=
  ProductConfig.unitName p = "ед." /\
  6 <= ProductConfig.unitsPerPackage p <= 24 /\
  18 <= ProductConfig.capacityPackages p <= 40 /\
  7 <= ProductConfig.shelfLifeDays p <= 25 /\
  ProductConfig.discountBeforeDays p
  = Z.min 5 (Z.max 2 (Z.quot (ProductConfig.shelfLifeDays p) 5)) /\
  ProductConfig.discountPercent p = F32.of_int 25 /\
  ProductConfig.reorderThreshold p
  = Z.max 3 (Z.quot (ProductConfig.capacityPackages p) 5) /\
  ProductConfig.reorderAmount p
  = Z.max 4 (Z.quot (ProductConfig.capacityPackages p) 2).

(** The shipment trucks an order gives rise to, as (shop, packages): none
    if no line delivered a package, otherwise one truck for the order's shop
    with the packages its lines delivered. *)
Definition order_truck (o : Order.t) : list (Z * Z) :=
  let delivered :=
    map OrderLine.deliveredPackages
        (List.filter (fun ln => 0 <? OrderLine.deliveredPackages ln) (Order.lines o)) in
  match delivered with
  | [] => []
  | _ :: _ => [(Order.shopId o, fold_left add32 delivered 0)]
  end.

(** The shipment trucks among the animations of a day, as (shop, packages). *)
Definition shipment_trucks (anims : list Anim.t) : list (Z * Z) :=
  map (fun a => (Anim.shopId a, Anim.payload a))
      (List.filter (fun a => match Anim.type a with ShipmentTruck => true | _ => false end)
                   anims).

Section Invariants.
Context {G : Type}.

(** The shape of a simulator: a normalised configuration, the day within
    the horizon, [K] products and queues, [M] shops, normalised products and
    a log within its bound. *)
Definition well_formed (s : SimulatorImpl.t G) : Prop :=
  ClampConfig (SimulatorImpl.cfg s) = SimulatorImpl.cfg s /\
  0 <= SimulatorImpl.day s <= SimConfig.N (SimulatorImpl.cfg s) /\
  Z.of_nat (length (SimulatorImpl.products s)) = SimConfig.K (SimulatorImpl.cfg s) /\
  Z.of_nat (length (SimulatorImpl.wh s)) = SimConfig.K (SimulatorImpl.cfg s) /\
  Z.of_nat (length (SimulatorImpl.shopNames s)) = SimConfig.M (SimulatorImpl.cfg s) /\
  Forall (fun p => ClampProduct p = p) (SimulatorImpl.products s) /\
  (1 <= length (SimulatorImpl.log s) <= 400)%nat.

(** The stock of a simulator: no empty batch is kept, every delivery under
    way is for a product of the catalogue, carries packages and is at least
    a day away, and what a product holds and awaits never exceeds the
    largest capacity a product can have. *)
Definition well_stocked (s : SimulatorImpl.t G) : Prop :=
  Forall positive_batches (SimulatorImpl.wh s) /\
  Forall (fun d => 0 <= SupplierDelivery.productId d < SimConfig.K (SimulatorImpl.cfg s) /\
                   0 < SupplierDelivery.packages d /\
                   1 <= SupplierDelivery.daysUntilArrival d <= 60)
         (SimulatorImpl.pipeline s) /\
  forall pid,
    packages_of (Warehouse.queue (SimulatorImpl.wh s) pid) +
    incoming_of (SimulatorImpl.pipeline s) pid <= 5000.

End Invariants.

(** The sum of a list of integers, without wrap-around. *)
Definition sum_of (l : list Z) : Z := foldr Z.add 0 l.

(** No product edit since the simulator was created or last reset. *)
Definition unedited (acts : list Action) : bool :=
  fold_left (fun ok a => match a with
                         | DoReset _ => true
                         | DoSetProductConfigs _ => false
                         | _ => ok
                         end)
            acts true.

(** ** Two runs with edited products *)

(** A product with the given capacity, reordered up to that capacity
    whenever it is below it. *)
Definition with_capacity (cap : Z) (p : ProductConfig.t) : ProductConfig.t :=
  ProductConfig.mk (ProductConfig.name p) (ProductConfig.unitName p)
    (ProductConfig.unitsPerPackage p) cap
    (ProductConfig.shelfLifeDays p) (ProductConfig.discountBeforeDays p)
    (ProductConfig.basePricePerUnit p) (ProductConfig.discountPercent p)
    cap cap.

Definition refill (p : ProductConfig.t) : ProductConfig.t :=
  with_capacity (ProductConfig.capacityPackages p) p.

(** A capacity lowered below the stock: lead time 1, no orders, every
    product reordered up to its capacity, one day; then the editor sets the
    capacity of product 1 to 2, and a second day receives the requests of
    the first. *)
Definition lowered_prefix : list Action :=
  [ DoSetRuntimeTuning f0 6 5 120 (F32.of_int 2) (F32.of_int 6);
    DoSetProductConfigs
      (map refill (GetProductConfigs (CreateSimulator (G := Z) edited_config)));
    DoAdvanceDay ].

Definition lowered_edit : Action :=
  DoSetProductConfigs
    (alter (with_capacity 2) 1%nat
       (GetProductConfigs
          (run (CreateSimulator (G := Z) edited_config) lowered_prefix))).

Definition lowered_run : list Action :=
  lowered_prefix ++ [lowered_edit; DoAdvanceDay].

(** Bulk trade, every setting within its clamp: 30 days, 9 shops that
    order every day up to 20 lines of 5,000,000 units, 20 products of 1000
    units per package with capacity 5000, reordered up to the capacity with
    lead time 1; 25 days. *)
Definition bulk_config : SimConfig.t :=
  SimConfig.mk 30 9 20 12345 f1 20 5000000 5000000 (F32.of_int 2) 1 1
               (F32.of_int 6).

Definition bulk (p : ProductConfig.t) : ProductConfig.t :=
  ProductConfig.mk (ProductConfig.name p) (ProductConfig.unitName p)
    1000 5000
    (ProductConfig.shelfLifeDays p) (ProductConfig.discountBeforeDays p)
    (ProductConfig.basePricePerUnit p) (ProductConfig.discountPercent p)
    5000 5000.

Definition bulk_run : list Action :=
  DoSetProductConfigs
    (map bulk (GetProductConfigs (CreateSimulator (G := Z) bulk_config)))
  :: replicate 25 DoAdvanceDay.

(** * Properties *)

(** ** 32-bit arithmetic *)

Lemma wrap32_range x : is_int (wrap32 x).
Proof.
  unfold is_int, wrap32, INT_MIN, INT_MAX.
  pose proof (Z.mod_pos_bound (x + 2 ^ 31) (2 ^ 32)). lia.
Qed.

Lemma wrap32_id x : is_int x -> wrap32 x = x.
Proof.
  unfold is_int, wrap32, INT_MIN, INT_MAX. intros Hx.
  rewrite Z.mod_small; lia.
Qed.

Lemma sub32_diag x : sub32 x x = 0.
Proof. unfold sub32. rewrite Z.sub_diag. reflexivity. Qed.

(** ** Queues *)

Section QueueFacts.
Import Warehouse.

Lemma valid_pid_lt {A} (v : list A) pid :
  valid_pid v pid = true -> (Z.to_nat pid < length v)%nat.
Proof. unfold valid_pid. intros Hv. apply andb_true_iff in Hv. lia. Qed.

Lemma valid_pid_set_queue wh pid dq q :
  valid_pid (set_queue wh pid dq) q = valid_pid wh q.
Proof.
  unfold set_queue. destruct (valid_pid wh pid); [|done].
  unfold valid_pid. by rewrite length_insert.
Qed.

Lemma queue_set_queue wh pid dq :
  valid_pid wh pid = true -> queue (set_queue wh pid dq) pid = dq.
Proof.
  intros Hv. unfold queue. rewrite valid_pid_set_queue, Hv.
  unfold set_queue. rewrite Hv.
  apply list_lookup_total_insert_eq. by apply valid_pid_lt.
Qed.

Lemma queue_set_queue_ne wh pid dq q :
  q ≠ pid -> queue (set_queue wh pid dq) q = queue wh q.
Proof.
  intros Hne. unfold queue. rewrite valid_pid_set_queue.
  destruct (valid_pid wh q) eqn:Hq; [|done].
  unfold set_queue. destruct (valid_pid wh pid) eqn:Hp; [|done].
  apply list_lookup_total_insert_ne.
  unfold valid_pid in *. apply andb_true_iff in Hq, Hp. lia.
Qed.

Lemma set_queue_twice wh pid dq dq' :
  set_queue (set_queue wh pid dq) pid dq' = set_queue wh pid dq'.
Proof.
  unfold set_queue at 1. rewrite valid_pid_set_queue.
  unfold set_queue. destruct (valid_pid wh pid); [|done].
  apply list_insert_insert_eq.
Qed.

Lemma queue_invalid wh pid : valid_pid wh pid = false -> queue wh pid = [].
Proof. unfold queue. by intros ->. Qed.

End QueueFacts.

(** The loop of [FulfillLine] ends on a batch it does not empty: the
    packages taken are then all that remained to give. *)
Lemma drain_stops (remaining packages : Z) :
  let take := Z.min remaining packages in
  sub32 packages take ≠ 0 -> sub32 remaining take = 0.
Proof.
  intros take Hleft. subst take.
  destruct (Z.min_spec remaining packages) as [[_ E]|[_ E]]; rewrite E in *.
  - apply sub32_diag.
  - by rewrite sub32_diag in Hleft.
Qed.

(** ** Frame properties of the guards *)

(** C10. A line with [requestedUnits <= 0], or a product with
    [unitsPerPackage <= 0], makes [FulfillLine] return at once: the
    generator, the line, the batch queues and the day statistics are the
    ones passed in. *)
Theorem FulfillLine_early_return {G} `{RandomStream G}
    (wh : Warehouse.t) (line : OrderLine.t) (pc : ProductConfig.t) (rng : G)
    (st : DayStats.t) :
  OrderLine.requestedUnits line <= 0 \/ ProductConfig.unitsPerPackage pc <= 0 ->
  Warehouse.FulfillLine wh line pc rng st = (wh, line, rng, st).
Proof.
  intros Hguard. unfold Warehouse.FulfillLine.
  destruct (OrderLine.requestedUnits line <=? 0) eqn:Hr; [reflexivity|].
  destruct (ProductConfig.unitsPerPackage pc <=? 0) eqn:Hu; [reflexivity|].
  lia.
Qed.

Lemma FulfillLine_early_return_witness :
  Warehouse.FulfillLine (SimulatorImpl.wh demo_sim) (demo_line 0)
    ProductConfig.default (5 : Z) DayStats.zero
  = (SimulatorImpl.wh demo_sim, demo_line 0, 5, DayStats.zero).
Proof.
  apply (FulfillLine_early_return (G := Z)).
  left. simpl. lia.
Defined.

(** The day guard of [AdvanceDay]. *)
Lemma AdvanceDay_guard {G} `{RandomStream G} (s : SimulatorImpl.t G) :
  SimConfig.N (SimulatorImpl.cfg s) <= SimulatorImpl.day s ->
  SimulatorImpl.AdvanceDay s = s.
Proof.
  intros Hday. unfold SimulatorImpl.AdvanceDay.
  destruct (Z.leb_spec (SimConfig.N (SimulatorImpl.cfg s)) (SimulatorImpl.day s));
    [reflexivity | lia].
Qed.

(** C8. Once [day >= N], [AdvanceDay] returns the simulator it was given:
    day, warehouse, pipeline, orders, statistics, log, animations and
    generator are untouched. *)
Theorem AdvanceDay_noop_past_N {G} `{RandomStream G} (s : SimulatorImpl.t G) :
  SimConfig.N (SimulatorImpl.cfg s) <= SimulatorImpl.day s ->
  SimulatorImpl.AdvanceDay s = s /\ AdvanceDay (Some s) = Some s.
Proof.
  intros Hday. unfold AdvanceDay. rewrite (AdvanceDay_guard s Hday).
  split; reflexivity.
Qed.

Lemma AdvanceDay_noop_past_N_witness :
  SimulatorImpl.AdvanceDay demo_terminal = demo_terminal /\
  AdvanceDay (Some demo_terminal) = Some demo_terminal.
Proof.
  apply AdvanceDay_noop_past_N. vm_compute. discriminate.
Defined.

(** ** The product editor *)

(** C9. [SetProductConfigs] with a list whose length is not [K] returns the
    simulator unchanged.  With a list of length [K] the product list becomes
    the given list, normalised by [ClampProduct] (every earlier parameter is
    gone; a list that is already normalised is stored as it is), the batches
    are repriced, and no other member changes. *)
Theorem SetProductConfigs_length_guard {G} `{RandomStream G}
    (s : SimulatorImpl.t G) (l : list ProductConfig.t) :
  (Z.of_nat (length l) ≠ SimConfig.K (SimulatorImpl.cfg s) ->
   SetProductConfigs (Some s) l = Some s) /\
  (Z.of_nat (length l) = SimConfig.K (SimulatorImpl.cfg s) ->
   exists s',
     SetProductConfigs (Some s) l = Some s' /\
     SimulatorImpl.products s' = map ClampProduct l /\
     (Forall (fun p => ClampProduct p = p) l -> SimulatorImpl.products s' = l) /\
     SimulatorImpl.wh s' = (SimulatorImpl.ClampAllProducts l (SimulatorImpl.wh s)).2 /\
     set_products s' (SimulatorImpl.products s, SimulatorImpl.wh s) = s).
Proof.
  unfold SetProductConfigs. split; intros Hlen.
  - destruct (Z.of_nat (length l) =? SimConfig.K (SimulatorImpl.cfg s)) eqn:E;
      [lia | reflexivity].
  - destruct (Z.of_nat (length l) =? SimConfig.K (SimulatorImpl.cfg s)) eqn:E;
      [|lia].
    eexists. split; [reflexivity|]. simpl. repeat split.
    + intros Hnorm. clear Hlen E.
      induction Hnorm as [|p l' Hp _ IH]; [reflexivity|].
      simpl. by rewrite Hp, IH.
    + destruct s; reflexivity.
Qed.

Lemma SetProductConfigs_length_guard_witness :
  SetProductConfigs (Some demo_sim) [] = Some demo_sim /\
  exists s',
    SetProductConfigs (Some demo_sim) (SimulatorImpl.products demo_sim) = Some s' /\
    SimulatorImpl.products s' = map ClampProduct (SimulatorImpl.products demo_sim).
Proof.
  split.
  - apply (SetProductConfigs_length_guard demo_sim []). vm_compute. discriminate.
  - destruct (SetProductConfigs_length_guard demo_sim (SimulatorImpl.products demo_sim))
      as [_ Hok].
    destruct Hok as (s' & Hs' & Hp & _); [vm_compute; reflexivity|].
    exists s'. split; assumption.
Defined.

(** ** The discount pass *)

Lemma discount_batches_settled pc dq acc acc' :
  Warehouse.discount_batches pc (snd (Warehouse.discount_batches pc dq acc)) acc'
  = (acc', snd (Warehouse.discount_batches pc dq acc)).
Proof.
  revert acc acc'. induction dq as [|b rest IH]; intros acc acc'; [reflexivity|].
  simpl. destruct (Warehouse.discount_due pc b) eqn:Hdue.
  - specialize (IH (add32 acc (Batch.packages b)) acc').
    destruct (Warehouse.discount_batches pc rest (add32 acc (Batch.packages b)))
      as [n rest'] eqn:E.
    simpl in *. rewrite IH. reflexivity.
  - specialize (IH acc acc').
    destruct (Warehouse.discount_batches pc rest acc) as [n rest'] eqn:E.
    simpl in *. rewrite Hdue, IH. reflexivity.
Qed.

(** C7. A second [ApplyDiscountIfNeeded] for the same product and the same
    product configuration changes nothing and reports 0 affected packages. *)
Theorem ApplyDiscountIfNeeded_twice (wh : Warehouse.t) (pid : Z)
    (pc : ProductConfig.t) :
  Warehouse.ApplyDiscountIfNeeded
    (snd (Warehouse.ApplyDiscountIfNeeded wh pid pc)) pid pc
  = (0, snd (Warehouse.ApplyDiscountIfNeeded wh pid pc)).
Proof.
  unfold Warehouse.ApplyDiscountIfNeeded.
  destruct (Warehouse.valid_pid wh pid) eqn:Hv; simpl.
  - destruct (Warehouse.discount_batches pc (Warehouse.queue wh pid) 0)
      as [n dq] eqn:E. simpl.
    rewrite valid_pid_set_queue, Hv. simpl.
    rewrite queue_set_queue by exact Hv.
    pose proof (discount_batches_settled pc (Warehouse.queue wh pid) 0 0) as Hs.
    rewrite E in Hs. simpl in Hs. rewrite Hs.
    by rewrite set_queue_twice.
  - by rewrite Hv.
Qed.

(** ** The concrete stream satisfies the range contract *)

Lemma SFcompare_refl x : x ≠ S754_nan -> SFcompare x x = Some Eq.
Proof.
  destruct x as [s|s| |s m e]; intros Hx; try done; simpl.
  - by destruct s.
  - rewrite Z.compare_refl, Pos.compare_cont_refl. by destruct s.
Qed.

Lemma SFltb_not_nan x y : SFltb x y = true -> x ≠ S754_nan.
Proof. intros Hlt ->. discriminate Hlt. Qed.

Lemma lcg_laws : RandomStreamLaws Z.
Proof.
  split.
  - intros g lo hi Hle. simpl.
    pose proof (Z.mod_pos_bound (lcg_next g) (hi - lo + 1)). lia.
  - intros g lo hi Hlo Hhi Hlt. simpl. repeat split; [exact Hlo| |exact Hlt].
    unfold SFleb. by rewrite SFcompare_refl by (by eapply SFltb_not_nan).
Qed.

(** ** The supplier pipeline *)

(** C6. With [stock] the packages in the warehouse plus the packages
    incoming, [CreateSupplierRequestIfNeeded] appends one delivery exactly
    when [stock < reorderThreshold] and
    [min(reorderAmount, max(0, capacityPackages - stock)) > 0]; the delivery
    carries that quantity and a lead time that is one draw of the integer
    distribution on [[supplierLeadTimeMin, supplierLeadTimeMax]], inside
    that interval; otherwise the simulator, and so the pipeline, is left as
    it was. *)
Theorem CreateSupplierRequestIfNeeded_iff {G} `{RandomStreamLaws G}
    (s : SimulatorImpl.t G) (pid : Z) :
  let pc := product_at (SimulatorImpl.products s) pid in
  let stock := Warehouse.TotalPackages (SimulatorImpl.wh s) pid +
               SimulatorImpl.IncomingPackages (SimulatorImpl.pipeline s) pid in
  let want := Z.min (ProductConfig.reorderAmount pc)
                    (Z.max 0 (ProductConfig.capacityPackages pc - stock)) in
  let lo := SimConfig.supplierLeadTimeMin (SimulatorImpl.cfg s) in
  let hi := SimConfig.supplierLeadTimeMax (SimulatorImpl.cfg s) in
  let draw := RandInt (SimulatorImpl.rng s) lo hi in
  let s' := SimulatorImpl.CreateSupplierRequestIfNeeded s pid in
  is_int stock -> is_int (ProductConfig.capacityPackages pc - stock) -> lo <= hi ->
  (stock < ProductConfig.reorderThreshold pc /\ 0 < want ->
   SimulatorImpl.pipeline s' =
     SimulatorImpl.pipeline s ++ [SupplierDelivery.mk pid want draw.1] /\
   lo <= draw.1 <= hi /\
   SimulatorImpl.rng s' = draw.2) /\
  (~ (stock < ProductConfig.reorderThreshold pc /\ 0 < want) -> s' = s).
Proof.
  intros pc stock want lo hi draw s' Hstock Hfree Hlohi.
  subst s'. unfold SimulatorImpl.CreateSupplierRequestIfNeeded.
  unfold add32, sub32.
  change (product_at (SimulatorImpl.products s) pid) with pc.
  change (Warehouse.TotalPackages (SimulatorImpl.wh s) pid +
          SimulatorImpl.IncomingPackages (SimulatorImpl.pipeline s) pid) with stock.
  rewrite (wrap32_id stock Hstock), (wrap32_id _ Hfree).
  change (Z.min (ProductConfig.reorderAmount pc)
                (Z.max 0 (ProductConfig.capacityPackages pc - stock))) with want.
  change (RandInt (SimulatorImpl.rng s) _ _) with draw.
  destruct (stock <? ProductConfig.reorderThreshold pc) eqn:Ht;
    [destruct (0 <? want) eqn:Hw|].
  - split; [|lia]. intros _. destruct draw as [lead rng'] eqn:Hd. simpl.
    repeat split; try reflexivity.
    + pose proof (uniform_int_range (SimulatorImpl.rng s) lo hi Hlohi) as Hr.
      unfold draw, RandInt in Hd. rewrite Hd in Hr. simpl in Hr. lia.
    + pose proof (uniform_int_range (SimulatorImpl.rng s) lo hi Hlohi) as Hr.
      unfold draw, RandInt in Hd. rewrite Hd in Hr. simpl in Hr. lia.
  - split; [lia|reflexivity].
  - split; [lia|reflexivity].
Qed.

Lemma CreateSupplierRequestIfNeeded_iff_witness :
  exists lead,
    SimulatorImpl.pipeline (SimulatorImpl.CreateSupplierRequestIfNeeded reorder_scenario 0)
    = [SupplierDelivery.mk 0 12 lead] /\ 1 <= lead <= 5.
Proof.
  pose proof (@CreateSupplierRequestIfNeeded_iff Z lcg_stream lcg_laws
                reorder_scenario 0) as Hspec.
  cbv zeta in Hspec.
  destruct Hspec as [Hyes _]; [vm_compute; split; discriminate..| vm_compute; discriminate |].
  destruct Hyes as (Hp & Hr & _); [vm_compute; split; reflexivity|].
  eexists. split; [exact Hp | exact Hr].
Defined.

(** ** Statistics *)

Ltac destruct_lets :=
  repeat match goal with
         | |- context [let '(_, _) := ?x in _] => destruct x
         end.

Lemma CreateSupplierRequestIfNeeded_stats {G} `{RandomStream G}
    (s : SimulatorImpl.t G) pid :
  SimulatorImpl.todaysStats (SimulatorImpl.CreateSupplierRequestIfNeeded s pid)
    = SimulatorImpl.todaysStats s /\
  SimulatorImpl.totalStats (SimulatorImpl.CreateSupplierRequestIfNeeded s pid)
    = SimulatorImpl.totalStats s.
Proof.
  unfold SimulatorImpl.CreateSupplierRequestIfNeeded.
  repeat (destruct (_ <? _)); destruct_lets; split; reflexivity.
Qed.

Lemma supplier_requests_stats {G} `{RandomStream G} (s : SimulatorImpl.t G) pids :
  SimulatorImpl.todaysStats (fold_left SimulatorImpl.CreateSupplierRequestIfNeeded pids s)
    = SimulatorImpl.todaysStats s /\
  SimulatorImpl.totalStats (fold_left SimulatorImpl.CreateSupplierRequestIfNeeded pids s)
    = SimulatorImpl.totalStats s.
Proof.
  revert s. induction pids as [|pid pids IH]; intros s; [by split|].
  simpl. destruct (IH (SimulatorImpl.CreateSupplierRequestIfNeeded s pid)) as [-> ->].
  apply CreateSupplierRequestIfNeeded_stats.
Qed.

(** One simulated day folds the day's statistics into the totals. *)
Lemma AdvanceDay_totals {G} `{RandomStream G} (s : SimulatorImpl.t G) :
  SimulatorImpl.day s < SimConfig.N (SimulatorImpl.cfg s) ->
  SimulatorImpl.totalStats (SimulatorImpl.AdvanceDay s)
  = SimulatorImpl.DayStats_add (SimulatorImpl.totalStats s)
      (SimulatorImpl.todaysStats (SimulatorImpl.AdvanceDay s)).
Proof.
  intros Hday. unfold SimulatorImpl.AdvanceDay.
  destruct (SimConfig.N (SimulatorImpl.cfg s) <=? SimulatorImpl.day s) eqn:Hg; [lia|].
  destruct_lets.
  match goal with
  | |- context [fold_left SimulatorImpl.CreateSupplierRequestIfNeeded ?pids ?s0] =>
      destruct (supplier_requests_stats s0 pids) as [Htoday Htotal];
      set (s1 := fold_left SimulatorImpl.CreateSupplierRequestIfNeeded pids s0) in *
  end.
  destruct_lets. simpl. rewrite Htotal. reflexivity.
Qed.

Lemma fold_DayStats_add days acc :
  fold_left SimulatorImpl.DayStats_add days acc =
  DayStats.mk
    (fold_left F64.add (map DayStats.revenue days) (DayStats.revenue acc))
    (fold_left F64.add (map DayStats.discountLoss days) (DayStats.discountLoss acc))
    (fold_left F64.add (map DayStats.writeOffLoss days) (DayStats.writeOffLoss acc))
    (fold_left add32 (map DayStats.totalSoldUnits days) (DayStats.totalSoldUnits acc))
    (fold_left add32 (map DayStats.totalWriteOffUnits days)
               (DayStats.totalWriteOffUnits acc)).
Proof.
  revert acc. induction days as [|d days IH]; intros acc; [by destruct acc|].
  simpl. rewrite IH. reflexivity.
Qed.

Lemma record_day_run {G} `{RandomStream G} acts (h : SimulatorHandle G) days :
  (fold_left record_day acts (h, days)).1 = run h acts.
Proof.
  revert h days. induction acts as [|a acts IH]; intros h days; [reflexivity|].
  simpl. apply IH.
Qed.

Lemma totals_invariant {G} `{RandomStream G} acts (h : SimulatorHandle G) days :
  GetTotalStats h = fold_left SimulatorImpl.DayStats_add days DayStats.zero ->
  GetTotalStats (fold_left record_day acts (h, days)).1
  = fold_left SimulatorImpl.DayStats_add (fold_left record_day acts (h, days)).2
      DayStats.zero.
Proof.
  revert h days. induction acts as [|a acts IH]; intros h days Hinv; [exact Hinv|].
  simpl. apply IH. destruct a as [|c|p maxL minU maxU boost spd|l]; simpl.
  - destruct h as [s|]; simpl; [|exact Hinv].
    destruct (SimulatorImpl.day s <? SimConfig.N (SimulatorImpl.cfg s)) eqn:Hd.
    + rewrite fold_left_app. simpl. rewrite <- Hinv. simpl.
      apply AdvanceDay_totals. lia.
    + rewrite AdvanceDay_guard by lia. exact Hinv.
  - destruct h as [s|]; simpl; [|reflexivity].
    unfold SimulatorImpl.Reset. destruct_lets. reflexivity.
  - destruct h as [s|]; simpl; exact Hinv.
  - destruct h as [s|]; simpl; [|exact Hinv].
    destruct (negb _); exact Hinv.
Qed.

(** ** Determinism *)

(** C1. [Reset] rebuilds every member from the configuration alone, so two
    simulators created or reset with the same configuration (the seed is
    part of it) and advanced [n] days agree on the day counter, on
    [todaysStats] and [totalStats], on the order rows and on the log, for
    every [n]. *)
Theorem same_seed_same_run {G} `{RandomStream G} (c : SimConfig.t)
    (s1 s2 : SimulatorImpl.t G) (n : nat) (maxLines : Z) :
  let h1 := Nat.iter n AdvanceDay (ResetSimulator (Some s1) c) in
  let h2 := Nat.iter n AdvanceDay (ResetSimulator (Some s2) c) in
  let h3 := Nat.iter n AdvanceDay (CreateSimulator c) in
  observe h1 maxLines = observe h2 maxLines /\
  observe h1 maxLines = observe h3 maxLines.
Proof.
  assert (Hreset : forall s s' : SimulatorImpl.t G,
             SimulatorImpl.Reset s (ClampConfig c)
             = SimulatorImpl.Reset s' (ClampConfig c)) by reflexivity.
  simpl. unfold CreateSimulator, SimulatorImpl.create.
  rewrite (Hreset s1 s2). split; [reflexivity|].
  f_equal.
Qed.

(** ** Expiry write-off *)

(** [pop_expired] splits the queue: the batches it removed are all
    expired and the first batch it keeps is not. *)
Lemma pop_expired_split dq acc :
  exists removed,
    dq = removed ++ (Warehouse.pop_expired dq acc).2 /\
    Forall expired removed /\
    match (Warehouse.pop_expired dq acc).2 with
    | [] => True
    | b :: _ => ~ expired b
    end.
Proof.
  revert acc. induction dq as [|b rest IH]; intros acc; simpl.
  - exists []. by repeat split.
  - destruct (Batch.daysLeft b <=? 0) eqn:Hb.
    + destruct (IH (add32 acc (Batch.packages b))) as (removed & Heq & Hall & Hhd).
      exists (b :: removed). repeat split.
      * simpl. by rewrite <- Heq.
      * constructor; [unfold expired; lia | exact Hall].
      * exact Hhd.
    + exists []. simpl. repeat split; [constructor | unfold expired; lia].
Qed.






(** ** Binary32 rounding *)

(** *** Digits *)

Lemma digits2_pos_size p : digits2_pos p = Pos.size p.
Proof. induction p; simpl; congruence. Qed.

Lemma digits_bounds p :
  2 ^ (Z.pos (digits2_pos p) - 1) <= Z.pos p < 2 ^ Z.pos (digits2_pos p).
Proof.
  induction p as [p IH|p IH|]; simpl digits2_pos.
  - rewrite Pos2Z.inj_succ.
    replace (Z.succ (Z.pos (digits2_pos p)) - 1) with (Z.succ (Z.pos (digits2_pos p) - 1)) by lia.
    rewrite !Z.pow_succ_r by lia. lia.
  - rewrite Pos2Z.inj_succ.
    replace (Z.succ (Z.pos (digits2_pos p)) - 1) with (Z.succ (Z.pos (digits2_pos p) - 1)) by lia.
    rewrite !Z.pow_succ_r by lia. lia.
  - simpl. lia.
Qed.

Lemma digits_unique p d :
  2 ^ (d - 1) <= Z.pos p < 2 ^ d -> Z.pos (digits2_pos p) = d.
Proof.
  intros [Hlo Hhi]. pose proof (digits_bounds p) as [Blo Bhi].
  assert (0 < d).
  { destruct (Z_lt_le_dec 0 d) as [|Hd]; [done|].
    assert (2 ^ d <= 2 ^ 0) by (destruct (Z_lt_le_dec d 0);
      [rewrite Z.pow_neg_r by lia; simpl; lia | apply Z.pow_le_mono_r; lia]).
    simpl in *. lia. }
  destruct (Z_lt_le_dec (Z.pos (digits2_pos p)) d) as [Hlt|Hge].
  - assert (2 ^ Z.pos (digits2_pos p) <= 2 ^ (d - 1)) by (apply Z.pow_le_mono_r; lia).
    lia.
  - destruct (Z_lt_le_dec d (Z.pos (digits2_pos p))) as [Hlt|Hle]; [|lia].
    assert (2 ^ d <= 2 ^ (Z.pos (digits2_pos p) - 1)) by (apply Z.pow_le_mono_r; lia).
    lia.
Qed.

(** *** Right shifts with a location *)

Lemma shr_1_located N D k mrs :
  0 < D -> 0 <= k -> 0 <= shr_m mrs ->
  located N D k mrs -> located N D (k + 1) (shr_1 mrs) /\
  shr_m (shr_1 mrs) = shr_m mrs / 2.
Proof.
  intros HD Hk Hm (rem & HN & Hrem & Hloc).
  assert (Hpow : 2 ^ (k + 1) = 2 * 2 ^ k) by (rewrite Z.pow_add_r by lia; lia).
  assert (0 < 2 ^ k) by (apply Z.pow_pos_nonneg; lia).
  assert (0 < D * 2 ^ k) by nia.
  destruct mrs as [m r s]. simpl in *.
  destruct m as [|p|p]; [| |lia].
  - (* m = 0 *)
    split; [|reflexivity]. exists rem. simpl. rewrite Hpow.
    split; [lia|]. split; [nia|].
    destruct r, s; simpl; nia.
  - destruct p as [p|p|].
    + (* odd *)
      split; [|rewrite Pos2Z.inj_xI; apply Z.div_unique with 1; simpl; lia].
      exists (rem + D * 2 ^ k). simpl. rewrite Hpow. rewrite Pos2Z.inj_xI in HN.
      split; [nia|]. split; [nia|].
      destruct r, s; simpl; nia.
    + split; [|rewrite Pos2Z.inj_xO; apply Z.div_unique with 0; simpl; lia].
      exists rem. simpl. rewrite Hpow. rewrite Pos2Z.inj_xO in HN.
      split; [nia|]. split; [nia|].
      destruct r, s; simpl; nia.
    + split; [|reflexivity].
      exists (rem + D * 2 ^ k). simpl. rewrite Hpow.
      split; [nia|]. split; [nia|].
      destruct r, s; simpl; nia.
Qed.

Lemma pow2_xO p : 2 ^ Z.pos p~0 = 2 ^ Z.pos p * 2 ^ Z.pos p.
Proof. change (Z.pos p~0) with (2 * Z.pos p). apply Z.pow_twice_r. Qed.

Lemma pow2_xI p : 2 ^ Z.pos p~1 = 2 * (2 ^ Z.pos p * 2 ^ Z.pos p).
Proof.
  change (Z.pos p~1) with (2 * Z.pos p + 1).
  rewrite Z.pow_add_r, Z.pow_twice_r by lia. lia.
Qed.

Lemma iter_shr_1_located N D p : forall k mrs,
  0 < D -> 0 <= k -> 0 <= shr_m mrs ->
  located N D k mrs ->
  located N D (k + Z.pos p) (iter_pos shr_1 p mrs) /\
  shr_m (iter_pos shr_1 p mrs) = shr_m mrs / 2 ^ Z.pos p.
Proof.
  induction p as [p IH|p IH|]; intros k mrs HD Hk Hm Hloc; simpl iter_pos.
  - destruct (shr_1_located N D k mrs HD Hk Hm Hloc) as [H1 E1].
    assert (0 <= shr_m (shr_1 mrs)) by (rewrite E1; apply Z.div_pos; lia).
    destruct (IH (k + 1) (shr_1 mrs)) as [H2 E2]; [lia..|done|].
    assert (0 <= shr_m (iter_pos shr_1 p (shr_1 mrs)))
      by (rewrite E2; apply Z.div_pos; [lia | apply Z.pow_pos_nonneg; lia]).
    destruct (IH (k + 1 + Z.pos p) (iter_pos shr_1 p (shr_1 mrs))) as [H3 E3];
      [lia..|done|].
    split.
    + replace (k + Z.pos p~1) with (k + 1 + Z.pos p + Z.pos p) by lia. exact H3.
    + rewrite E3, E2, E1. rewrite !Z.div_div by (try apply Z.pow_pos_nonneg; lia).
      f_equal. symmetry. apply pow2_xI.
  - destruct (IH k mrs) as [H2 E2]; [lia..|done|].
    assert (0 <= shr_m (iter_pos shr_1 p mrs))
      by (rewrite E2; apply Z.div_pos; [lia | apply Z.pow_pos_nonneg; lia]).
    destruct (IH (k + Z.pos p) (iter_pos shr_1 p mrs)) as [H3 E3]; [lia..|done|].
    split.
    + replace (k + Z.pos p~0) with (k + Z.pos p + Z.pos p) by lia. exact H3.
    + rewrite E3, E2. rewrite !Z.div_div by (try apply Z.pow_pos_nonneg; lia).
      f_equal. symmetry. apply pow2_xO.
  - destruct (shr_1_located N D k mrs HD Hk Hm Hloc) as [H1 E1].
    split; [exact H1|]. rewrite E1. reflexivity.
Qed.

(** The location a quotient starts from. *)
Lemma new_location_located D rho q :
  0 < D -> 0 <= rho < D ->
  located (q * D + rho) D 0 (shr_record_of_loc q (new_location D rho)).
Proof.
  intros HD Hrho. exists rho. rewrite Z.pow_0_r, Z.mul_1_r.
  unfold new_location, new_location_even, new_location_odd.
  destruct (Z.even D) eqn:Hev.
  - destruct (Z.eqb_spec rho 0) as [->|Hne]; simpl; [lia|].
    destruct (Z.compare_spec (2 * rho) D); simpl; lia.
  - destruct (Z.eqb_spec rho 0) as [->|Hne]; simpl; [lia|].
    assert (Hodd : Z.odd D = true) by (rewrite <- Z.negb_even, Hev; reflexivity).
    apply Z.odd_spec in Hodd. destruct Hodd as [c Hc].
    destruct (Z.compare_spec (2 * rho + 1) D); simpl; lia.
Qed.

Lemma exact_located m : located m 1 0 (shr_record_of_loc m loc_Exact).
Proof. exists 0. simpl. lia. Qed.

(** *** Rounding to 24 bits *)

Lemma pow2_pos k : 0 <= k -> 0 < 2 ^ k.
Proof. intros. apply Z.pow_pos_nonneg; lia. Qed.

Lemma pow2_split a b : 0 <= a -> 0 <= b -> 2 ^ (a + b) = 2 ^ a * 2 ^ b.
Proof. intros. apply Z.pow_add_r; lia. Qed.

(** The first shift of [binary_round_aux]: a mantissa of [d >= 24] digits
    is cut to 24 digits. *)
Lemma shr_fexp_located N D px ex lx d :
  0 < D ->
  located N D 0 (shr_record_of_loc (Z.pos px) lx) ->
  Z.pos (digits2_pos px) = d -> 24 <= d -> -149 <= d + ex - 24 ->
  exists mrs,
    shr_fexp 24 128 (Z.pos px) ex lx = (mrs, ex + (d - 24)) /\
    located N D (d - 24) mrs /\
    2 ^ 23 <= shr_m mrs < 2 ^ 24.
Proof.
  intros HD Hloc Hd Hd24 Hnorm.
  unfold shr_fexp, fexp, emin. simpl Zdigits2. rewrite Hd.
  replace (Z.max (d + ex - 24) (3 - 128 - 24) - ex) with (d - 24) by lia.
  pose proof (digits_bounds px) as Hb. rewrite Hd in Hb.
  assert (Hm : shr_m (shr_record_of_loc (Z.pos px) lx) = Z.pos px)
    by (destruct lx as [|[]]; reflexivity).
  destruct (d - 24) as [|p|p] eqn:Hn; [| |lia].
  - exists (shr_record_of_loc (Z.pos px) lx). simpl.
    split; [f_equal; lia|]. split; [exact Hloc|].
    rewrite Hm. replace d with 24 in Hb by lia. simpl in Hb. simpl. lia.
  - destruct (iter_shr_1_located N D p 0 (shr_record_of_loc (Z.pos px) lx))
      as [Hl Hs]; [lia|lia|rewrite Hm; lia|exact Hloc|].
    exists (iter_pos shr_1 p (shr_record_of_loc (Z.pos px) lx)). simpl.
    split; [reflexivity|]. split; [exact Hl|].
    rewrite Hs, Hm.
    assert (Hp : 0 < 2 ^ Z.pos p) by (apply pow2_pos; lia).
    replace d with (23 + 1 + Z.pos p) in Hb by lia.
    replace (23 + 1 + Z.pos p - 1) with (23 + Z.pos p) in Hb by lia.
    rewrite (pow2_split (23 + 1)), (pow2_split 23) in Hb by lia.
    split.
    + apply Z.div_le_lower_bound; lia.
    + apply Z.div_lt_upper_bound; lia.
Qed.

(** Rounding the located mantissa to nearest moves it by at most one half. *)
Lemma round_nearest_even_located N D k mrs :
  0 < D -> 0 <= k -> located N D k mrs ->
  let m := round_nearest_even (shr_m mrs) (loc_of_shr_record mrs) in
  (m = shr_m mrs \/ m = shr_m mrs + 1) /\
  2 * Z.abs (m * 2 ^ k * D - N) <= D * 2 ^ k.
Proof.
  intros HD Hk (rem & HN & Hrem & Hloc).
  assert (0 < 2 ^ k) by (by apply pow2_pos).
  destruct mrs as [m r s]. simpl in *.
  destruct r, s; simpl.
  - split; [right; reflexivity | lia].
  - destruct (Z.even m); (split; [auto | lia]).
  - split; [left; reflexivity | lia].
  - split; [left; reflexivity | lia].
Qed.

Lemma binary_round_aux_normal N D px ex lx d :
  0 < D ->
  located N D 0 (shr_record_of_loc (Z.pos px) lx) ->
  Z.pos (digits2_pos px) = d -> 24 <= d -> -149 <= d + ex - 24 -> d + ex - 24 < 104 ->
  exists m e,
    binary_round_aux 24 128 false (Z.pos px) ex lx = S754_finite false m e /\
    2 ^ 23 <= Z.pos m < 2 ^ 24 /\
    (e = ex + (d - 24) \/ e = ex + (d - 24) + 1) /\
    2 * Z.abs (Z.pos m * 2 ^ (e - ex) * D - N) <= D * 2 ^ (e - ex).
Proof.
  intros HD Hloc Hd Hd24 Hlo Hhi.
  destruct (shr_fexp_located N D px ex lx d HD Hloc Hd Hd24 Hlo)
    as (mrs & Hshr & Hl & Hm).
  unfold binary_round_aux. rewrite Hshr.
  destruct (round_nearest_even_located N D (d - 24) mrs HD ltac:(lia) Hl)
    as [Hm2 Herr].
  set (m2 := round_nearest_even (shr_m mrs) (loc_of_shr_record mrs)) in *.
  assert (Hpos : 0 < m2) by lia.
  destruct m2 as [|p2|p2] eqn:E2; [lia| |lia].
  destruct (Z_lt_le_dec (Z.pos p2) (2 ^ 24)) as [Hsmall|Hbig].
  - (* no carry: the mantissa still has 24 digits *)
    assert (Hd2 : Z.pos (digits2_pos p2) = 24) by (apply digits_unique; simpl; lia).
    unfold shr_fexp, fexp, emin. simpl Zdigits2. rewrite Hd2.
    replace (Z.max (24 + (ex + (d - 24)) - 24) (3 - 128 - 24) - (ex + (d - 24)))
      with 0 by lia.
    assert (Hle : (ex + (d - 24) <=? 128 - 24) = true) by (apply Z.leb_le; lia).
    cbn [shr shr_record_of_loc shr_m]. rewrite Hle.
    exists p2, (ex + (d - 24)). split; [reflexivity|]. split; [lia|].
    split; [left; reflexivity|].
    replace (ex + (d - 24) - ex) with (d - 24) by lia. exact Herr.
  - (* carry into the 25th digit *)
    assert (Hp2 : Z.pos p2 = 2 ^ 24) by lia.
    assert (Hd2 : Z.pos (digits2_pos p2) = 25) by (apply digits_unique; simpl; lia).
    unfold shr_fexp, fexp, emin. simpl Zdigits2. rewrite Hd2.
    replace (Z.max (25 + (ex + (d - 24)) - 24) (3 - 128 - 24) - (ex + (d - 24)))
      with 1 by lia.
    assert (Ep : p2 = 16777216%positive) by (apply Pos2Z.inj; rewrite Hp2; reflexivity).
    assert (Hle : (ex + (d - 24) + 1 <=? 128 - 24) = true) by (apply Z.leb_le; lia).
    subst p2. cbn [shr shr_record_of_loc shr_m iter_pos shr_1 orb]. rewrite Hle.
    exists 8388608%positive, (ex + (d - 24) + 1). split; [reflexivity|].
    split; [simpl; lia|]. split; [right; reflexivity|].
    replace (ex + (d - 24) + 1 - ex) with (d - 24 + 1) by lia.
    rewrite (pow2_split (d - 24) 1) by lia.
    change (2 ^ 1) with 2.
    replace (Z.pos 8388608 * (2 ^ (d - 24) * 2)) with (Z.pos 16777216 * 2 ^ (d - 24)) by lia.
    pose proof (pow2_pos (d - 24) ltac:(lia)). nia.
Qed.

(** A 24-digit mantissa with an exact location is returned as it is. *)
Lemma binary_round_aux_exact px ex :
  Z.pos (digits2_pos px) = 24 -> -149 <= ex <= 104 ->
  binary_round_aux 24 128 false (Z.pos px) ex loc_Exact = S754_finite false px ex.
Proof.
  intros Hd He. unfold binary_round_aux, shr_fexp, fexp, emin.
  simpl Zdigits2. rewrite Hd.
  replace (Z.max (24 + ex - 24) (3 - 128 - 24) - ex) with 0 by lia.
  cbn [shr shr_record_of_loc shr_m loc_of_shr_record round_nearest_even].
  simpl Zdigits2. rewrite Hd.
  replace (Z.max (24 + ex - 24) (3 - 128 - 24) - ex) with 0 by lia.
  cbn [shr shr_record_of_loc shr_m].
  assert (Hle : (ex <=? 128 - 24) = true) by (apply Z.leb_le; lia).
  by rewrite Hle.
Qed.

Lemma iter_xO_value p k : Z.pos (Pos.iter xO p k) = Z.pos p * 2 ^ Z.pos k.
Proof.
  induction k as [|k IH] using Pos.peano_ind.
  - simpl. lia.
  - rewrite Pos.iter_succ, Pos2Z.inj_succ, Z.pow_succ_r by lia.
    change (Z.pos (Pos.iter xO p k)~0) with (2 * Z.pos (Pos.iter xO p k)). lia.
Qed.

(** An integer of at most 24 digits is normalised without rounding: the
    mantissa is shifted left to 24 digits. *)
Lemma normalize_exact p e d :
  Z.pos (digits2_pos p) = d -> d <= 24 -> -149 <= e + d - 24 <= 104 ->
  exists m,
    binary_normalize 24 128 (Z.pos p) e false = S754_finite false m (e + d - 24) /\
    Z.pos m = Z.pos p * 2 ^ (24 - d) /\
    2 ^ 23 <= Z.pos m < 2 ^ 24.
Proof.
  intros Hd Hd24 He. pose proof (digits_bounds p) as Hb. rewrite Hd in Hb.
  assert (0 < d) by lia.
  unfold binary_normalize, binary_round.
  unfold fexp, emin. rewrite Hd.
  replace (Z.max (d + e - 24) (3 - 128 - 24)) with (e + d - 24) by lia.
  unfold shl_align. replace (e + d - 24 - e) with (d - 24) by lia.
  destruct (d - 24) as [|k|k] eqn:Hk; [|lia|].
  - assert (E24 : d = 24) by lia. rewrite E24 in Hb, Hd |- *.
    exists p. replace (e + 24 - 24) with e by lia.
    rewrite binary_round_aux_exact by (try exact Hd; lia).
    split; [reflexivity|]. change (2 ^ (24 - 24)) with 1.
    change (2 ^ (24 - 1)) with (2 ^ 23) in Hb. lia.
  - assert (Hv : Z.pos (Pos.iter xO p k) = Z.pos p * 2 ^ (24 - d)).
    { rewrite iter_xO_value. f_equal. f_equal. lia. }
    assert (Hr : 2 ^ 23 <= Z.pos (Pos.iter xO p k) < 2 ^ 24).
    { rewrite Hv.
      assert (E1 : 2 ^ 23 = 2 ^ (d - 1) * 2 ^ (24 - d))
        by (rewrite <- pow2_split by lia; f_equal; lia).
      assert (E2 : 2 ^ 24 = 2 ^ d * 2 ^ (24 - d))
        by (rewrite <- pow2_split by lia; f_equal; lia).
      rewrite E1, E2.
      pose proof (pow2_pos (24 - d) ltac:(lia)). nia. }
    exists (Pos.iter xO p k).
    rewrite binary_round_aux_exact; [done| apply digits_unique; simpl; lia | lia].
Qed.

(** [float(z)] for [0 < z < 2^24] is exact. *)
Lemma of_int_exact p d :
  Z.pos (digits2_pos p) = d -> d <= 24 ->
  exists m,
    F32.of_int (Z.pos p) = S754_finite false m (d - 24) /\
    Z.pos m = Z.pos p * 2 ^ (24 - d) /\
    2 ^ 23 <= Z.pos m < 2 ^ 24.
Proof.
  intros Hd Hd24. pose proof (digits_bounds p) as Hb. rewrite Hd in Hb.
  assert (0 < d) by lia.
  destruct (normalize_exact p 0 d Hd Hd24 ltac:(lia)) as (m & Hm).
  exists m. exact Hm.
Qed.

Lemma digits_le p k : Z.pos p < 2 ^ k -> Z.pos (digits2_pos p) <= k.
Proof.
  intros Hp. pose proof (digits_bounds p) as [Hlo _].
  destruct (Z_lt_le_dec k (Z.pos (digits2_pos p))) as [Hlt|]; [|lia].
  assert (0 <= k).
  { destruct (Z_lt_le_dec k 0); [|lia]. rewrite Z.pow_neg_r in Hp by lia. lia. }
  assert (2 ^ k <= 2 ^ (Z.pos (digits2_pos p) - 1)) by (apply Z.pow_le_mono_r; lia).
  lia.
Qed.

(** The quotient of two positive floats with 24-digit mantissas: the
    result is within half a unit in the last place of the exact quotient. *)
Lemma div_normal mx ex my ey :
  2 ^ 23 <= Z.pos mx < 2 ^ 24 -> 2 ^ 23 <= Z.pos my < 2 ^ 24 ->
  -149 <= ex - ey - 24 -> ex - ey - 24 < 102 ->
  exists m e t,
    F32.div (S754_finite false mx ex) (S754_finite false my ey)
      = S754_finite false m e /\
    2 ^ 23 <= Z.pos m < 2 ^ 24 /\
    e = ex - ey - 24 + t /\ 0 <= t <= 2 /\
    2 * Z.abs (Z.pos m * 2 ^ t * Z.pos my - Z.pos mx * 2 ^ 24) <= Z.pos my * 2 ^ t.
Proof.
  intros Hmx Hmy Hlo Hhi.
  assert (Hdx : Z.pos (digits2_pos mx) = 24) by (apply digits_unique; simpl; lia).
  assert (Hdy : Z.pos (digits2_pos my) = 24) by (apply digits_unique; simpl; lia).
  unfold F32.div, SFdiv, SFdiv_core_binary, F32.prec, F32.emax.
  simpl Zdigits2. rewrite Hdx, Hdy. unfold fexp, emin.
  replace (Z.min (Z.max (24 + ex - (24 + ey) - 24) (3 - 128 - 24)) (ex - ey))
    with (ex - ey - 24) by lia.
  replace (ex - ey - (ex - ey - 24)) with 24 by lia.
  cbv iota. rewrite Z.shiftl_mul_pow2 by lia.
  pose proof (Z_div_mod (Z.pos mx * 2 ^ 24) (Z.pos my) ltac:(lia)) as Hdm.
  destruct (Z.div_eucl (Z.pos mx * 2 ^ 24) (Z.pos my)) as [q rho].
  destruct Hdm as [Hq Hrho].
  assert (Hqr : 2 ^ 23 <= q < 2 ^ 25) by (simpl in *; nia).
  destruct q as [|pq|pq]; [simpl in Hqr; lia| |lia].
  assert (Hdq : Z.pos (digits2_pos pq) = 24 \/ Z.pos (digits2_pos pq) = 25).
  { destruct (Z_lt_le_dec (Z.pos pq) (2 ^ 24)).
    - left. apply digits_unique. simpl in *. lia.
    - right. apply digits_unique. simpl in *. lia. }
  simpl xorb.
  destruct (binary_round_aux_normal (Z.pos mx * 2 ^ 24) (Z.pos my) pq
              (ex - ey - 24) (new_location (Z.pos my) rho)
              (Z.pos (digits2_pos pq)))
    as (m & e & Hres & Hm & He & Herr); [lia| |reflexivity|lia..|].
  { rewrite Hq. replace (Z.pos my * Z.pos pq + rho) with (Z.pos pq * Z.pos my + rho) by lia.
    apply new_location_located; lia. }
  exists m, e, (e - (ex - ey - 24)). split; [exact Hres|]. split; [exact Hm|].
  split; [lia|]. split; [lia|]. exact Herr.
Qed.

(** The single-precision quotient of two integers: [exact] of
    [FulfillLine].  With [m * 2^(-s)] the result, the error of [m * u]
    against [r * 2^s] is at most [u / 2]. *)
Lemma div_int_int r u :
  0 < r < 2 ^ 23 -> 0 < u < 2 ^ 24 ->
  exists m s,
    F32.div (F32.of_int r) (F32.of_int u) = S754_finite false m (- s) /\
    0 <= s <= 48 /\ 2 ^ 23 <= Z.pos m < 2 ^ 24 /\
    2 * Z.abs (Z.pos m * u - r * 2 ^ s) <= u.
Proof.
  intros Hr Hu.
  destruct r as [|pr|pr]; [lia| |lia]. destruct u as [|pu|pu]; [lia| |lia].
  pose proof (digits_le pr 23 ltac:(lia)) as Hdr.
  pose proof (digits_le pu 24 ltac:(lia)) as Hdu.
  pose proof (digits_bounds pr) as Hbr. pose proof (digits_bounds pu) as Hbu.
  set (dr := Z.pos (digits2_pos pr)) in *. set (du := Z.pos (digits2_pos pu)) in *.
  assert (0 < dr) by lia. assert (0 < du) by lia.
  destruct (of_int_exact pr dr eq_refl ltac:(lia)) as (mr & -> & Hmr & Rmr).
  destruct (of_int_exact pu du eq_refl ltac:(lia)) as (mu & -> & Hmu & Rmu).
  destruct (div_normal mr (dr - 24) mu (du - 24) Rmr Rmu ltac:(lia) ltac:(lia))
    as (m & e & t & Hres & Rm & He & Ht & Herr).
  exists m, (24 + du - dr - t).
  split; [rewrite Hres; f_equal; lia|]. split; [lia|]. split; [exact Rm|].
  rewrite Hmr, Hmu in Herr.
  set (s := 24 + du - dr - t) in *.
  set (P := 2 ^ (24 - du + t)).
  assert (HP : 0 < P) by (apply pow2_pos; lia).
  assert (E1 : Z.pos pu * 2 ^ (24 - du) * 2 ^ t = Z.pos pu * P).
  { unfold P. rewrite pow2_split by lia. lia. }
  assert (E2 : Z.pos pr * 2 ^ (24 - dr) * 2 ^ 24 = Z.pos pr * 2 ^ s * P).
  { unfold P, s. rewrite <- !Z.mul_assoc, <- !pow2_split by lia.
    f_equal. f_equal. lia. }
  assert (E3 : Z.pos m * 2 ^ t * (Z.pos pu * 2 ^ (24 - du)) = Z.pos m * Z.pos pu * P).
  { unfold P. rewrite pow2_split by lia. lia. }
  rewrite E1, E2, E3 in Herr.
  replace (Z.pos m * Z.pos pu * P - Z.pos pr * 2 ^ s * P)
    with ((Z.pos m * Z.pos pu - Z.pos pr * 2 ^ s) * P) in Herr by lia.
  rewrite Z.abs_mul, (Z.abs_eq P) in Herr by lia.
  nia.
Qed.

(** What the half-unit bound says about the integer quotient [k] and the
    remainder [j] of [r] by [u]. *)
Lemma quotient_arith m u r X k j :
  2 ^ 23 <= m -> 0 < r < 2 ^ 23 -> 0 < u -> 0 < X ->
  2 * Z.abs (m * u - r * X) <= u ->
  r = u * k + j -> 0 <= j < u -> 0 <= k ->
  u < X /\
  (j = 0 -> m = k * X) /\
  (0 < j ->
   k * X < m < (k + 1) * X /\
   (2 * j < u -> 2 * (m - k * X) < X) /\
   (u < 2 * j -> X < 2 * (m - k * X)) /\
   (2 * j = u -> Z.even X = true -> 2 * (m - k * X) = X)).
Proof.
  intros Hm Hr Hu HX Herr Hdiv Hj Hk.
  assert (H23 : 2 ^ 23 = 8388608) by reflexivity. rewrite H23 in *.
  assert (Hd : -u <= 2 * (m * u - r * X) <= u) by lia. clear Herr.
  assert (HuX : u < X) by nia.
  split; [exact HuX|]. subst r.
  replace (m * u - (u * k + j) * X) with ((m - k * X) * u - j * X) in Hd by lia.
  set (a := m - k * X) in *.
  split.
  - intros ->. assert (a = 0) by nia. lia.
  - intros Hj0. split; [|split; [|split]].
    + assert (0 < a) by nia. assert (a < X) by nia. lia.
    + intros. nia.
    + intros. nia.
    + intros Htie Hev. apply Z.even_spec in Hev. destruct Hev as [h Hh].
      assert (-1 <= 2 * a - X <= 1) by nia. lia.
Qed.

(** *** Integer parts *)

Lemma SFfloor_fraction m s :
  1 <= s -> SFfloor (S754_finite false m (- s)) = Some (Z.pos m / 2 ^ s).
Proof.
  intros Hs. unfold SFfloor.
  destruct (0 <=? - s) eqn:E; [apply Z.leb_le in E; lia|].
  by rewrite Z.opp_involutive.
Qed.

Lemma SFceil_fraction m s :
  1 <= s -> SFceil (S754_finite false m (- s)) = Some (- (- Z.pos m / 2 ^ s)).
Proof.
  intros Hs. unfold SFceil.
  destruct (0 <=? - s) eqn:E; [apply Z.leb_le in E; lia|].
  by rewrite Z.opp_involutive.
Qed.

Lemma cast_int_small z : 0 <= z <= 2 ^ 24 -> cast_int (Some z) = z.
Proof.
  intros Hz. unfold cast_int, INT_MIN, INT_MAX.
  assert (H24 : 2 ^ 24 = 16777216) by reflexivity. rewrite H24 in Hz.
  destruct (Z.leb_spec (- 2 ^ 31) z); [|simpl in *; lia].
  destruct (Z.leb_spec z (2 ^ 31 - 1)); [reflexivity|simpl in *; lia].
Qed.

(** *** Exact differences *)

Lemma Zdigits2_bounds a :
  0 < a -> 2 ^ (Zdigits2 a - 1) <= a < 2 ^ Zdigits2 a.
Proof. destruct a as [|p|p]; [lia| |lia]. intros _. apply digits_bounds. Qed.

Lemma Zdigits2_unique a d : 0 < a -> 2 ^ (d - 1) <= a < 2 ^ d -> Zdigits2 a = d.
Proof. destruct a as [|p|p]; [lia| |lia]. intros _. apply digits_unique. Qed.

Lemma Zdigits2_shift a n :
  0 < a -> 0 <= n -> Zdigits2 (a * 2 ^ n) = Zdigits2 a + n.
Proof.
  intros Ha Hn. pose proof (Zdigits2_bounds a Ha) as Hb.
  pose proof (pow2_pos n Hn).
  assert (0 < Zdigits2 a) by (destruct a; simpl; lia).
  apply Zdigits2_unique; [nia|].
  replace (Zdigits2 a + n - 1) with (Zdigits2 a - 1 + n) by lia.
  rewrite !pow2_split by lia. nia.
Qed.

Lemma normalize_canon a e :
  0 < a < 2 ^ 24 -> -149 <= e + Zdigits2 a - 24 <= 104 ->
  binary_normalize 24 128 a e false = canon a e.
Proof.
  intros Ha He. destruct a as [|p|p]; [lia| |lia].
  pose proof (digits_le p 24 ltac:(lia)) as Hd.
  destruct (normalize_exact p e (Z.pos (digits2_pos p)) eq_refl Hd He)
    as (m & -> & Hm & _).
  unfold canon. simpl Zdigits2. f_equal. rewrite <- Hm. by rewrite Pos2Z.id.
Qed.

Lemma shl_align_value mx ex ez :
  ez <= ex -> Z.pos (shl_align mx ex ez).1 = Z.pos mx * 2 ^ (ex - ez).
Proof.
  intros Hle. unfold shl_align.
  destruct (ez - ex) as [|d|d] eqn:E; simpl.
  - replace (ex - ez) with 0 by lia. lia.
  - lia.
  - rewrite iter_xO_value. f_equal. f_equal. lia.
Qed.

(** The difference of two positive floats that are [A * 2^(-c)] and
    [B * 2^(-c)], when [A - B] is positive and has at most 24 digits. *)
Lemma sub_canon mx ex my ey c A B :
  0 <= ex + c -> 0 <= ey + c ->
  A = Z.pos mx * 2 ^ (ex + c) -> B = Z.pos my * 2 ^ (ey + c) ->
  0 < A - B < 2 ^ 24 -> -149 <= - c + Zdigits2 (A - B) - 24 <= 104 ->
  F32.sub (S754_finite false mx ex) (S754_finite false my ey) = canon (A - B) (- c).
Proof.
  intros Hex Hey HA HB Hd Hrange.
  unfold F32.sub, SFsub, F32.prec, F32.emax. cbn [cond_Zopp].
  set (ez := Z.min ex ey).
  rewrite !shl_align_value by lia.
  set (Dz := Z.pos mx * 2 ^ (ex - ez) - Z.pos my * 2 ^ (ey - ez)).
  assert (HDz : A - B = Dz * 2 ^ (ez + c)).
  { unfold Dz. rewrite Z.mul_sub_distr_r, <- !Z.mul_assoc, <- !pow2_split by lia.
    rewrite HA, HB. f_equal; f_equal; f_equal; lia. }
  pose proof (pow2_pos (ez + c) ltac:(lia)) as HP.
  assert (HDpos : 0 < Dz) by nia.
  assert (Hdig : Zdigits2 (A - B) = Zdigits2 Dz + (ez + c))
    by (rewrite HDz; apply Zdigits2_shift; lia).
  assert (0 < Zdigits2 Dz) by (destruct Dz; simpl; lia).
  assert (Zdigits2 (A - B) <= 24)
    by (destruct (A - B) as [|p|p]; [lia|apply digits_le; lia|lia]).
  rewrite normalize_canon.
  - unfold canon. rewrite Hdig. f_equal; [|lia]. f_equal.
    rewrite HDz, <- Z.mul_assoc, <- pow2_split by lia.
    f_equal. f_equal. lia.
  - assert (1 <= 2 ^ (ez + c)) by lia. nia.
  - lia.
Qed.

(** *** Comparisons *)

Lemma SFcompare_canon a b c :
  0 < a < 2 ^ 24 -> 0 < b < 2 ^ 24 ->
  SFcompare (canon a c) (canon b c) = Some (a ?= b).
Proof.
  intros Ha Hb. unfold canon, SFcompare.
  pose proof (Zdigits2_bounds a ltac:(lia)) as Ba.
  pose proof (Zdigits2_bounds b ltac:(lia)) as Bb.
  assert (Zdigits2 a <= 24) by (destruct a as [|p|p]; [lia|apply digits_le; lia|lia]).
  assert (Zdigits2 b <= 24) by (destruct b as [|p|p]; [lia|apply digits_le; lia|lia]).
  assert (0 < Zdigits2 a) by (destruct a; simpl; lia).
  assert (0 < Zdigits2 b) by (destruct b; simpl; lia).
  f_equal.
  destruct (Z.compare_spec (c + Zdigits2 a - 24) (c + Zdigits2 b - 24)) as [E|E|E].
  - assert (Ed : Zdigits2 a = Zdigits2 b) by lia. rewrite Ed.
    pose proof (pow2_pos (24 - Zdigits2 b) ltac:(lia)) as HP.
    change (Pos.compare_cont Eq ?x ?y) with (Pos.compare x y).
    rewrite Pos2Z.inj_compare, !Z2Pos.id by nia.
    destruct (Z.compare_spec a b) as [E'|E'|E'].
    + subst. apply Z.compare_refl.
    + apply Z.compare_lt_iff. nia.
    + apply Z.compare_gt_iff. nia.
  - assert (2 ^ Zdigits2 a <= 2 ^ (Zdigits2 b - 1)) by (apply Z.pow_le_mono_r; lia).
    symmetry. apply Z.compare_lt_iff. lia.
  - assert (2 ^ Zdigits2 b <= 2 ^ (Zdigits2 a - 1)) by (apply Z.pow_le_mono_r; lia).
    symmetry. apply Z.compare_gt_iff. lia.
Qed.

Lemma SFltb_canon a b c :
  0 < a < 2 ^ 24 -> 0 < b < 2 ^ 24 -> SFltb (canon a c) (canon b c) = (a <? b).
Proof.
  intros Ha Hb. unfold SFltb. rewrite SFcompare_canon by assumption.
  unfold Z.ltb. by destruct (a ?= b).
Qed.

Lemma canon_normal m e :
  2 ^ 23 <= Z.pos m < 2 ^ 24 -> canon (Z.pos m) e = S754_finite false m e.
Proof.
  intros Hm. unfold canon. simpl Zdigits2.
  rewrite (digits_unique m 24) by (simpl; lia).
  change (2 ^ (24 - 24)) with 1. rewrite Z.mul_1_r, Pos2Z.id. f_equal. lia.
Qed.

Lemma SFabs_canon a c : SFabs (canon a c) = canon a c.
Proof. reflexivity. Qed.

Lemma of_int_canon z : 0 < z < 2 ^ 24 -> F32.of_int z = canon z 0.
Proof.
  intros Hz. unfold F32.of_int. apply normalize_canon; [exact Hz|].
  pose proof (Zdigits2_bounds z ltac:(lia)).
  assert (Zdigits2 z <= 24) by (destruct z as [|p|p]; [lia|apply digits_le; lia|lia]).
  assert (0 < Zdigits2 z) by (destruct z; simpl; lia).
  lia.
Qed.

(** Subtracting a float [m * 2^(-s)] with [s <= 24] from an integer, and
    an integer from it. *)
Lemma sub_int_float z m s :
  0 < z < 2 ^ 24 -> 2 ^ 23 <= Z.pos m < 2 ^ 24 -> 1 <= s <= 24 ->
  0 < z * 2 ^ s - Z.pos m < 2 ^ s ->
  F32.sub (F32.of_int z) (S754_finite false m (- s))
  = canon ((z * 2 ^ s - Z.pos m) * 2 ^ (24 - s)) (-24).
Proof.
  intros Hz Hm Hs Hd. destruct z as [|pz|pz]; [lia| |lia].
  pose proof (digits_le pz 24 ltac:(lia)) as Hdz.
  pose proof (digits_bounds pz) as Hbz.
  destruct (of_int_exact pz _ eq_refl Hdz) as (mz & -> & Hmz & _).
  set (dz := Z.pos (digits2_pos pz)) in *. assert (0 < dz) by lia.
  pose proof (pow2_pos s ltac:(lia)). pose proof (pow2_pos (24 - s) ltac:(lia)).
  assert (E24 : 2 ^ 24 = 2 ^ s * 2 ^ (24 - s))
    by (rewrite <- pow2_split by lia; f_equal; lia).
  assert (EA : Z.pos mz * 2 ^ (dz - 24 + 24) = Z.pos pz * 2 ^ 24).
  { rewrite Hmz, <- Z.mul_assoc, <- pow2_split by lia. f_equal. f_equal. lia. }
  assert (Ediff : Z.pos mz * 2 ^ (dz - 24 + 24) - Z.pos m * 2 ^ (- s + 24)
                  = (Z.pos pz * 2 ^ s - Z.pos m) * 2 ^ (24 - s)).
  { rewrite EA, E24. replace (- s + 24) with (24 - s) by lia. lia. }
  rewrite <- Ediff.
  assert (Hrange : 0 < (Z.pos pz * 2 ^ s - Z.pos m) * 2 ^ (24 - s) < 2 ^ 24)
    by (rewrite E24; nia).
  rewrite <- Ediff in Hrange.
  apply (sub_canon mz (dz - 24) m (- s) 24); try lia; try reflexivity.
  pose proof (Zdigits2_bounds _ (proj1 Hrange)).
  assert (Zdigits2 (Z.pos mz * 2 ^ (dz - 24 + 24) - Z.pos m * 2 ^ (- s + 24)) <= 24).
  { destruct (Z.pos mz * 2 ^ (dz - 24 + 24) - Z.pos m * 2 ^ (- s + 24)) as [|p|p];
      [lia|apply digits_le; lia|lia]. }
  assert (0 < Zdigits2 (Z.pos mz * 2 ^ (dz - 24 + 24) - Z.pos m * 2 ^ (- s + 24))).
  { destruct (Z.pos mz * 2 ^ (dz - 24 + 24) - Z.pos m * 2 ^ (- s + 24)); simpl; lia. }
  lia.
Qed.

Lemma sub_float_int z m s :
  0 < z < 2 ^ 24 -> 2 ^ 23 <= Z.pos m < 2 ^ 24 -> 1 <= s <= 24 ->
  0 < Z.pos m - z * 2 ^ s < 2 ^ s ->
  F32.sub (S754_finite false m (- s)) (F32.of_int z)
  = canon ((Z.pos m - z * 2 ^ s) * 2 ^ (24 - s)) (-24).
Proof.
  intros Hz Hm Hs Hd. destruct z as [|pz|pz]; [lia| |lia].
  pose proof (digits_le pz 24 ltac:(lia)) as Hdz.
  pose proof (digits_bounds pz) as Hbz.
  destruct (of_int_exact pz _ eq_refl Hdz) as (mz & -> & Hmz & _).
  set (dz := Z.pos (digits2_pos pz)) in *. assert (0 < dz) by lia.
  pose proof (pow2_pos s ltac:(lia)). pose proof (pow2_pos (24 - s) ltac:(lia)).
  assert (E24 : 2 ^ 24 = 2 ^ s * 2 ^ (24 - s))
    by (rewrite <- pow2_split by lia; f_equal; lia).
  assert (EA : Z.pos mz * 2 ^ (dz - 24 + 24) = Z.pos pz * 2 ^ 24).
  { rewrite Hmz, <- Z.mul_assoc, <- pow2_split by lia. f_equal. f_equal. lia. }
  assert (Ediff : Z.pos m * 2 ^ (- s + 24) - Z.pos mz * 2 ^ (dz - 24 + 24)
                  = (Z.pos m - Z.pos pz * 2 ^ s) * 2 ^ (24 - s)).
  { rewrite EA, E24. replace (- s + 24) with (24 - s) by lia. lia. }
  rewrite <- Ediff.
  assert (Hrange : 0 < (Z.pos m - Z.pos pz * 2 ^ s) * 2 ^ (24 - s) < 2 ^ 24)
    by (rewrite E24; nia).
  rewrite <- Ediff in Hrange.
  apply (sub_canon m (- s) mz (dz - 24) 24); try lia; try reflexivity.
  pose proof (Zdigits2_bounds _ (proj1 Hrange)).
  assert (Zdigits2 (Z.pos m * 2 ^ (- s + 24) - Z.pos mz * 2 ^ (dz - 24 + 24)) <= 24).
  { destruct (Z.pos m * 2 ^ (- s + 24) - Z.pos mz * 2 ^ (dz - 24 + 24)) as [|p|p];
      [lia|apply digits_le; lia|lia]. }
  assert (0 < Zdigits2 (Z.pos m * 2 ^ (- s + 24) - Z.pos mz * 2 ^ (dz - 24 + 24))).
  { destruct (Z.pos m * 2 ^ (- s + 24) - Z.pos mz * 2 ^ (dz - 24 + 24)); simpl; lia. }
  lia.
Qed.

(** [1 - x] for a float [x] below one half: rounded, and at least one
    half, so its exponent is at least [-24]. *)
Lemma sub_one_small m s :
  2 ^ 23 <= Z.pos m < 2 ^ 24 -> 25 <= s <= 125 ->
  exists m' e',
    F32.sub (F32.of_int 1) (S754_finite false m (- s)) = S754_finite false m' e' /\
    -24 <= e'.
Proof.
  intros Hm Hs.
  change (F32.of_int 1) with (S754_finite false 8388608 (-23)).
  unfold F32.sub, SFsub, F32.prec, F32.emax. cbn [cond_Zopp].
  replace (Z.min (-23) (- s)) with (- s) by lia.
  rewrite !shl_align_value by lia.
  replace (- s - - s) with 0 by lia. replace (-23 - - s) with (s - 23) by lia.
  change (Z.pos 8388608) with (2 ^ 23).
  rewrite <- pow2_split by lia. replace (23 + (s - 23)) with s by lia.
  rewrite Z.pow_0_r, Z.mul_1_r.
  assert (H24 : 2 ^ 24 <= 2 ^ (s - 1)) by (apply Z.pow_le_mono_r; lia).
  assert (Hs2 : 2 ^ s = 2 * 2 ^ (s - 1)).
  { replace s with (1 + (s - 1)) at 1 by lia. rewrite pow2_split by lia. lia. }
  assert (Hb : 2 ^ (s - 1) <= 2 ^ s - Z.pos m < 2 ^ s) by lia.
  destruct (2 ^ s - Z.pos m) as [|pb|pb] eqn:Eb; [lia| |lia].
  assert (Hdb : Z.pos (digits2_pos pb) = s) by (apply digits_unique; lia).
  unfold binary_normalize, binary_round. rewrite Hdb.
  replace (fexp 24 128 (s + - s)) with (-24) by (unfold fexp, emin; lia).
  unfold shl_align. replace (-24 - - s) with (s - 24) by lia.
  destruct (s - 24) as [|q|q] eqn:Eq; [lia| |lia].
  destruct (binary_round_aux_normal (Z.pos pb) 1 pb (- s) loc_Exact s)
    as (m' & e' & Hres & _ & He & _); [lia|apply exact_located|exact Hdb|lia..|].
  exists m', e'. split; [exact Hres | lia].
Qed.

(** The two errors of [FulfillLine] compare as the distances of
    [m * 2^(-s)] to the integers [k] and [k + 1] around it. *)
Lemma errors_compare m s k :
  2 ^ 23 <= Z.pos m < 2 ^ 24 -> 1 <= s <= 125 -> 0 <= k -> k + 1 <= 2 ^ 23 ->
  k * 2 ^ s < Z.pos m < (k + 1) * 2 ^ s ->
  let exact := S754_finite false m (- s) in
  let errFl := SFabs (F32.sub exact (F32.of_int k)) in
  let errCe := SFabs (F32.sub (F32.of_int (k + 1)) exact) in
  SFltb errFl errCe = (2 * (Z.pos m - k * 2 ^ s) <? 2 ^ s) /\
  SFltb errCe errFl = (2 ^ s <? 2 * (Z.pos m - k * 2 ^ s)).
Proof.
  intros Hm Hs Hk Hk1 Hbetween exact errFl errCe. subst exact errFl errCe.
  pose proof (pow2_pos s ltac:(lia)) as HX.
  assert (H23 : 2 ^ 23 = 8388608) by reflexivity.
  assert (H24 : 2 ^ 24 = 16777216) by reflexivity.
  destruct (Z_le_gt_dec s 24) as [Hs24|Hs25].
  - (* both differences are exact *)
    pose proof (pow2_pos (24 - s) ltac:(lia)) as HP.
    assert (E24 : 2 ^ 24 = 2 ^ s * 2 ^ (24 - s))
      by (rewrite <- pow2_split by lia; f_equal; lia).
    rewrite (sub_int_float (k + 1) m s) by lia.
    assert (EFl : F32.sub (S754_finite false m (- s)) (F32.of_int k)
                  = canon ((Z.pos m - k * 2 ^ s) * 2 ^ (24 - s)) (-24)).
    { destruct (Z.eq_dec k 0) as [->|Hk0].
      - change (F32.of_int 0) with (S754_zero false). simpl.
        assert (s = 24).
        { destruct (Z_lt_le_dec s 24); [|lia].
          assert (2 ^ s <= 2 ^ 23) by (apply Z.pow_le_mono_r; lia). lia. }
        subst s. change (2 ^ (24 - 24)) with 1.
        rewrite Z.mul_1_r, Z.sub_0_r, canon_normal by lia. reflexivity.
      - apply sub_float_int; lia. }
    rewrite EFl, !SFabs_canon.
    rewrite !SFltb_canon by (rewrite E24; nia).
    split.
    + destruct (Z.ltb_spec ((Z.pos m - k * 2 ^ s) * 2 ^ (24 - s))
                           (((k + 1) * 2 ^ s - Z.pos m) * 2 ^ (24 - s)));
        symmetry; [apply Z.ltb_lt | apply Z.ltb_ge]; nia.
    + destruct (Z.ltb_spec (((k + 1) * 2 ^ s - Z.pos m) * 2 ^ (24 - s))
                           ((Z.pos m - k * 2 ^ s) * 2 ^ (24 - s)));
        symmetry; [apply Z.ltb_lt | apply Z.ltb_ge]; nia.
  - (* the float is below one half *)
    assert (H25 : 2 ^ 25 <= 2 ^ s) by (apply Z.pow_le_mono_r; lia).
    assert (E25 : 2 ^ 25 = 33554432) by reflexivity.
    assert (k = 0) by nia. subst k.
    change (F32.of_int 0) with (S754_zero false). change (0 + 1) with 1.
    destruct (sub_one_small m s Hm ltac:(lia)) as (m' & e' & Hsub & He').
    rewrite Hsub.
    simpl. unfold SFltb, SFcompare.
    destruct (Z.compare_spec (- s) e') as [E|E|E]; [lia| |lia].
    destruct (Z.compare_spec e' (- s)) as [E'|E'|E']; [lia|lia|].
    split; symmetry; [apply Z.ltb_lt | apply Z.ltb_ge]; lia.
Qed.

(** *** The policy over the rationals, in integers *)

Lemma policy_floor r u : 0 < u ->
  Qround.Qfloor (QArith_base.Qmake r (Z.to_pos u)) = r / u.
Proof. intros Hu. simpl. by rewrite Z2Pos.id. Qed.

Lemma policy_ceiling r u k j :
  0 < u -> r = u * k + j -> 0 <= j < u ->
  Qround.Qceiling (QArith_base.Qmake r (Z.to_pos u)) = if j =? 0 then k else k + 1.
Proof.
  intros Hu Hr Hj. unfold Qround.Qceiling. simpl. rewrite Z2Pos.id by lia.
  destruct (Z.eqb_spec j 0) as [->|Hj0].
  - assert (- r / u = - k); [|lia].
    symmetry. apply Z.div_unique with 0; lia.
  - assert (- r / u = - (k + 1)); [|lia].
    symmetry. apply Z.div_unique with (u - j); lia.
Qed.

Lemma policy_errors r u k j :
  0 < u -> r = u * k + j -> 0 < j < u ->
  QArith_base.Qcompare
    (Qabs.Qabs (QArith_base.Qminus (QArith_base.Qmake r (Z.to_pos u))
                                   (QArith_base.inject_Z k)))
    (Qabs.Qabs (QArith_base.Qminus (QArith_base.inject_Z (k + 1))
                                   (QArith_base.Qmake r (Z.to_pos u))))
  = (2 * j ?= u).
Proof.
  intros Hu Hr Hj.
  unfold QArith_base.Qcompare, Qabs.Qabs, QArith_base.Qminus, QArith_base.Qplus,
    QArith_base.Qopp, QArith_base.inject_Z.
  cbn [QArith_base.Qnum QArith_base.Qden].
  rewrite !Pos2Z.inj_mul, !Z2Pos.id by lia.
  replace (r * 1 + - k * u) with j by lia.
  replace ((k + 1) * u + - r * 1) with (u - j) by lia.
  rewrite !Z.abs_eq by lia.
  destruct (Z.compare_spec (2 * j) u) as [E|E|E].
  - apply Z.compare_eq_iff. nia.
  - apply Z.compare_lt_iff. nia.
  - apply Z.compare_gt_iff. nia.
Qed.

(** *** The quantisation of [FulfillLine] against the policy *)

Lemma floor_between m X k : 0 < X -> k * X <= m < (k + 1) * X -> m / X = k.
Proof. intros HX Hb. symmetry. apply Z.div_unique with (m - k * X); lia. Qed.

Lemma ceil_between m X k :
  0 < X -> k * X < m < (k + 1) * X -> - (- m / X) = k + 1.
Proof.
  intros HX Hb. assert (- m / X = - (k + 1)); [|lia].
  symmetry. apply Z.div_unique with ((k + 1) * X - m); lia.
Qed.

Lemma ceil_multiple X k : 0 < X -> - (- (k * X) / X) = k.
Proof.
  intros HX. assert (- (k * X) / X = - k); [|lia].
  symmetry. apply Z.div_unique with 0; lia.
Qed.

Lemma choose_packages_refines {G} `{RandomStream G} (rng : G) (r u : Z) :
  0 < r < 2 ^ 23 -> 0 < u < 2 ^ 24 ->
  Warehouse.choose_packages rng r u = policy_packages rng r u.
Proof.
  intros Hr Hu.
  assert (H23 : 2 ^ 23 = 8388608) by reflexivity.
  assert (H24 : 2 ^ 24 = 16777216) by reflexivity.
  destruct (div_int_int r u Hr Hu) as (m & s & Hex & Hs & Rm & Herr).
  pose proof (Z.div_mod r u ltac:(lia)) as Hdiv.
  pose proof (Z.mod_pos_bound r u ltac:(lia)) as Hj.
  pose proof (Z.div_pos r u ltac:(lia) ltac:(lia)) as Hk.
  set (k := r / u) in *. set (j := r mod u) in *.
  pose proof (pow2_pos s ltac:(lia)) as HX.
  destruct (quotient_arith (Z.pos m) u r (2 ^ s) k j) as (HuX & Hj0 & Hjpos);
    try lia.
  assert (Hs1 : 1 <= s).
  { destruct (Z.eq_dec s 0) as [->|]; [simpl in HuX; lia | lia]. }
  assert (Hk1 : k + 1 <= 2 ^ 23) by nia.
  assert (Htail : forall chosen (g : G), 0 <= chosen <= 2 ^ 23 ->
    (let '(jitter, rng0) := RandBernoulli g f0_35 in
     let '(chosen0, rng1) :=
       if jitter
       then let '(down, rng1) := RandBernoulli rng0 f0_5 in
            (Z.max 0 (add32 chosen (if down then -1 else 1)), rng1)
       else (chosen, rng0) in
     (if chosen0 =? 0 then 1 else chosen0, rng1))
    = (let '(jitter, rng0) := RandBernoulli g f0_35 in
       let '(chosen0, rng1) :=
         if jitter
         then let '(down, rng1) := RandBernoulli rng0 f0_5 in
              (Z.max 0 (chosen + (if down then -1 else 1)), rng1)
         else (chosen, rng0) in
       (if chosen0 =? 0 then 1 else chosen0, rng1))).
  { intros chosen g Hc. destruct (RandBernoulli g f0_35) as [[] g1]; [|reflexivity].
    destruct (RandBernoulli g1 f0_5) as [down g2].
    unfold add32. rewrite wrap32_id; [reflexivity|].
    unfold is_int, INT_MIN, INT_MAX. destruct down; simpl; lia. }
  unfold Warehouse.choose_packages, policy_packages.
  rewrite Hex, SFfloor_fraction, SFceil_fraction by lia.
  rewrite policy_floor, (policy_ceiling r u k j) by lia.
  fold k.
  destruct (Z.eqb_spec j 0) as [Ej|Ej].
  - (* the quotient is an integer *)
    rewrite (Hj0 Ej). rewrite Z.div_mul, ceil_multiple by lia.
    rewrite cast_int_small by lia. rewrite Z.eqb_refl.
    apply Htail. lia.
  - destruct Hjpos as (Hbetween & Hlt & Hgt & Htie); [lia|].
    rewrite (floor_between (Z.pos m) (2 ^ s) k), (ceil_between (Z.pos m) (2 ^ s) k)
      by lia.
    rewrite !cast_int_small by lia.
    replace (k =? k + 1) with false by (symmetry; apply Z.eqb_neq; lia).
    destruct (errors_compare m s k Rm ltac:(lia) Hk Hk1 Hbetween) as [-> ->].
    rewrite (policy_errors r u k j) by lia.
    destruct (Z.compare_spec (2 * j) u) as [E|E|E].
    + assert (Hev : Z.even (2 ^ s) = true) by (rewrite Z.even_pow by lia; reflexivity).
      rewrite (Htie E Hev), Z.ltb_irrefl.
      destruct (RandBernoulli rng f0_5) as [[] g]; apply Htail; lia.
    + replace (2 * (Z.pos m - k * 2 ^ s) <? 2 ^ s) with true
        by (symmetry; apply Z.ltb_lt; lia).
      apply Htail. lia.
    + replace (2 * (Z.pos m - k * 2 ^ s) <? 2 ^ s) with false
        by (symmetry; apply Z.ltb_ge; lia).
      replace (2 ^ s <? 2 * (Z.pos m - k * 2 ^ s)) with true
        by (symmetry; apply Z.ltb_lt; lia).
      apply Htail. lia.
Qed.

Lemma policy_packages_bounds {G} `{RandomStream G} (rng : G) (r u : Z) :
  0 < r -> 0 < u ->
  1 <= (policy_packages rng r u).1 <= r / u + 2.
Proof.
  intros Hr Hu.
  pose proof (Z.div_mod r u ltac:(lia)) as Hdiv.
  pose proof (Z.mod_pos_bound r u ltac:(lia)) as Hj.
  pose proof (Z.div_pos r u ltac:(lia) ltac:(lia)) as Hk.
  unfold policy_packages.
  rewrite policy_floor, (policy_ceiling r u (r / u) (r mod u)) by lia.
  set (k := r / u) in *.
  assert (Htail : forall chosen (g : G), k <= chosen <= k + 1 ->
    1 <= (let '(jitter, rng0) := RandBernoulli g f0_35 in
          let '(chosen0, rng1) :=
            if jitter
            then let '(down, rng1) := RandBernoulli rng0 f0_5 in
                 (Z.max 0 (chosen + (if down then -1 else 1)), rng1)
            else (chosen, rng0) in
          (if chosen0 =? 0 then 1 else chosen0, rng1)).1 <= k + 2).
  { intros chosen g Hc. destruct (RandBernoulli g f0_35) as [[] g1].
    - destruct (RandBernoulli g1 f0_5) as [[] g2]; simpl;
        match goal with |- context [?x =? 0] => destruct (Z.eqb_spec x 0) end;
        simpl; lia.
    - simpl. destruct (Z.eqb_spec chosen 0); simpl; lia. }
  destruct (r mod u =? 0).
  - rewrite Z.eqb_refl. apply Htail. lia.
  - replace (k =? k + 1) with false by (symmetry; apply Z.eqb_neq; lia).
    destruct (QArith_base.Qcompare _ _).
    + destruct (RandBernoulli rng f0_5) as [[] g]; apply Htail; lia.
    + apply Htail; lia.
    + apply Htail; lia.
Qed.

(** C2, as the code has it.  For [0 < requestedUnits < 2^23] and
    [1 <= unitsPerPackage < 2^24], [FulfillLine] chooses the packages by the
    documented policy over the exact quotient (floor when it is an integer,
    the nearer of floor and ceiling otherwise, a fair coin of the shared
    generator on a tie, a perturbation by one with probability 0.35 in a
    direction given by a further coin, clamped at 0, and 0 forced to 1) and
    leaves the generator where the policy leaves it; it delivers
    [min(chosenPackages, TotalPackages before)], hence no more than either,
    and [deliveredUnits = deliveredPackages * unitsPerPackage]. *)
Theorem FulfillLine_quantisation {G} `{RandomStream G}
    (wh : Warehouse.t) (line : OrderLine.t) (pc : ProductConfig.t) (rng : G)
    (st : DayStats.t) :
  let r := OrderLine.requestedUnits line in
  let u := ProductConfig.unitsPerPackage pc in
  let available := Warehouse.TotalPackages wh (OrderLine.productId line) in
  let res := Warehouse.FulfillLine wh line pc rng st in
  let line' := res.1.1.2 in
  0 < r < 2 ^ 23 -> 1 <= u < 2 ^ 24 ->
  OrderLine.chosenPackages line' = (policy_packages rng r u).1 /\
  res.1.2 = (policy_packages rng r u).2 /\
  1 <= OrderLine.chosenPackages line' /\
  OrderLine.deliveredPackages line'
    = Z.min (OrderLine.chosenPackages line') available /\
  OrderLine.deliveredPackages line' <= OrderLine.chosenPackages line' /\
  OrderLine.deliveredPackages line' <= available /\
  OrderLine.deliveredUnits line' = mul32 (OrderLine.deliveredPackages line') u /\
  (0 <= available ->
   OrderLine.deliveredUnits line' = OrderLine.deliveredPackages line' * u) /\
  OrderLine.productId line' = OrderLine.productId line /\
  OrderLine.requestedUnits line' = r.
Proof.
  intros r u available res line' Hr Hu. subst res line'.
  unfold Warehouse.FulfillLine. fold r u.
  destruct (Z.leb_spec r 0); [lia|]. destruct (Z.leb_spec u 0); [lia|].
  rewrite (choose_packages_refines rng r u) by lia.
  pose proof (policy_packages_bounds rng r u ltac:(lia) ltac:(lia)) as Hb.
  destruct (policy_packages rng r u) as [chosen g]. simpl in Hb.
  fold available.
  destruct (Warehouse.drain pc (Z.min chosen available) _ st) as [dq st'].
  simpl. repeat split; try lia.
  intros Hav. unfold mul32. apply wrap32_id.
  assert (H23 : 2 ^ 23 = 8388608) by reflexivity.
  assert (H24 : 2 ^ 24 = 16777216) by reflexivity.
  pose proof (Z.div_mod r u ltac:(lia)). pose proof (Z.mod_pos_bound r u ltac:(lia)).
  unfold is_int, INT_MIN, INT_MAX. simpl. nia.
Qed.

(** The tie of the specification: 25 units in packages of 10. *)
Lemma FulfillLine_quantisation_witness :
  OrderLine.chosenPackages
    (Warehouse.FulfillLine (SimulatorImpl.wh demo_sim) (demo_line 25)
       ProductConfig.default (2 : Z) DayStats.zero).1.1.2
  = (policy_packages (2 : Z) 25 10).1.
Proof.
  pose proof (FulfillLine_quantisation (G := Z) (SimulatorImpl.wh demo_sim)
                (demo_line 25) ProductConfig.default 2 DayStats.zero) as Hq.
  cbv zeta in Hq.
  destruct Hq as [Hchosen _];
    [vm_compute; split; (reflexivity || discriminate)..|].
  exact Hchosen.
Defined.

(** C2, as the claim states it, fails once the request does not fit the
    24-bit mantissa of a [float]: 16777217 units in packages of one unit
    have floor = ceiling = 16777217, and with no perturbation drawn the
    code chooses 16777216. *)
Lemma FulfillLine_large_request_rounds :
  (RandBernoulli (2 : Z) f0_35).1 = false /\
  (policy_packages (2 : Z) 16777217 1).1 = 16777217 /\
  OrderLine.chosenPackages
    (Warehouse.FulfillLine [[]] large_line unit_product (2 : Z) DayStats.zero).1.1.2
  = 16777216.
Proof. vm_compute. repeat split; reflexivity. Qed.

(** The bound on [requestedUnits] cannot be raised to the full mantissa:
    12582913 units in packages of 3 have the quotient 4194304.33..., which
    rounds to the float 4194304.5; the code sees a tie, draws a coin the
    policy does not draw, and here goes up. *)
Example tie_from_rounding :
  F32.div (F32.of_int 12582913) (F32.of_int 3) = S754_finite false 8388609 (-1) /\
  (Warehouse.choose_packages (2 : Z) 12582913 3).1 = 4194305 /\
  (policy_packages (2 : Z) 12582913 3).1 = 4194304.
Proof. vm_compute. repeat split; reflexivity. Qed.

(** ** Capacity *)

Lemma lit_30_100 : F32.lit 30 100 = S754_finite false 10066330 (-25).
Proof. vm_compute. reflexivity. Qed.

Lemma lit_70_100 : F32.lit 70 100 = S754_finite false 11744051 (-24).
Proof. vm_compute. reflexivity. Qed.

(** A canonical float in [[0.30f, 0.70f)] is [m * 2^e] with a 24-digit
    mantissa and at most three quarters of [2^(-e)]. *)
Lemma share_shape x :
  F32.valid x = true ->
  SFleb (F32.lit 30 100) x = true -> SFltb x (F32.lit 70 100) = true ->
  exists m e,
    x = S754_finite false m e /\ 2 ^ 23 <= Z.pos m < 2 ^ 24 /\
    (e = -25 \/ e = -24) /\ 4 * Z.pos m <= 3 * 2 ^ (- e).
Proof.
  rewrite lit_30_100, lit_70_100. intros Hv Hlo Hhi.
  destruct x as [s|s| |s m e]; try discriminate; try (destruct s; discriminate).
  destruct s; [discriminate|].
  unfold F32.valid, valid_binary, bounded, canonical_mantissa, fexp, emin,
    F32.prec, F32.emax in Hv.
  apply andb_true_iff in Hv. destruct Hv as [Hc _]. apply Z.eqb_eq in Hc.
  assert (Hle : -25 <= e).
  { unfold SFleb, SFcompare in Hlo.
    destruct (Z.compare_spec (-25) e); [lia|lia|discriminate]. }
  assert (Hlt : e < -24 \/ e = -24 /\ Z.pos m < 11744051).
  { unfold SFltb, SFcompare in Hhi.
    destruct (Z.compare_spec e (-24)) as [E|E|E]; [|lia|discriminate].
    right. split; [exact E|].
    destruct (Pos.compare_cont Eq m 11744051) eqn:Ec; try discriminate.
    change (Pos.compare_cont Eq m 11744051) with (Pos.compare m 11744051) in Ec.
    apply Pos.compare_lt_iff in Ec. apply Pos2Z.pos_lt_pos. exact Ec. }
  clear Hlo Hhi.
  assert (Hd : Z.pos (digits2_pos m) = 24) by lia.
  pose proof (digits_bounds m) as Hb. rewrite Hd in Hb.
  change (2 ^ (24 - 1)) with (2 ^ 23) in Hb.
  exists m, e. split; [reflexivity|]. split; [exact Hb|]. split; [lia|].
  destruct (Z.eq_dec e (-25)) as [->|Hne].
  - change (2 ^ (- -25)) with 33554432. change (2 ^ 24) with 16777216 in Hb. lia.
  - assert (e = -24) by lia. subst e.
    change (2 ^ (- -24)) with 16777216. lia.
Qed.

(** The initial stock [int(round(float(cap) * share))] never exceeds the
    capacity. *)
Lemma init_stock_le_cap cap x :
  0 <= cap <= 5000 ->
  F32.valid x = true ->
  SFleb (F32.lit 30 100) x = true -> SFltb x (F32.lit 70 100) = true ->
  0 <= cast_int (SFround (F32.mul (F32.of_int cap) x)) <= cap.
Proof.
  intros Hcap Hv Hlo Hhi.
  destruct (share_shape x Hv Hlo Hhi) as (m & e & -> & Rm & He & Hm).
  destruct cap as [|pc|pc]; [vm_compute; split; discriminate| |lia].
  assert (H13 : Z.pos pc < 2 ^ 13) by (change (2 ^ 13) with 8192; lia).
  pose proof (digits_le pc 13 H13) as Hdc.
  pose proof (digits_bounds pc) as Hbc.
  destruct (of_int_exact pc _ eq_refl ltac:(lia)) as (mc & -> & Hmc & Rmc).
  set (dc := Z.pos (digits2_pos pc)) in *. assert (0 < dc) by lia.
  unfold F32.mul, SFmul, F32.prec, F32.emax. simpl xorb.
  assert (H23 : 2 ^ 23 = 8388608) by reflexivity.
  assert (H24 : 2 ^ 24 = 16777216) by reflexivity.
  assert (Hprod : 2 ^ 46 <= Z.pos (mc * m) < 2 ^ 48).
  { rewrite Pos2Z.inj_mul. change (2 ^ 46) with (2 ^ 23 * 2 ^ 23).
    change (2 ^ 48) with (2 ^ 24 * 2 ^ 24). nia. }
  assert (Hd : Z.pos (digits2_pos (mc * m)) = 47 \/ Z.pos (digits2_pos (mc * m)) = 48).
  { destruct (Z_lt_le_dec (Z.pos (mc * m)) (2 ^ 47)).
    - left. apply digits_unique. simpl (47 - 1). lia.
    - right. apply digits_unique. simpl (48 - 1). lia. }
  destruct (binary_round_aux_normal (Z.pos (mc * m)) 1 (mc * m) (dc - 24 + e)
              loc_Exact (Z.pos (digits2_pos (mc * m))))
    as (m' & e' & -> & Rm' & He' & Herr); [lia|apply exact_located|reflexivity|lia..|].
  set (t := e' - (dc - 24 + e)) in *.
  assert (Ht : 23 <= t <= 25) by lia.
  set (w := - e').
  assert (Hw : 1 <= w) by lia.
  assert (Hwt : w + t = 24 - dc + - e) by lia.
  unfold SFround. destruct (Z.leb_spec 0 e'); [lia|]. fold w.
  pose proof (pow2_pos t ltac:(lia)) as HT.
  pose proof (pow2_pos (w - 1) ltac:(lia)) as HW.
  assert (EW : 2 ^ w = 2 * 2 ^ (w - 1)).
  { replace w with (1 + (w - 1)) at 1 by lia. rewrite pow2_split by lia. lia. }
  assert (EW1 : 2 ^ (w + 1) = 2 * 2 ^ w) by (rewrite pow2_split by lia; lia).
  assert (EQ : 2 ^ w * 2 ^ t = 2 ^ (24 - dc) * 2 ^ (- e)).
  { rewrite <- !pow2_split by lia. f_equal. lia. }
  rewrite Z.mul_1_r, Pos2Z.inj_mul, Hmc in Herr.
  pose proof (pow2_pos (24 - dc) ltac:(lia)) as HC.
  assert (Hbound : Z.pos m' < Z.pos pc * 2 ^ w + 2 ^ (w - 1)).
  { assert (4 * (Z.pos pc * 2 ^ (24 - dc) * Z.pos m)
            <= 3 * Z.pos pc * (2 ^ w * 2 ^ t)) by (rewrite EQ; nia).
    assert (4 * (Z.pos m' * 2 ^ t)
            <= 4 * (Z.pos pc * 2 ^ (24 - dc) * Z.pos m) + 2 * 2 ^ t) by lia.
    assert (4 * (Z.pos m' * 2 ^ t)
            < 4 * ((Z.pos pc * 2 ^ w + 2 ^ (w - 1)) * 2 ^ t)) by nia.
    nia. }
  assert (Hq : 0 <= (2 * Z.pos m' + 2 ^ w) / 2 ^ (w + 1) <= Z.pos pc).
  { split.
    - apply Z.div_pos; lia.
    - assert ((2 * Z.pos m' + 2 ^ w) / 2 ^ (w + 1) < Z.pos pc + 1); [|lia].
      apply Z.div_lt_upper_bound; lia. }
  rewrite cast_int_small by lia. exact Hq.
Qed.

Lemma is_int_0 : is_int 0.
Proof. unfold is_int, INT_MIN, INT_MAX. change (2 ^ 31) with 2147483648. lia. Qed.

Lemma sum_packages_snoc dq b :
  Warehouse.sum_packages (dq ++ [b])
  = add32 (Warehouse.sum_packages dq) (Batch.packages b).
Proof. unfold Warehouse.sum_packages. by rewrite fold_left_app. Qed.

Lemma sum_packages_is_int dq : is_int (Warehouse.sum_packages dq).
Proof.
  destruct dq as [|b dq _] using rev_ind.
  - apply is_int_0.
  - rewrite sum_packages_snoc. apply wrap32_range.
Qed.

Lemma TotalPackages_is_int wh pid : is_int (Warehouse.TotalPackages wh pid).
Proof.
  unfold Warehouse.TotalPackages. destruct (negb _).
  - apply is_int_0.
  - apply sum_packages_is_int.
Qed.

Lemma TotalPackages_invalid wh pid :
  Warehouse.valid_pid wh pid = false -> Warehouse.TotalPackages wh pid = 0.
Proof. unfold Warehouse.TotalPackages. by intros ->. Qed.

Lemma TotalPackages_Receive wh pid pk pc :
  Warehouse.valid_pid wh pid = true -> 0 < pk ->
  Warehouse.TotalPackages (Warehouse.Receive wh pid pk pc) pid
  = add32 (Warehouse.TotalPackages wh pid) pk.
Proof.
  intros Hv Hpk. unfold Warehouse.Receive, Warehouse.TotalPackages.
  rewrite Hv. simpl. destruct (Z.leb_spec pk 0); [lia|].
  rewrite valid_pid_set_queue, Hv. simpl.
  rewrite queue_set_queue by exact Hv. apply sum_packages_snoc.
Qed.

Lemma TotalPackages_Receive_other wh pid pk pc q :
  q ≠ pid ->
  Warehouse.TotalPackages (Warehouse.Receive wh pid pk pc) q
  = Warehouse.TotalPackages wh q.
Proof.
  intros Hne. unfold Warehouse.Receive, Warehouse.TotalPackages.
  destruct (negb (Warehouse.valid_pid wh pid)); [reflexivity|].
  destruct (pk <=? 0); [reflexivity|].
  rewrite valid_pid_set_queue. destruct (negb _); [reflexivity|].
  by rewrite queue_set_queue_ne.
Qed.

Lemma ClampProduct_capacity p :
  0 <= ProductConfig.capacityPackages (ClampProduct p) <= 5000.
Proof.
  unfold ClampProduct, clampZ. simpl.
  destruct (Z.ltb_spec (ProductConfig.capacityPackages p) 0); [lia|].
  destruct (Z.ltb_spec 5000 (ProductConfig.capacityPackages p)); lia.
Qed.

Lemma product_at_Forall (P : ProductConfig.t -> Prop) products pid :
  Forall P products -> P ProductConfig.default -> P (product_at products pid).
Proof.
  intros Hall Hdef. unfold product_at. rewrite list_lookup_total_alt.
  destruct (products !! Z.to_nat pid) eqn:E; simpl; [|exact Hdef].
  eapply Forall_lookup_1; eauto.
Qed.

(** The capacity-capped receipt of one arrival. *)
Lemma receive_arrival_capacity products wh log pid pk :
  0 <= ProductConfig.capacityPackages (product_at products pid) <= 5000 ->
  let pc := product_at products pid in
  let accepted :=
    Z.max 0 (Z.min pk (sub32 (ProductConfig.capacityPackages pc)
                             (Warehouse.TotalPackages wh pid))) in
  let wh' := (SimulatorImpl.receive_arrival products (wh, log) (pid, pk)).1 in
  wh' = (if 0 <? accepted then Warehouse.Receive wh pid accepted pc else wh) /\
  (0 < accepted ->
   Warehouse.TotalPackages wh' pid <= ProductConfig.capacityPackages pc).
Proof.
  intros Hcap pc accepted wh'. subst wh'. fold pc in Hcap.
  unfold SimulatorImpl.receive_arrival. fold pc. fold accepted.
  destruct (Z.ltb_spec 0 accepted) as [Hacc|Hacc]; simpl; [|split; [reflexivity|lia]].
  split; [reflexivity|]. intros _.
  destruct (Warehouse.valid_pid wh pid) eqn:Hv.
  - rewrite TotalPackages_Receive by assumption.
    pose proof (TotalPackages_is_int wh pid) as Hcur.
    assert (Hfree : 0 < sub32 (ProductConfig.capacityPackages pc)
                              (Warehouse.TotalPackages wh pid))
      by (unfold accepted in Hacc; lia).
    assert (Hle : accepted <= sub32 (ProductConfig.capacityPackages pc)
                                    (Warehouse.TotalPackages wh pid))
      by (unfold accepted; lia).
    clearbody accepted.
    set (cur := Warehouse.TotalPackages wh pid) in *.
    unfold sub32, add32 in *. unfold is_int, INT_MIN, INT_MAX in Hcur.
    assert (E31 : 2 ^ 31 = 2147483648) by reflexivity.
    assert (Hnowrap : is_int (ProductConfig.capacityPackages pc - cur)).
    { unfold is_int, INT_MIN, INT_MAX. rewrite E31 in *.
      destruct (Z_le_gt_dec (ProductConfig.capacityPackages pc - cur) 2147483647);
        [lia|].
      exfalso. unfold wrap32 in Hfree.
      assert (E32 : 2 ^ 32 = 4294967296) by reflexivity. rewrite E31, E32 in Hfree.
      assert ((ProductConfig.capacityPackages pc - cur + 2147483648) mod 4294967296
              = ProductConfig.capacityPackages pc - cur + 2147483648 - 4294967296).
      { symmetry. apply Z.mod_unique with 1; lia. }
      lia. }
    rewrite (wrap32_id _ Hnowrap) in *.
    rewrite wrap32_id; [lia|]. unfold is_int, INT_MIN, INT_MAX. rewrite E31. lia.
  - unfold Warehouse.Receive. rewrite Hv. simpl.
    rewrite TotalPackages_invalid by exact Hv. lia.
Qed.

Lemma valid_pid_iff {A} (v : list A) pid :
  Warehouse.valid_pid v pid = true <-> 0 <= pid < Z.of_nat (length v).
Proof. unfold Warehouse.valid_pid. rewrite andb_true_iff. lia. Qed.

Lemma lit_valid_30_100 : F32.valid (F32.lit 30 100) = true.
Proof. vm_compute. reflexivity. Qed.

Lemma lit_valid_70_100 : F32.valid (F32.lit 70 100) = true.
Proof. vm_compute. reflexivity. Qed.

Lemma lit_30_lt_70 : SFltb (F32.lit 30 100) (F32.lit 70 100) = true.
Proof. vm_compute. reflexivity. Qed.

(** One round of the product loop of [Reset] keeps the loop invariant: the
    queues from the current index on are empty, and every product holds no
    more than its capacity. *)
Lemma init_product_step {G} `{RandomStreamLaws G} (Kn : nat) (i : Z) (rng : G)
    (products : list ProductConfig.t) (wh : Warehouse.t) :
  0 <= i < Z.of_nat Kn -> length products = Kn -> length wh = Kn ->
  Forall (fun p => 0 <= ProductConfig.capacityPackages p <= 5000) products ->
  (forall pid, i <= pid -> Warehouse.queue wh pid = []) ->
  (forall pid, Warehouse.valid_pid wh pid = true ->
     Warehouse.TotalPackages wh pid
     <= ProductConfig.capacityPackages (product_at products pid)) ->
  let acc := SimulatorImpl.init_product i (rng, products, wh) in
  length acc.1.2 = Kn /\ length acc.2 = Kn /\
  Forall (fun p => 0 <= ProductConfig.capacityPackages p <= 5000) acc.1.2 /\
  (forall pid, i + 1 <= pid -> Warehouse.queue acc.2 pid = []) /\
  (forall pid, Warehouse.valid_pid acc.2 pid = true ->
     Warehouse.TotalPackages acc.2 pid
     <= ProductConfig.capacityPackages (product_at acc.1.2 pid)).
Proof.
  intros Hi Hlp Hlw Hcaps Hempty Hinv acc. subst acc.
  unfold SimulatorImpl.init_product.
  destruct (RandInt rng 6 24) as [upp g1].
  destruct (RandInt g1 18 40) as [cap0 g2].
  destruct (RandInt g2 7 25) as [life g3].
  destruct (RandFloat g3 (F32.lit 8 10) (F32.lit 55 10)) as [price g4].
  pose proof (uniform_real_range g4 _ _ lit_valid_30_100 lit_valid_70_100
                lit_30_lt_70) as (Hsv & Hslo & Hshi).
  unfold RandFloat. destruct (uniform_real g4 _ _) as [share g5].
  cbn [fst snd] in *.
  set (pc := ClampProduct _).
  pose proof (ClampProduct_capacity
                (ProductConfig.mk (SimulatorImpl.product_name i) "ед." upp cap0 life
                   (Z.min 5 (Z.max 2 (life `quot` 5))) price (F32.of_int 25)
                   (Z.max 3 (cap0 `quot` 5)) (Z.max 4 (cap0 `quot` 2)))) as Hpc.
  fold pc in Hpc.
  pose proof (init_stock_le_cap _ share Hpc Hsv Hslo Hshi) as Hstock.
  set (initP := cast_int _) in *. clearbody initP. clearbody pc.
  assert (Hidx : (Z.to_nat i < length products)%nat) by lia.
  assert (Hat : product_at (<[Z.to_nat i:=pc]> products) i = pc).
  { unfold product_at. by apply list_lookup_total_insert_eq. }
  rewrite Hat.
  assert (Hvi : Warehouse.valid_pid wh i = true) by (apply valid_pid_iff; lia).
  assert (Hlw' : length (Warehouse.Receive wh i initP pc) = Kn).
  { unfold Warehouse.Receive. rewrite Hvi. simpl. destruct (initP <=? 0); [done|].
    unfold Warehouse.set_queue. rewrite Hvi. by rewrite length_insert. }
  split; [by rewrite length_insert|]. split; [exact Hlw'|]. split; [|split].
  - apply Forall_insert; assumption.
  - intros pid Hpid. unfold Warehouse.Receive. rewrite Hvi. simpl.
    destruct (initP <=? 0); [apply Hempty; lia|].
    rewrite queue_set_queue_ne by lia. apply Hempty. lia.
  - intros pid Hvp. apply valid_pid_iff in Hvp. rewrite Hlw' in Hvp.
    destruct (Z.eq_dec pid i) as [->|Hne].
    + rewrite Hat. destruct (Z_le_gt_dec initP 0) as [Hz|Hpos].
      * unfold Warehouse.Receive. rewrite Hvi. simpl.
        destruct (Z.leb_spec initP 0); [|lia].
        unfold Warehouse.TotalPackages. rewrite Hvi. simpl.
        rewrite Hempty by lia. unfold Warehouse.sum_packages. simpl. lia.
      * rewrite TotalPackages_Receive by (assumption || lia).
        unfold Warehouse.TotalPackages. rewrite Hvi. simpl.
        rewrite Hempty by lia. unfold Warehouse.sum_packages, add32. simpl.
        rewrite wrap32_id; [lia|].
        unfold is_int, INT_MIN, INT_MAX. change (2 ^ 31) with 2147483648. lia.
    + rewrite TotalPackages_Receive_other by exact Hne.
      assert (Hat' : product_at (<[Z.to_nat i:=pc]> products) pid
                     = product_at products pid).
      { unfold product_at. apply list_lookup_total_insert_ne. lia. }
      rewrite Hat'. apply Hinv. apply valid_pid_iff. lia.
Qed.

Lemma queue_replicate n pid : Warehouse.queue (replicate n []) pid = [].
Proof.
  unfold Warehouse.queue. destruct (Warehouse.valid_pid _ pid) eqn:Hv; [|done].
  apply valid_pid_iff in Hv. rewrite length_replicate in Hv.
  rewrite list_lookup_total_alt, lookup_replicate_2 by lia. done.
Qed.

Lemma init_products_inv {G} `{RandomStreamLaws G} (cfg : SimConfig.t) (k : nat) :
  Z.of_nat k <= SimConfig.K cfg ->
  let acc := SimulatorImpl.init_products cfg (Z.of_nat k) in
  length acc.1.2 = Z.to_nat (SimConfig.K cfg) /\
  length acc.2 = Z.to_nat (SimConfig.K cfg) /\
  Forall (fun p => 0 <= ProductConfig.capacityPackages p <= 5000) acc.1.2 /\
  (forall pid, Z.of_nat k <= pid -> Warehouse.queue acc.2 pid = []) /\
  (forall pid, Warehouse.valid_pid acc.2 pid = true ->
     Warehouse.TotalPackages acc.2 pid
     <= ProductConfig.capacityPackages (product_at acc.1.2 pid)).
Proof.
  induction k as [|k IH]; intros Hk.
  - unfold SimulatorImpl.init_products. simpl.
    split; [apply length_replicate|]. split; [apply length_replicate|].
    split; [apply Forall_replicate; simpl; lia|].
    split; [intros; apply queue_replicate|].
    intros pid Hv. unfold Warehouse.TotalPackages. rewrite Hv, queue_replicate.
    simpl.
    apply (product_at_Forall (fun p => 0 <= ProductConfig.capacityPackages p)).
    + apply Forall_replicate. simpl. lia.
    + simpl. lia.
  - specialize (IH ltac:(lia)). cbv zeta in IH.
    unfold SimulatorImpl.init_products in *.
    rewrite Nat2Z.inj_succ, <- Z.add_1_r, seqZ_app by lia.
    rewrite fold_left_app.
    change (seqZ (0 + Z.of_nat k) 1) with [Z.of_nat k]. cbn [fold_left].
    match goal with
    | |- context [SimulatorImpl.init_product _ ?a] => destruct a as [[rng products] wh]
    end.
    cbn [fst snd] in IH. destruct IH as (Hlp & Hlw & Hcaps & Hempty & Hinv).
    apply (init_product_step (Z.to_nat (SimConfig.K cfg))); try assumption. lia.
Qed.

(** * Further properties of the engine *)

(** ** The normalisers *)

Lemma clampZ_range v lo hi : lo <= hi -> lo <= clampZ v lo hi <= hi.
Proof.
  intros Hle. unfold clampZ.
  destruct (Z.ltb_spec v lo); [lia|]. destruct (Z.ltb_spec hi v); lia.
Qed.

Lemma clampZ_fixed v lo hi : lo <= v <= hi -> clampZ v lo hi = v.
Proof.
  intros Hv. unfold clampZ.
  destruct (Z.ltb_spec v lo); [lia|]. destruct (Z.ltb_spec hi v); lia.
Qed.

Lemma fclamp_idem v lo hi :
  SFltb lo lo = false -> SFltb hi lo = false -> SFltb hi hi = false ->
  fclamp (fclamp v lo hi) lo hi = fclamp v lo hi.
Proof.
  intros Hll Hhl Hhh. unfold fclamp.
  destruct (SFltb v lo) eqn:E1.
  - by rewrite Hll, Hhl.
  - destruct (SFltb hi v) eqn:E2.
    + destruct (SFltb hi lo) eqn:E3; [discriminate|]. by rewrite Hhh.
    + by rewrite E1, E2.
Qed.

Lemma fmax_std_idem c x :
  SFltb c c = false -> fmax_std c (fmax_std c x) = fmax_std c x.
Proof.
  intros Hcc. unfold fmax_std. destruct (SFltb c x) eqn:E; by rewrite ?Hcc, ?E.
Qed.

Lemma ClampConfig_ranges (c : SimConfig.t) :
  let c' := ClampConfig c in
  10 <= SimConfig.N c' <= 30 /\ 3 <= SimConfig.M c' <= 9 /\
  12 <= SimConfig.K c' <= 20 /\ 1 <= SimConfig.maxLinesPerOrder c' <= 20 /\
  1 <= SimConfig.minUnitsPerLine c' <= SimConfig.maxUnitsPerLine c' /\
  1 <= SimConfig.supplierLeadTimeMin c' <= 30 /\
  SimConfig.supplierLeadTimeMin c' <= SimConfig.supplierLeadTimeMax c' <= 60.
Proof.
  cbv zeta.
  pose proof (clampZ_range (SimConfig.N c) 10 30 ltac:(lia)) as HN.
  pose proof (clampZ_range (SimConfig.M c) 3 9 ltac:(lia)) as HM.
  pose proof (clampZ_range (SimConfig.K c) 12 20 ltac:(lia)) as HK.
  pose proof (clampZ_range (SimConfig.maxLinesPerOrder c) 1 20 ltac:(lia)) as HL.
  pose proof (clampZ_range (SimConfig.supplierLeadTimeMin c) 1 30 ltac:(lia)) as Hmin.
  pose proof (clampZ_range (SimConfig.supplierLeadTimeMax c)
                (clampZ (SimConfig.supplierLeadTimeMin c) 1 30) 60 ltac:(lia)) as Hmax.
  unfold ClampConfig. cbn [SimConfig.N SimConfig.M SimConfig.K SimConfig.seed
    SimConfig.orderProbability SimConfig.maxLinesPerOrder SimConfig.minUnitsPerLine
    SimConfig.maxUnitsPerLine SimConfig.discountDemandBoost
    SimConfig.supplierLeadTimeMin SimConfig.supplierLeadTimeMax
    SimConfig.secondsPerDay].
  repeat (apply conj; [lia|]). lia.
Qed.

Lemma ClampConfig_idem (c : SimConfig.t) : ClampConfig (ClampConfig c) = ClampConfig c.
Proof.
  pose proof (ClampConfig_ranges c) as Hr. cbv zeta in Hr.
  revert Hr. unfold ClampConfig.
  cbn [SimConfig.N SimConfig.M SimConfig.K SimConfig.seed
    SimConfig.orderProbability SimConfig.maxLinesPerOrder SimConfig.minUnitsPerLine
    SimConfig.maxUnitsPerLine SimConfig.discountDemandBoost
    SimConfig.supplierLeadTimeMin SimConfig.supplierLeadTimeMax
    SimConfig.secondsPerDay].
  intros Hr.
  rewrite !(clampZ_fixed (clampZ _ _ _)) by lia.
  rewrite !fclamp_idem by (vm_compute; reflexivity).
  f_equal; lia.
Qed.

(** X1. [ClampConfig] puts every integer member into its documented range,
    keeps the seed, and is idempotent: a normalised configuration is a
    fixed point, float members included. *)
Theorem ClampConfig_normalises (c : SimConfig.t) :
  let c' := ClampConfig c in
  10 <= SimConfig.N c' <= 30 /\ 3 <= SimConfig.M c' <= 9 /\
  12 <= SimConfig.K c' <= 20 /\ 1 <= SimConfig.maxLinesPerOrder c' <= 20 /\
  1 <= SimConfig.minUnitsPerLine c' <= SimConfig.maxUnitsPerLine c' /\
  1 <= SimConfig.supplierLeadTimeMin c' <= 30 /\
  SimConfig.supplierLeadTimeMin c' <= SimConfig.supplierLeadTimeMax c' <= 60 /\
  SimConfig.seed c' = SimConfig.seed c /\
  ClampConfig c' = c'.
Proof.
  cbv zeta. pose proof (ClampConfig_ranges c) as Hr. cbv zeta in Hr.
  destruct Hr as (H1 & H2 & H3 & H4 & H5 & H6 & H7).
  repeat (split; [assumption|]). split; [reflexivity|apply ClampConfig_idem].
Qed.

Lemma ClampProduct_ranges (p : ProductConfig.t) :
  let p' := ClampProduct p in
  1 <= ProductConfig.unitsPerPackage p' <= 1000 /\
  0 <= ProductConfig.capacityPackages p' <= 5000 /\
  1 <= ProductConfig.shelfLifeDays p' <= 365 /\
  0 <= ProductConfig.discountBeforeDays p' <= ProductConfig.shelfLifeDays p' /\
  0 <= ProductConfig.reorderThreshold p' <= ProductConfig.capacityPackages p' /\
  0 <= ProductConfig.reorderAmount p' <= ProductConfig.capacityPackages p'.
Proof.
  cbv zeta.
  pose proof (clampZ_range (ProductConfig.unitsPerPackage p) 1 1000 ltac:(lia)) as Hu.
  pose proof (clampZ_range (ProductConfig.capacityPackages p) 0 5000 ltac:(lia)) as Hc.
  pose proof (clampZ_range (ProductConfig.shelfLifeDays p) 1 365 ltac:(lia)) as Hl.
  pose proof (clampZ_range (ProductConfig.discountBeforeDays p) 0
                (clampZ (ProductConfig.shelfLifeDays p) 1 365) ltac:(lia)) as Hd.
  pose proof (clampZ_range (ProductConfig.reorderThreshold p) 0
                (clampZ (ProductConfig.capacityPackages p) 0 5000) ltac:(lia)) as Ht.
  pose proof (clampZ_range (ProductConfig.reorderAmount p) 0
                (clampZ (ProductConfig.capacityPackages p) 0 5000) ltac:(lia)) as Ha.
  unfold ClampProduct. cbn [ProductConfig.name ProductConfig.unitName
    ProductConfig.unitsPerPackage ProductConfig.capacityPackages
    ProductConfig.shelfLifeDays ProductConfig.discountBeforeDays
    ProductConfig.basePricePerUnit ProductConfig.discountPercent
    ProductConfig.reorderThreshold ProductConfig.reorderAmount].
  repeat (apply conj; [lia|]). lia.
Qed.

Lemma ClampProduct_idem (p : ProductConfig.t) :
  ClampProduct (ClampProduct p) = ClampProduct p.
Proof.
  pose proof (ClampProduct_ranges p) as Hr. cbv zeta in Hr.
  revert Hr. unfold ClampProduct.
  cbn [ProductConfig.name ProductConfig.unitName
    ProductConfig.unitsPerPackage ProductConfig.capacityPackages
    ProductConfig.shelfLifeDays ProductConfig.discountBeforeDays
    ProductConfig.basePricePerUnit ProductConfig.discountPercent
    ProductConfig.reorderThreshold ProductConfig.reorderAmount].
  intros Hr.
  rewrite !(clampZ_fixed (clampZ _ _ _)) by lia.
  rewrite fclamp_idem, fmax_std_idem by (vm_compute; reflexivity).
  reflexivity.
Qed.

(** X2. [ClampProduct] puts every integer member into its documented range and
    is idempotent, so the defensive re-clamp before each day changes nothing
    on products that are already normalised. *)
Theorem ClampProduct_normalises (p : ProductConfig.t) :
  let p' := ClampProduct p in
  1 <= ProductConfig.unitsPerPackage p' <= 1000 /\
  0 <= ProductConfig.capacityPackages p' <= 5000 /\
  1 <= ProductConfig.shelfLifeDays p' <= 365 /\
  0 <= ProductConfig.discountBeforeDays p' <= ProductConfig.shelfLifeDays p' /\
  0 <= ProductConfig.reorderThreshold p' <= ProductConfig.capacityPackages p' /\
  0 <= ProductConfig.reorderAmount p' <= ProductConfig.capacityPackages p' /\
  ProductConfig.name p' = ProductConfig.name p /\
  ClampProduct p' = p'.
Proof.
  cbv zeta. pose proof (ClampProduct_ranges p) as Hr. cbv zeta in Hr.
  destruct Hr as (H1 & H2 & H3 & H4 & H5 & H6).
  repeat (split; [assumption|]). split; [reflexivity|apply ClampProduct_idem].
Qed.

Lemma SFcompare_antisym x y c :
  SFcompare x y = Some c -> SFcompare y x = Some (CompOpp c).
Proof.
  destruct x as [sx| sx | |sx mx ex], y as [sy|sy| |sy my ey];
    cbn [SFcompare]; intros E; try discriminate;
    injection E as <-; f_equal;
    repeat match goal with s : bool |- _ => destruct s end; try reflexivity.
  all: rewrite (Z.compare_antisym ex ey);
    destruct (ex ?= ey); cbn [CompOpp]; try reflexivity;
    rewrite (Pos.compare_cont_antisym mx my Eq); cbn [CompOpp];
    by rewrite ?CompOpp_involutive.
Qed.

Lemma SFcompare_nan_free x y :
  x <> S754_nan -> y <> S754_nan -> exists c, SFcompare x y = Some c.
Proof.
  destruct x, y; cbn [SFcompare]; intros; try congruence; eauto.
Qed.

Lemma SFltb_false_leb x y :
  x <> S754_nan -> y <> S754_nan -> SFltb x y = false -> SFleb y x = true.
Proof.
  intros Hx Hy. unfold SFltb, SFleb.
  destruct (SFcompare_nan_free x y Hx Hy) as [c Hc].
  rewrite Hc, (SFcompare_antisym _ _ _ Hc). by destruct c.
Qed.

Lemma SFleb_refl x : x <> S754_nan -> SFleb x x = true.
Proof.
  intros Hx. apply SFltb_false_leb; try done.
  unfold SFltb. destruct (SFcompare_nan_free x x Hx Hx) as [c Hc].
  pose proof (SFcompare_antisym _ _ _ Hc) as Hc'. rewrite Hc in Hc' |- *.
  by destruct c.
Qed.

(** [std::clamp] on floats: a NaN is returned unchanged, since both
    comparisons with it are false; any other value ends between the two
    bounds. *)
Lemma fclamp_range v lo hi :
  lo <> S754_nan -> hi <> S754_nan -> SFleb lo hi = true ->
  match v with
  | S754_nan => fclamp v lo hi = S754_nan
  | _ => SFleb lo (fclamp v lo hi) = true /\ SFleb (fclamp v lo hi) hi = true
  end.
Proof.
  intros Hlo Hhi Hle.
  assert (v = S754_nan \/ v <> S754_nan) as [->|Hv]
    by (destruct v; auto; right; discriminate).
  { unfold fclamp, SFltb. by destruct lo, hi. }
  assert (SFleb lo (fclamp v lo hi) = true /\ SFleb (fclamp v lo hi) hi = true).
  { unfold fclamp. destruct (SFltb v lo) eqn:E1.
    - split; [by apply SFleb_refl|done].
    - destruct (SFltb hi v) eqn:E2.
      + split; [done|by apply SFleb_refl].
      + split; by apply SFltb_false_leb. }
  by destruct v.
Qed.

(** X3. A configuration's order probability after [ClampConfig] lies in
    [0, 1], unless it was a NaN, which the clamp lets through. *)
Theorem ClampConfig_orderProbability (c : SimConfig.t) :
  let p := SimConfig.orderProbability (ClampConfig c) in
  match SimConfig.orderProbability c with
  | S754_nan => p = S754_nan
  | _ => SFleb f0 p = true /\ SFleb p f1 = true
  end.
Proof.
  cbv zeta. unfold ClampConfig. cbn [SimConfig.orderProbability].
  apply fclamp_range; [discriminate|discriminate|vm_compute; reflexivity].
Qed.

Section Coins.
Context {G : Type} `{RandomStream G}.

(** X26. The clamp inside [RandBernoulli] is the identity on every probability
    the engine passes to it: the order probability of a normalised
    configuration (a NaN included, which both clamps let through) and the
    constants 0.5 and 0.35 of the package quantisation; the coin is then
    one draw of the Bernoulli distribution with exactly that parameter. *)
Theorem RandBernoulli_unclamped (c : SimConfig.t) (rng : G) :
  RandBernoulli rng (SimConfig.orderProbability (ClampConfig c))
  = bernoulli rng (SimConfig.orderProbability (ClampConfig c)) /\
  RandBernoulli rng f0_5 = bernoulli rng f0_5 /\
  RandBernoulli rng f0_35 = bernoulli rng f0_35.
Proof.
  unfold RandBernoulli. split; [|split; reflexivity].
  f_equal. unfold ClampConfig. cbn [SimConfig.orderProbability].
  change (Clamp01 (fclamp (SimConfig.orderProbability c) f0 f1))
    with (fclamp (fclamp (SimConfig.orderProbability c) f0 f1) f0 f1).
  apply fclamp_idem; reflexivity.
Qed.

End Coins.

(** ** The event log *)

Lemma PushLog_length (log : list string) (s : string) :
  length (SimulatorImpl.PushLog log s) = Nat.min (S (length log)) 400.
Proof.
  unfold SimulatorImpl.PushLog. cbv zeta.
  destruct (Z.ltb_spec 400 (Z.of_nat (length (log ++ [s])))) as [Hlt|Hge];
    rewrite ?length_drop, ?length_app in *; cbn [length] in *; lia.
Qed.

(** X4. [PushLog] keeps the newest entries: the log never exceeds 400 lines,
    the pushed line is its last one, and what is kept is a suffix of the
    old log followed by the new line. *)
Theorem PushLog_bounded (log : list string) (s : string) :
  let log' := SimulatorImpl.PushLog log s in
  length log' = Nat.min (S (length log)) 400 /\
  last log' = Some s /\
  log' `suffix_of` log ++ [s].
Proof.
  cbv zeta. split; [apply PushLog_length|].
  unfold SimulatorImpl.PushLog. cbv zeta.
  destruct (Z.ltb_spec 400 (Z.of_nat (length (log ++ [s])))) as [Hlt|Hge].
  - split; [|apply suffix_drop].
    rewrite length_app in *. cbn [length] in *.
    replace (length log + 1 - 400)%nat with (length log - 399)%nat by lia.
    rewrite drop_app_le by lia. apply last_snoc.
  - split; [apply last_snoc|done].
Qed.

Section LogAPI.
Context {G : Type} `{RandomStream G}.

(** X5. [GetLog] returns the newest [max 1 maxLines] lines of the log, or the
    whole log when it is shorter; a non-positive [maxLines] still yields one
    line, and a null handle yields none. *)
Theorem GetLog_tail (s : SimulatorImpl.t G) (maxLines : Z) :
  GetLog (Some s) maxLines `suffix_of` SimulatorImpl.log s /\
  Z.of_nat (length (GetLog (Some s) maxLines)) =
    Z.min (Z.max 1 maxLines) (Z.of_nat (length (SimulatorImpl.log s))) /\
  GetLog (None : SimulatorHandle G) maxLines = [].
Proof.
  unfold GetLog. cbv zeta. split; [apply suffix_drop|]. split; [|done].
  rewrite length_drop.
  destruct (Z.ltb_spec (Z.max 1 maxLines) (Z.of_nat (length (SimulatorImpl.log s))));
    lia.
Qed.

End LogAPI.

(** ** Wrap-around arithmetic *)

Lemma is_int_small x : - 2147483648 <= x <= 2147483647 -> is_int x.
Proof. unfold is_int, INT_MIN, INT_MAX. change (2 ^ 31) with 2147483648. lia. Qed.

Lemma wrap32_small x : - 2147483648 <= x <= 2147483647 -> wrap32 x = x.
Proof. intros Hx. by apply wrap32_id, is_int_small. Qed.

Lemma wrap32_add_l a b : wrap32 (wrap32 a + b) = wrap32 (a + b).
Proof.
  unfold wrap32. f_equal.
  replace ((a + 2 ^ 31) mod 2 ^ 32 - 2 ^ 31 + b + 2 ^ 31)
    with ((a + 2 ^ 31) mod 2 ^ 32 + b) by lia.
  rewrite Zplus_mod_idemp_l. f_equal. lia.
Qed.

Lemma wrap32_add_r a b : wrap32 (a + wrap32 b) = wrap32 (a + b).
Proof. rewrite Z.add_comm, wrap32_add_l. f_equal. lia. Qed.

Lemma wrap32_add_m a b c : wrap32 (a + wrap32 b + c) = wrap32 (a + b + c).
Proof.
  replace (a + wrap32 b + c) with (wrap32 b + (a + c)) by lia.
  rewrite wrap32_add_l. f_equal. lia.
Qed.

Lemma wrap32_0 : wrap32 0 = 0.
Proof. reflexivity. Qed.

(** ** Stock as a sum *)

Section Stock.
Import Warehouse.

Lemma fold_packages dq a :
  fold_left (fun s b => add32 s (Batch.packages b)) dq (wrap32 a)
  = wrap32 (a + packages_of dq).
Proof.
  revert a. induction dq as [|b dq IH]; intros a; cbn [fold_left packages_of foldr].
  - f_equal. lia.
  - unfold add32 at 2. rewrite wrap32_add_l, IH. f_equal.
    fold (packages_of dq). lia.
Qed.

Lemma sum_packages_wrap dq : sum_packages dq = wrap32 (packages_of dq).
Proof.
  unfold sum_packages. rewrite <- wrap32_0 at 1. by rewrite fold_packages.
Qed.

Lemma packages_of_app dq dq' :
  packages_of (dq ++ dq') = packages_of dq + packages_of dq'.
Proof.
  induction dq as [|b dq IH]; cbn [app packages_of foldr]; [done|].
  fold (packages_of (dq ++ dq')). fold (packages_of dq). lia.
Qed.

Lemma packages_of_cons b dq :
  packages_of (b :: dq) = Batch.packages b + packages_of dq.
Proof. reflexivity. Qed.

Lemma packages_of_nonneg dq : positive_batches dq -> 0 <= packages_of dq.
Proof.
  induction 1 as [|b dq Hb _ IH]; [done|]. rewrite packages_of_cons. lia.
Qed.

Lemma sum_packages_exact dq :
  positive_batches dq -> packages_of dq <= 5000 ->
  sum_packages dq = packages_of dq.
Proof.
  intros Hpos Hle. pose proof (packages_of_nonneg dq Hpos).
  rewrite sum_packages_wrap. apply wrap32_small. lia.
Qed.

Lemma queue_positive wh pid :
  Forall positive_batches wh -> positive_batches (queue wh pid).
Proof.
  intros Hall. unfold queue. destruct (valid_pid wh pid) eqn:Hv; [|constructor].
  apply valid_pid_lt in Hv. rewrite list_lookup_total_alt.
  destruct (lookup_lt_is_Some_2 wh _ Hv) as [dq Hdq]. rewrite Hdq.
  by eapply Forall_lookup_1.
Qed.

Lemma TotalPackages_wrap wh pid :
  TotalPackages wh pid = wrap32 (packages_of (queue wh pid)).
Proof.
  unfold TotalPackages. destruct (valid_pid wh pid) eqn:Hv; cbn [negb].
  - apply sum_packages_wrap.
  - by rewrite queue_invalid.
Qed.

Lemma TotalPackages_exact wh pid :
  Forall positive_batches wh -> packages_of (queue wh pid) <= 5000 ->
  TotalPackages wh pid = packages_of (queue wh pid) /\
  0 <= packages_of (queue wh pid).
Proof.
  intros Hall Hle. pose proof (packages_of_nonneg _ (queue_positive wh pid Hall)).
  split; [|done]. rewrite TotalPackages_wrap. apply wrap32_small. lia.
Qed.

Lemma set_queue_positive wh pid dq :
  Forall positive_batches wh -> positive_batches dq ->
  Forall positive_batches (set_queue wh pid dq).
Proof.
  intros Hall Hdq. unfold set_queue. destruct (valid_pid wh pid); [|done].
  by apply Forall_insert.
Qed.

Lemma set_queue_length wh pid dq : length (set_queue wh pid dq) = length wh.
Proof. unfold set_queue. destruct (valid_pid wh pid); by rewrite ?length_insert. Qed.

Lemma set_queue_same wh pid : set_queue wh pid (queue wh pid) = wh.
Proof.
  unfold set_queue, queue. destruct (valid_pid wh pid) eqn:Hv; [|done].
  apply valid_pid_lt in Hv. apply list_insert_id.
  rewrite list_lookup_total_alt.
  destruct (lookup_lt_is_Some_2 wh _ Hv) as [dq Hdq]. by rewrite Hdq.
Qed.

Lemma queue_set_queue_cases wh pid dq q :
  queue (set_queue wh pid dq) q
  = if valid_pid wh pid && (q =? pid) then dq else queue wh q.
Proof.
  destruct (Z.eqb_spec q pid) as [->|Hne].
  - destruct (valid_pid wh pid) eqn:Hv; cbn [andb].
    + by apply queue_set_queue.
    + unfold set_queue. by rewrite Hv.
  - rewrite andb_false_r. by apply queue_set_queue_ne.
Qed.

(** ** Ageing *)

Lemma queue_DecrementShelfLife wh pid :
  queue (DecrementShelfLife wh) pid = map age_batch (queue wh pid).
Proof.
  unfold queue, DecrementShelfLife.
  assert (Hv : valid_pid (map (map age_batch) wh) pid = valid_pid wh pid)
    by (unfold valid_pid; by rewrite length_map).
  rewrite Hv. destruct (valid_pid wh pid) eqn:Hp; [|done].
  apply valid_pid_lt in Hp.
  change (map (map age_batch) wh) with (map age_batch <$> wh).
  rewrite !list_lookup_total_alt, list_lookup_fmap.
  by destruct (wh !! Z.to_nat pid).
Qed.

Lemma packages_of_age dq : packages_of (map age_batch dq) = packages_of dq.
Proof.
  induction dq as [|b dq IH]; [done|]. cbn [map]. rewrite !packages_of_cons, IH.
  reflexivity.
Qed.

(** X6. Ageing the warehouse changes no package count and no discount flag:
    every product's stock and its discounted-stock indicator are the same
    before and after [DecrementShelfLife], and every batch is one day
    closer to expiry. *)
Theorem DecrementShelfLife_keeps_stock (wh : Warehouse.t) (pid : Z) :
  TotalPackages (DecrementShelfLife wh) pid = TotalPackages wh pid /\
  HasDiscountStock (DecrementShelfLife wh) pid = HasDiscountStock wh pid /\
  map Batch.daysLeft (queue (DecrementShelfLife wh) pid)
  = map (fun b => sub32 (Batch.daysLeft b) 1) (queue wh pid).
Proof.
  split; [|split].
  - by rewrite !TotalPackages_wrap, queue_DecrementShelfLife, packages_of_age.
  - unfold HasDiscountStock.
    assert (Hv : valid_pid (DecrementShelfLife wh) pid = valid_pid wh pid)
      by (unfold valid_pid, DecrementShelfLife; by rewrite length_map).
    rewrite Hv. destruct (negb (valid_pid wh pid)); [done|].
    rewrite queue_DecrementShelfLife.
    induction (queue wh pid) as [|b dq IH]; [done|].
    cbn [map existsb]. by rewrite IH.
  - rewrite queue_DecrementShelfLife.
    induction (queue wh pid) as [|b dq IH]; [done|]. cbn [map]. by rewrite IH.
Qed.

(** ** Expiry write-off *)

Lemma pop_expired_sum dq a :
  let r := pop_expired dq (wrap32 a) in
  exists removed,
    dq = removed ++ r.2 /\ r.1 = wrap32 (a + packages_of removed) /\
    forall acc, pop_expired r.2 acc = (acc, r.2).
Proof.
  revert a. induction dq as [|b dq IH]; intros a; cbn [pop_expired].
  - exists []. cbn [fst snd packages_of foldr app]. repeat split. f_equal. lia.
  - destruct (Batch.daysLeft b <=? 0) eqn:Hb.
    + unfold add32. rewrite wrap32_add_l.
      destruct (IH (a + Batch.packages b)) as (removed & Heq & Hn & Hfix).
      exists (b :: removed). split; [cbn [app]; by rewrite <- Heq|].
      split; [|exact Hfix]. rewrite Hn, packages_of_cons. f_equal. lia.
    + exists []. cbn [fst snd packages_of foldr app]. split; [done|].
      split; [f_equal; lia|]. intros acc. cbn [pop_expired]. by rewrite Hb.
Qed.

(** X7. The expiry write-off is an exact ledger move: the stock before is the
    packages written off plus the stock after (in [int] arithmetic), no
    other product is touched, and a second write-off straight after the
    first removes nothing, returns 0 and books nothing. *)
Theorem WriteOffExpired_accounting (wh : Warehouse.t) (pid : Z)
    (pc : ProductConfig.t) (st : DayStats.t) :
  let '(n, wh', st') := WriteOffExpired wh pid pc st in
  TotalPackages wh pid = add32 n (TotalPackages wh' pid) /\
  (forall q, q = pid \/ queue wh' q = queue wh q) /\
  WriteOffExpired wh' pid pc st' = (0, wh', st').
Proof.
  unfold WriteOffExpired. destruct (valid_pid wh pid) eqn:Hv; cbn [negb].
  - pose proof (pop_expired_sum (queue wh pid) 0) as Hsum. cbv zeta in Hsum.
    rewrite wrap32_0 in Hsum.
    destruct (pop_expired (queue wh pid) 0) as [n dq] eqn:E.
    cbn [fst snd] in Hsum. destruct Hsum as (removed & Heq & Hn & Hfix).
    split; [|split].
    + rewrite !TotalPackages_wrap, queue_set_queue by exact Hv.
      rewrite Heq, packages_of_app, Hn. unfold add32.
      rewrite wrap32_add_l, wrap32_add_r. f_equal.
    + intros q. destruct (Z.eq_dec q pid) as [?|Hq]; [by left|right].
      by apply queue_set_queue_ne.
    + rewrite valid_pid_set_queue, Hv. cbn [negb].
      rewrite queue_set_queue by exact Hv. rewrite Hfix.
      by rewrite set_queue_twice.
  - rewrite Hv. cbn [negb]. split; [|split; [by right|done]].
    rewrite !TotalPackages_invalid by exact Hv. reflexivity.
Qed.

End Stock.

Section Discounts.
Import Warehouse.

(** ** The discount pass, continued *)

Lemma packages_of_map dq dq' :
  map Batch.packages dq = map Batch.packages dq' -> packages_of dq = packages_of dq'.
Proof.
  revert dq'. induction dq as [|b dq IH]; intros [|b' dq']; cbn [map]; try done.
  intros E. injection E as Eb Erest. rewrite !packages_of_cons, Eb.
  f_equal. by apply IH.
Qed.

Lemma positive_batches_map dq dq' :
  map Batch.packages dq = map Batch.packages dq' ->
  positive_batches dq -> positive_batches dq'.
Proof.
  revert dq'. induction dq as [|b dq IH]; intros [|b' dq']; cbn [map]; try done.
  intros E. injection E as Eb Erest. intros Hpos.
  inversion Hpos as [|? ? Hb Hrest]; subst.
  constructor; [lia|by apply IH].
Qed.

Lemma discount_due_fresh pc b :
  discount_due pc b = true -> Batch.discounted b = false.
Proof. unfold discount_due. by destruct (Batch.discounted b). Qed.

Lemma discount_batches_sum pc dq a :
  let r := discount_batches pc dq (wrap32 a) in
  r.1 = wrap32 (a + packages_of (List.filter (discount_due pc) dq)) /\
  map Batch.packages r.2 = map Batch.packages dq /\
  map Batch.daysLeft r.2 = map Batch.daysLeft dq /\
  existsb (fun b => (0 <? Batch.packages b) && Batch.discounted b) r.2
  = existsb (fun b => (0 <? Batch.packages b) && Batch.discounted b) dq
    || existsb (fun b => (0 <? Batch.packages b) && discount_due pc b) dq.
Proof.
  revert a. induction dq as [|b dq IH]; intros a; cbn [discount_batches List.filter].
  - cbn [fst snd packages_of foldr map]. repeat split. f_equal. lia.
  - destruct (discount_due pc b) eqn:Hdue.
    + unfold add32. rewrite wrap32_add_l.
      destruct (IH (a + Batch.packages b)) as (Hn & Hp & Hd & He).
      destruct (discount_batches pc dq (wrap32 (a + Batch.packages b)))
        as [n dq'] eqn:E.
      cbn [fst snd] in *. split; [|split; [|split]].
      * rewrite Hn, packages_of_cons. f_equal. lia.
      * cbn [map Batch.packages]. by rewrite Hp.
      * cbn [map Batch.daysLeft]. by rewrite Hd.
      * cbn [existsb Batch.packages Batch.discounted].
        rewrite He, Hdue, (discount_due_fresh _ _ Hdue).
        destruct (0 <? Batch.packages b), (existsb _ dq), (existsb _ dq);
          reflexivity.
    + destruct (IH a) as (Hn & Hp & Hd & He).
      destruct (discount_batches pc dq (wrap32 a)) as [n dq'] eqn:E.
      cbn [fst snd] in *. split; [exact Hn|]. split; [|split].
      * cbn [map]. by rewrite Hp.
      * cbn [map]. by rewrite Hd.
      * cbn [existsb]. rewrite He, Hdue, andb_false_r. cbn [orb].
        by rewrite orb_assoc.
Qed.

(** X8. The discount pass moves no stock: the count it returns is the total
    packages of the batches that were due (not yet discounted, not expired,
    within the discount window), every product keeps its package counts and
    days left batch by batch, and afterwards a product has discounted stock
    exactly when it had some before or one of its non-empty batches was
    due. *)
Theorem ApplyDiscountIfNeeded_accounting (wh : Warehouse.t) (pid : Z)
    (pc : ProductConfig.t) :
  let '(n, wh') := ApplyDiscountIfNeeded wh pid pc in
  n = sum_packages (List.filter (discount_due pc) (queue wh pid)) /\
  (forall q, map Batch.packages (queue wh' q) = map Batch.packages (queue wh q) /\
             map Batch.daysLeft (queue wh' q) = map Batch.daysLeft (queue wh q)) /\
  (forall q, TotalPackages wh' q = TotalPackages wh q) /\
  (forall q, HasDiscountStock wh' q
             = HasDiscountStock wh q
               || ((q =? pid) &&
                   existsb (fun b => (0 <? Batch.packages b) && discount_due pc b)
                           (queue wh q))).
Proof.
  unfold ApplyDiscountIfNeeded. destruct (valid_pid wh pid) eqn:Hv; cbn [negb].
  - pose proof (discount_batches_sum pc (queue wh pid) 0) as Hsum.
    cbv zeta in Hsum. rewrite wrap32_0 in Hsum.
    destruct (discount_batches pc (queue wh pid) 0) as [n dq] eqn:E.
    cbn [fst snd] in Hsum. destruct Hsum as (Hn & Hp & Hd & He).
    assert (Hq : forall q,
      map Batch.packages (queue (set_queue wh pid dq) q) = map Batch.packages (queue wh q) /\
      map Batch.daysLeft (queue (set_queue wh pid dq) q) = map Batch.daysLeft (queue wh q)).
    { intros q. rewrite queue_set_queue_cases, Hv. cbn [andb].
      destruct (Z.eqb_spec q pid) as [->|_]; [by split|by split]. }
    split; [by rewrite sum_packages_wrap|]. split; [exact Hq|]. split.
    + intros q. rewrite !TotalPackages_wrap. f_equal.
      apply packages_of_map, Hq.
    + intros q. unfold HasDiscountStock. rewrite valid_pid_set_queue.
      rewrite queue_set_queue_cases, Hv. cbn [andb].
      destruct (Z.eqb_spec q pid) as [->|_]; cbn [andb].
      * rewrite Hv. cbn [negb]. exact He.
      * by rewrite orb_false_r.
  - rewrite queue_invalid by exact Hv. split; [done|]. split; [done|].
    split; [done|]. intros q.
    destruct (Z.eqb_spec q pid) as [->|_]; cbn [andb];
      [rewrite queue_invalid by exact Hv; cbn [existsb]|]; by rewrite orb_false_r.
Qed.

(** ** Repricing *)

Lemma queue_RepriceBatches wh pid pc q :
  queue (RepriceBatches wh pid pc) q
  = if q =? pid then map (reprice pc) (queue wh q) else queue wh q.
Proof.
  unfold RepriceBatches. destruct (valid_pid wh pid) eqn:Hv; cbn [negb].
  - rewrite queue_set_queue_cases, Hv. cbn [andb].
    by destruct (Z.eqb_spec q pid) as [->|_].
  - destruct (Z.eqb_spec q pid) as [->|_]; [|done].
    by rewrite queue_invalid.
Qed.

Lemma RepriceBatches_length wh pid pc : length (RepriceBatches wh pid pc) = length wh.
Proof.
  unfold RepriceBatches. destruct (negb _); [done|apply set_queue_length].
Qed.

Lemma reprice_fold (f : Z -> ProductConfig.t) (n : nat) wh :
  let wh' := fold_left (fun w pid => RepriceBatches w pid (f pid))
                       (seqZ 0 (Z.of_nat n)) wh in
  length wh' = length wh /\
  forall q, queue wh' q
            = if (0 <=? q) && (q <? Z.of_nat n)
              then map (reprice (f q)) (queue wh q) else queue wh q.
Proof.
  induction n as [|n IH]; cbv zeta.
  - change (seqZ 0 (Z.of_nat 0)) with (@nil Z). cbn [fold_left].
    split; [done|]. intros q.
    destruct (Z.leb_spec 0 q); cbn [andb]; [|done].
    change (Z.of_nat 0) with 0. by destruct (Z.ltb_spec q 0); [lia|].
  - rewrite Nat2Z.inj_succ, <- Z.add_1_r, seqZ_app by lia.
    rewrite fold_left_app.
    change (seqZ (0 + Z.of_nat n) 1) with [Z.of_nat n]. cbn [fold_left].
    cbv zeta in IH. destruct IH as [Hlen Hq].
    set (w := fold_left _ (seqZ 0 (Z.of_nat n)) wh) in *.
    split; [by rewrite RepriceBatches_length|].
    intros q. rewrite queue_RepriceBatches, Hq.
    destruct (Z.eqb_spec q (Z.of_nat n)) as [->|Hne].
    + destruct (Z.leb_spec 0 (Z.of_nat n)); [|lia].
      destruct (Z.ltb_spec (Z.of_nat n) (Z.of_nat n)); [lia|].
      destruct (Z.ltb_spec (Z.of_nat n) (Z.of_nat n + 1)); [|lia]. done.
    + destruct (0 <=? q); cbn [andb]; [|done].
      destruct (Z.ltb_spec q (Z.of_nat n)), (Z.ltb_spec q (Z.of_nat n + 1));
        try lia; done.
Qed.

Lemma packages_of_reprice pc dq : packages_of (map (reprice pc) dq) = packages_of dq.
Proof.
  apply packages_of_map. rewrite map_map. by apply map_ext.
Qed.

Lemma existsb_reprice pc dq :
  existsb (fun b => (0 <? Batch.packages b) && Batch.discounted b) (map (reprice pc) dq)
  = existsb (fun b => (0 <? Batch.packages b) && Batch.discounted b) dq.
Proof. induction dq as [|b dq IH]; [done|]. cbn [map existsb]. by rewrite IH. Qed.

(** X9. [ClampAllProducts] normalises every product and leaves each batch of a
    product of the catalogue with the price its normalised product
    prescribes: the discounted price if the batch is discounted, the base
    price otherwise.  Package counts, days left and discount flags are
    untouched, and so is every queue beyond the catalogue. *)
Theorem ClampAllProducts_prices (products : list ProductConfig.t)
    (wh : Warehouse.t) (q : Z) :
  let r := SimulatorImpl.ClampAllProducts products wh in
  let pc := product_at r.1 q in
  let listed := (0 <=? q) && (q <? Z.of_nat (length products)) in
  r.1 = map ClampProduct products /\
  length r.2 = length wh /\
  queue r.2 q = (if listed then map (reprice pc) (queue wh q) else queue wh q) /\
  Forall (fun b => Batch.unitPrice b
                   = if Batch.discounted b then discounted_price pc
                     else ProductConfig.basePricePerUnit pc)
         (if listed then queue r.2 q else []) /\
  map Batch.packages (queue r.2 q) = map Batch.packages (queue wh q) /\
  map Batch.daysLeft (queue r.2 q) = map Batch.daysLeft (queue wh q) /\
  map Batch.discounted (queue r.2 q) = map Batch.discounted (queue wh q).
Proof.
  cbv zeta. unfold SimulatorImpl.ClampAllProducts. cbn [fst snd].
  pose proof (reprice_fold (product_at (map ClampProduct products))
                (length products) wh) as [Hlen Hq].
  split; [done|]. split; [exact Hlen|].
  rewrite (Hq q). split; [done|].
  destruct ((0 <=? q) && (q <? Z.of_nat (length products))).
  - split.
    + apply Forall_fmap, Forall_forall. intros b _. reflexivity.
    + rewrite !map_map. repeat split; by apply map_ext.
  - by repeat split.
Qed.

End Discounts.

Section Fulfilment.
Import Warehouse.

(** ** Fulfilment *)

Lemma drain_nothing pc remaining dq st :
  remaining <= 0 -> drain pc remaining dq st = (dq, st).
Proof.
  intros Hr. destruct dq as [|b dq]; cbn [drain]; [done|].
  by destruct (Z.ltb_spec 0 remaining); [lia|].
Qed.

Lemma book_sale_units pc b take st :
  DayStats.totalSoldUnits (book_sale pc b take st)
  = add32 (DayStats.totalSoldUnits st) (mul32 take (ProductConfig.unitsPerPackage pc)) /\
  DayStats.writeOffLoss (book_sale pc b take st) = DayStats.writeOffLoss st /\
  DayStats.totalWriteOffUnits (book_sale pc b take st) = DayStats.totalWriteOffUnits st.
Proof. done. Qed.

(** The drain loop on a queue of non-empty batches that holds at least
    [give] packages takes exactly [give] packages off the front. *)
Lemma drain_conserves pc dq :
  forall give st,
    positive_batches dq -> packages_of dq <= 2147483647 ->
    0 < give <= packages_of dq ->
    let r := drain pc give dq st in
    positive_batches r.1 /\ packages_of r.1 = packages_of dq - give /\
    DayStats.totalSoldUnits r.2
    = add32 (DayStats.totalSoldUnits st)
            (mul32 give (ProductConfig.unitsPerPackage pc)) /\
    DayStats.writeOffLoss r.2 = DayStats.writeOffLoss st /\
    DayStats.totalWriteOffUnits r.2 = DayStats.totalWriteOffUnits st.
Proof.
  induction dq as [|b dq IH]; intros give st Hpos Hmax Hgive.
  - cbn [packages_of foldr] in Hgive. lia.
  - inversion Hpos as [|? ? Hb Hrest]; subst.
    pose proof (packages_of_nonneg dq Hrest) as Hnn.
    rewrite packages_of_cons in *. cbn [drain].
    destruct (Z.ltb_spec 0 give); [|lia].
    destruct (book_sale_units pc b (Z.min give (Batch.packages b)) st)
      as (Hsold & Hwl & Hwu).
    set (st1 := book_sale pc b (Z.min give (Batch.packages b)) st) in *.
    clearbody st1.
    destruct (Z_lt_le_dec give (Batch.packages b)) as [Hlt|Hge].
    + rewrite Z.min_l in * by lia.
      unfold sub32. rewrite wrap32_small by lia.
      destruct (Z.eqb_spec (Batch.packages b - give) 0); [lia|].
      cbn [fst snd]. split; [|split; [|done]].
      * constructor; [cbn [Batch.packages]; lia|done].
      * rewrite packages_of_cons. cbn [Batch.packages]. lia.
    + rewrite Z.min_r in * by lia. rewrite sub32_diag.
      cbn [Z.eqb]. unfold sub32. rewrite wrap32_small by lia.
      destruct (Z.eq_dec give (Batch.packages b)) as [E|Hne].
      * rewrite drain_nothing by lia. cbn [fst snd].
        split; [done|]. split; [lia|]. by rewrite E.
      * destruct (IH (give - Batch.packages b) st1 Hrest ltac:(lia) ltac:(lia))
          as (Hp & Hs & Hu & Hl & Hw).
        split; [exact Hp|]. split; [lia|]. split; [|split; congruence].
        rewrite Hu, Hsold. unfold add32, mul32.
        repeat (rewrite wrap32_add_l || rewrite wrap32_add_r || rewrite wrap32_add_m).
        f_equal. ring.
Qed.

(** What one fulfilled line adds to the units sold. *)
Lemma FulfillLine_sold {G} `{RandomStream G} (wh : Warehouse.t)
    (line : OrderLine.t) (pc : ProductConfig.t) (rng : G) (st : DayStats.t) :
  0 < OrderLine.requestedUnits line ->
  0 < ProductConfig.unitsPerPackage pc ->
  positive_batches (queue wh (OrderLine.productId line)) ->
  packages_of (queue wh (OrderLine.productId line)) <= 5000 ->
  let r := FulfillLine wh line pc rng st in
  DayStats.totalSoldUnits r.2
  = (if 0 <? OrderLine.deliveredPackages r.1.1.2
     then add32 (DayStats.totalSoldUnits st) (OrderLine.deliveredUnits r.1.1.2)
     else DayStats.totalSoldUnits st).
Proof.
  intros Hreq Hupp Hpos Hmax. pose proof (packages_of_nonneg _ Hpos) as Hnn.
  cbv zeta. unfold FulfillLine.
  destruct (Z.leb_spec (OrderLine.requestedUnits line) 0); [lia|].
  destruct (Z.leb_spec (ProductConfig.unitsPerPackage pc) 0); [lia|].
  destruct (choose_packages rng _ _) as [chosen rng'].
  rewrite TotalPackages_wrap, wrap32_small by lia.
  set (give := Z.min chosen (packages_of (queue wh (OrderLine.productId line)))).
  assert (Hgle : give <= packages_of (queue wh (OrderLine.productId line)))
    by (unfold give; lia).
  clearbody give.
  destruct (Z.ltb_spec 0 give) as [Hyes|Hno].
  - pose proof (drain_conserves pc _ give st Hpos ltac:(lia) ltac:(lia)) as Hd.
    cbv zeta in Hd. destruct (drain pc give _ st) as [dq st'].
    cbn [fst snd OrderLine.deliveredPackages OrderLine.deliveredUnits] in *.
    destruct (Z.ltb_spec 0 give); [|lia]. apply Hd.
  - rewrite drain_nothing by exact Hno.
    cbn [fst snd OrderLine.deliveredPackages]. by destruct (Z.ltb_spec 0 give); [lia|].
Qed.

(** X10. [FulfillLine] on an acting line (positive request, positive package
    size) over a queue of non-empty batches: the packages delivered are the
    packages chosen capped by the stock, the stock of the product drops by
    exactly the packages delivered (by nothing when that number is not
    positive), no batch is left empty, no other product is touched, the
    units sold grow by the units delivered, and the write-off figures are
    not touched. *)
Theorem FulfillLine_conservation {G} `{RandomStream G} (wh : Warehouse.t)
    (line : OrderLine.t) (pc : ProductConfig.t) (rng : G) (st : DayStats.t) :
  0 < OrderLine.requestedUnits line ->
  0 < ProductConfig.unitsPerPackage pc ->
  positive_batches (queue wh (OrderLine.productId line)) ->
  packages_of (queue wh (OrderLine.productId line)) <= INT_MAX ->
  let '(wh', line', rng', st') := FulfillLine wh line pc rng st in
  let pid := OrderLine.productId line in
  let given := Z.max 0 (OrderLine.deliveredPackages line') in
  OrderLine.deliveredPackages line'
  = Z.min (OrderLine.chosenPackages line') (TotalPackages wh pid) /\
  TotalPackages wh' pid = TotalPackages wh pid - given /\
  positive_batches (queue wh' pid) /\
  (forall q, q <> pid -> queue wh' q = queue wh q) /\
  DayStats.totalSoldUnits st'
  = (if 0 <? given
     then add32 (DayStats.totalSoldUnits st) (OrderLine.deliveredUnits line')
     else DayStats.totalSoldUnits st) /\
  DayStats.writeOffLoss st' = DayStats.writeOffLoss st /\
  DayStats.totalWriteOffUnits st' = DayStats.totalWriteOffUnits st.
Proof.
  intros Hreq Hupp Hpos Hmax. unfold INT_MAX in Hmax.
  change (2 ^ 31 - 1) with 2147483647 in Hmax.
  pose proof (packages_of_nonneg _ Hpos) as Hnn.
  unfold FulfillLine.
  destruct (Z.leb_spec (OrderLine.requestedUnits line) 0); [lia|].
  destruct (Z.leb_spec (ProductConfig.unitsPerPackage pc) 0); [lia|].
  destruct (choose_packages rng _ _) as [chosen rng'].
  set (pid := OrderLine.productId line) in *.
  assert (Htot : TotalPackages wh pid = packages_of (queue wh pid))
    by (rewrite TotalPackages_wrap; apply wrap32_small; lia).
  rewrite Htot.
  set (give := Z.min chosen (packages_of (queue wh pid))).
  assert (Hgle : give <= packages_of (queue wh pid)) by (unfold give; lia).
  destruct (Z_le_gt_dec give 0) as [Hno|Hyes].
  - rewrite drain_nothing by exact Hno. rewrite set_queue_same.
    cbn [OrderLine.deliveredPackages OrderLine.chosenPackages].
    rewrite Htot. rewrite Z.max_l by lia.
    destruct (Z.ltb_spec 0 0); [lia|].
    split; [done|]. split; [by rewrite Z.sub_0_r|]. split; [exact Hpos|].
    repeat split.
  - assert (Hv : valid_pid wh pid = true).
    { destruct (valid_pid wh pid) eqn:Hv; [done|].
      rewrite (queue_invalid _ _ Hv) in Hgle. cbn [packages_of foldr] in Hgle. lia. }
    pose proof (drain_conserves pc (queue wh pid) give st Hpos Hmax ltac:(lia))
      as Hd. cbv zeta in Hd.
    destruct (drain pc give (queue wh pid) st) as [dq st'].
    cbn [fst snd] in Hd. destruct Hd as (Hp & Hs & Hu & Hl & Hw).
    cbn [OrderLine.deliveredPackages OrderLine.chosenPackages
         OrderLine.deliveredUnits].
    rewrite Z.max_r by lia.
    destruct (Z.ltb_spec 0 give); [|lia].
    rewrite TotalPackages_wrap, queue_set_queue by exact Hv.
    split; [done|]. split; [rewrite Hs; apply wrap32_small; lia|].
    split; [exact Hp|]. split; [intros q Hq; by apply queue_set_queue_ne|].
    repeat split; assumption.
Qed.

Lemma FulfillLine_conservation_witness :
  let '(wh', line', rng', st') :=
    FulfillLine (G := Z) [[Batch.mk 4 14 false f1]] (demo_line 10)
                ProductConfig.default 1 DayStats.zero in
  TotalPackages wh' 0
  = TotalPackages [[Batch.mk 4 14 false f1]] 0
    - Z.max 0 (OrderLine.deliveredPackages line').
Proof.
  pose proof (FulfillLine_conservation (G := Z) [[Batch.mk 4 14 false f1]]
                (demo_line 10) ProductConfig.default 1 DayStats.zero) as Hc.
  destruct (FulfillLine (G := Z) [[Batch.mk 4 14 false f1]] (demo_line 10)
              ProductConfig.default 1 DayStats.zero) as [[[wh' line'] rng'] st'].
  destruct Hc as (_ & Hstock & _);
    [reflexivity | reflexivity | by repeat constructor | vm_compute; discriminate |].
  exact Hstock.
Defined.

End Fulfilment.

(** ** Choosing the products of an order *)

Section Picking.
Context {G : Type} `{RandomStream G}.

Lemma pick_index (v : Z) (n : nat) :
  (0 < n)%nat -> (Z.to_nat (clampZ v 0 (sub32 (Z.of_nat n) 1)) < n)%nat.
Proof.
  intros Hn.
  assert (Hhi : sub32 (Z.of_nat n) 1 < Z.of_nat n).
  { destruct (Z_le_gt_dec (Z.of_nat n) 2147483648) as [Hs|Hb].
    - unfold sub32. rewrite wrap32_small by lia. lia.
    - pose proof (wrap32_range (Z.of_nat n - 1)) as Hr.
      unfold is_int, INT_MIN, INT_MAX in Hr. change (2 ^ 31) with 2147483648 in Hr.
      unfold sub32. lia. }
  unfold clampZ. destruct (Z.ltb_spec v 0); [lia|].
  destruct (Z.ltb_spec (sub32 (Z.of_nat n) 1) v); lia.
Qed.

Lemma pick_loop_distinct cfg products wh (count : nat) :
  forall (rng : G) (remaining chosen : list Z),
    NoDup (chosen ++ remaining) ->
    let r := (SimulatorImpl.pick_loop cfg products wh count rng remaining chosen).1 in
    NoDup r /\ (forall x, x ∈ r -> x ∈ chosen ++ remaining) /\
    (length r <= length chosen + count)%nat.
Proof.
  induction count as [|count IH]; intros rng remaining chosen Hnd;
    cbn [SimulatorImpl.pick_loop].
  - cbn [fst]. split; [by apply NoDup_app in Hnd as (? & _ & _)|].
    split; [intros x Hx; apply elem_of_app; by left|lia].
  - destruct (SFleb _ _) eqn:Hsum.
    + cbn [fst]. split; [by apply NoDup_app in Hnd as (? & _ & _)|].
      split; [intros x Hx; apply elem_of_app; by left|lia].
    + destruct remaining as [|x0 rest]; [by vm_compute in Hsum|].
      destruct (RandFloat rng f0 _) as [r rng'].
      set (remaining := x0 :: rest) in *.
      set (idx := clampZ _ 0 _).
      assert (Hidx : (Z.to_nat idx < length remaining)%nat)
        by (apply pick_index; cbn [remaining length]; lia).
      destruct (lookup_lt_is_Some_2 remaining _ Hidx) as [x Hx].
      rewrite Hx. change (default 0 (Some x)) with x.
      assert (Hperm : (chosen ++ [x]) ++ delete (Z.to_nat idx) remaining
                      ≡ₚ chosen ++ remaining).
      { rewrite <- (assoc_L (++)). apply Permutation_app_head.
        cbn [app]. symmetry. by apply delete_Permutation. }
      destruct (IH rng' (delete (Z.to_nat idx) remaining) (chosen ++ [x]))
        as (Hn & Hsub & Hlen); [by rewrite Hperm|].
      split; [exact Hn|]. split.
      * intros y Hy. rewrite <- Hperm. by apply Hsub.
      * rewrite length_app in Hlen. cbn [length] in Hlen. lia.
Qed.

(** X11. Whatever the generator draws, for a count that is not negative, in a
    catalogue whose size is not negative, the products picked for an order
    are pairwise distinct, are products of the catalogue, and are at most
    [min(count, K)] many.  (Below zero the source has no result:
    [remaining(cfg.K)] and [chosen.reserve(count)] throw.) *)
Theorem PickDistinctProductsWeighted_distinct (cfg : SimConfig.t)
    (products : list ProductConfig.t) (wh : Warehouse.t) (rng : G) (count : Z) :
  0 <= count ->
  0 <= SimConfig.K cfg ->
  let picked :=
    (SimulatorImpl.PickDistinctProductsWeighted cfg products wh rng count).1 in
  NoDup picked /\
  Forall (fun pid => 0 <= pid < SimConfig.K cfg) picked /\
  Z.of_nat (length picked) <= Z.min count (SimConfig.K cfg).
Proof.
  intros Hcount HK. cbv zeta. unfold SimulatorImpl.PickDistinctProductsWeighted.
  destruct (pick_loop_distinct cfg products wh
              (Z.to_nat (Z.min count (SimConfig.K cfg))) rng
              (seqZ 0 (SimConfig.K cfg)) [])
    as (Hn & Hsub & Hlen); [apply NoDup_seqZ|].
  split; [exact Hn|]. split.
  - apply Forall_forall. intros x Hx. apply Hsub in Hx.
    cbn [app] in Hx. apply elem_of_seqZ in Hx. lia.
  - cbn [length] in Hlen. lia.
Qed.

End Picking.

Lemma PickDistinctProductsWeighted_distinct_witness :
  let picked :=
    (SimulatorImpl.PickDistinctProductsWeighted (G := Z)
       (SimulatorImpl.cfg demo_sim) (SimulatorImpl.products demo_sim)
       (SimulatorImpl.wh demo_sim) (SimulatorImpl.rng demo_sim) 3).1 in
  NoDup picked /\
  Forall (fun pid => 0 <= pid < SimConfig.K (SimulatorImpl.cfg demo_sim)) picked /\
  Z.of_nat (length picked) <= Z.min 3 (SimConfig.K (SimulatorImpl.cfg demo_sim)).
Proof.
  apply (@PickDistinctProductsWeighted_distinct Z lcg_stream
           (SimulatorImpl.cfg demo_sim) (SimulatorImpl.products demo_sim)
           (SimulatorImpl.wh demo_sim) (SimulatorImpl.rng demo_sim) 3).
  - lia.
  - vm_compute. discriminate.
Defined.

(** ** The phases of a day *)

Section Phases.
Context {G : Type} `{RandomStream G}.

(** [AdvanceDay] on a day it simulates, phase by phase. *)
Lemma AdvanceDay_phases (s : SimulatorImpl.t G) :
  SimulatorImpl.day s < SimConfig.N (SimulatorImpl.cfg s) ->
  let cfg := SimulatorImpl.cfg s in
  let K := SimConfig.K cfg in
  let products := map ClampProduct (SimulatorImpl.products s) in
  let wh0 := (SimulatorImpl.ClampAllProducts (SimulatorImpl.products s)
                (SimulatorImpl.wh s)).2 in
  let day := add32 (SimulatorImpl.day s) 1 in
  let ticked := map SimulatorImpl.tick_delivery (SimulatorImpl.pipeline s) in
  let due := filter (fun d => SimulatorImpl.arrived d = true) ticked in
  let arrivals :=
    map (fun d => (SupplierDelivery.productId d, SupplierDelivery.packages d)) due in
  let pipeline := filter (fun d => SimulatorImpl.arrived d = false) ticked in
  exists log0 wh1 log1 wh3 today3 wos log3 wh4 log4 rng5 orders5
         wh6 rng6 today6 orders6 ships6 shipments log7 s1,
    fold_left (SimulatorImpl.receive_arrival products) arrivals (wh0, log0)
      = (wh1, log1) /\
    fold_left (SimulatorImpl.write_off_product products) (seqZ 0 K)
      (Warehouse.DecrementShelfLife wh1, DayStats.zero, [], log1)
      = (wh3, today3, wos, log3) /\
    fold_left (SimulatorImpl.discount_product products) (seqZ 0 K) (wh3, log3)
      = (wh4, log4) /\
    fold_left (SimulatorImpl.shop_order cfg products wh4 day)
      (seqZ 0 (SimConfig.M cfg)) (SimulatorImpl.rng s, [])
      = (rng5, orders5) /\
    fold_left (SimulatorImpl.fulfil_order products day) orders5
      (wh4, rng5, today3, [], [])
      = (wh6, rng6, today6, orders6, ships6) /\
    s1 = fold_left SimulatorImpl.CreateSupplierRequestIfNeeded (seqZ 0 K)
           (SimulatorImpl.mk cfg rng6 day wh6 products (SimulatorImpl.shopNames s)
              pipeline shipments orders6 today6 (SimulatorImpl.totalStats s) log7
              (SimulatorImpl.dailyAnims s)) /\
    let a := SimulatorImpl.AdvanceDay s in
    SimulatorImpl.cfg a = cfg /\
    SimulatorImpl.day a = day /\
    SimulatorImpl.wh a = SimulatorImpl.wh s1 /\
    SimulatorImpl.products a = SimulatorImpl.products s1 /\
    SimulatorImpl.shopNames a = SimulatorImpl.shopNames s1 /\
    SimulatorImpl.pipeline a = SimulatorImpl.pipeline s1 /\
    SimulatorImpl.shipmentsByDay a = SimulatorImpl.shipmentsByDay s1 /\
    SimulatorImpl.todaysOrders a = SimulatorImpl.todaysOrders s1 /\
    SimulatorImpl.todaysStats a = SimulatorImpl.todaysStats s1 /\
    (exists line, SimulatorImpl.log a
                  = SimulatorImpl.PushLog (SimulatorImpl.log s1) line) /\
    (SimulatorImpl.dailyAnims a, SimulatorImpl.rng a)
    = SimulatorImpl.BuildDailyAnimations (SimulatorImpl.rng s1) arrivals
        (SimulatorImpl.todaysOrders s1)
        (default [] (SimulatorImpl.shipmentsByDay s !! day)) wos /\
    shipments
    = match ships6 with
      | [] => SimulatorImpl.shipmentsByDay s
      | _ :: _ =>
          <[add32 day 1 :=
              default [] (SimulatorImpl.shipmentsByDay s !! add32 day 1) ++ ships6]>
            (SimulatorImpl.shipmentsByDay s)
      end.
Proof.
  intros Hday. cbv zeta. unfold SimulatorImpl.AdvanceDay.
  destruct (Z.leb_spec (SimConfig.N (SimulatorImpl.cfg s)) (SimulatorImpl.day s));
    [lia|].
  cbv zeta. unfold SimulatorImpl.ClampAllProducts. cbv zeta. cbn [snd].
  match goal with
  | |- context [fold_left (SimulatorImpl.receive_arrival ?p) ?a (?w, ?l)] =>
      exists l; destruct (fold_left (SimulatorImpl.receive_arrival p) a (w, l))
        as [wh1 log1] eqn:E1
  end.
  exists wh1, log1.
  match goal with
  | |- context [fold_left (SimulatorImpl.write_off_product ?p) ?a ?i] =>
      destruct (fold_left (SimulatorImpl.write_off_product p) a i)
        as [[[wh3 today3] wos] log3] eqn:E3
  end.
  exists wh3, today3, wos, log3.
  destruct (fold_left (SimulatorImpl.discount_product _) _ (wh3, log3))
    as [wh4 log4] eqn:E4.
  exists wh4, log4.
  destruct (fold_left (SimulatorImpl.shop_order _ _ wh4 _) _ _)
    as [rng5 orders5] eqn:E5.
  exists rng5, orders5.
  destruct (fold_left (SimulatorImpl.fulfil_order _ _) orders5 _)
    as [[[[wh6 rng6] today6] orders6] ships6] eqn:E6.
  exists wh6, rng6, today6, orders6, ships6.
  match goal with
  | |- context [let '(_, _) := ?x in _] => destruct x as [shipments log7] eqn:E7
  end.
  exists shipments, log7.
  match goal with
  | |- context [fold_left SimulatorImpl.CreateSupplierRequestIfNeeded ?pids ?s0] =>
      set (s1 := fold_left SimulatorImpl.CreateSupplierRequestIfNeeded pids s0)
  end.
  exists s1.
  destruct (SimulatorImpl.BuildDailyAnimations _ _ _ _ _) as [anims rng7] eqn:E8.
  cbn [SimulatorImpl.cfg SimulatorImpl.day SimulatorImpl.wh SimulatorImpl.products
       SimulatorImpl.shopNames SimulatorImpl.pipeline SimulatorImpl.shipmentsByDay
       SimulatorImpl.todaysOrders SimulatorImpl.todaysStats SimulatorImpl.log
       SimulatorImpl.dailyAnims SimulatorImpl.rng].
  repeat (split; [reflexivity|]).
  split; [eexists; reflexivity|]. split; [reflexivity|].
  destruct ships6; by injection E7 as <- _.
Qed.

End Phases.

(** ** What the phases keep *)

Lemma fold_left_inv {A B} (P : A -> Prop) (f : A -> B -> A) (l : list B) (a : A) :
  P a -> (forall a x, x ∈ l -> P a -> P (f a x)) -> P (fold_left f l a).
Proof.
  revert a. induction l as [|x l IH]; intros a Ha Hstep; [done|].
  cbn [fold_left]. apply IH.
  - apply Hstep; [left|done].
  - intros a' y Hy. apply Hstep. by right.
Qed.

Section Frames.
Context {G : Type} `{RandomStream G}.

Lemma Receive_length wh pid pk pc : length (Warehouse.Receive wh pid pk pc) = length wh.
Proof.
  unfold Warehouse.Receive. destruct (negb _); [done|].
  destruct (pk <=? 0); [done|apply set_queue_length].
Qed.

Lemma receive_arrival_length products acc a :
  length (SimulatorImpl.receive_arrival products acc a).1 = length acc.1.
Proof.
  destruct acc as [wh log], a as [pid pk]. unfold SimulatorImpl.receive_arrival.
  destruct (0 <? _); cbn [fst]; [apply Receive_length|done].
Qed.

Lemma WriteOffExpired_length wh pid pc st :
  length (Warehouse.WriteOffExpired wh pid pc st).1.2 = length wh.
Proof.
  unfold Warehouse.WriteOffExpired. destruct (negb _); [done|].
  destruct (Warehouse.pop_expired _ _). cbn [fst snd]. apply set_queue_length.
Qed.

Lemma write_off_product_length products acc pid :
  length (SimulatorImpl.write_off_product products acc pid).1.1.1 = length acc.1.1.1.
Proof.
  destruct acc as [[[wh st] wos] log]. unfold SimulatorImpl.write_off_product.
  pose proof (WriteOffExpired_length wh pid (product_at products pid) st) as Hl.
  destruct (Warehouse.WriteOffExpired _ _ _ _) as [[pk wh'] st'].
  cbn [fst snd] in *. by destruct (0 <? pk).
Qed.

Lemma ApplyDiscountIfNeeded_length wh pid pc :
  length (Warehouse.ApplyDiscountIfNeeded wh pid pc).2 = length wh.
Proof.
  unfold Warehouse.ApplyDiscountIfNeeded. destruct (negb _); [done|].
  destruct (Warehouse.discount_batches _ _ _). cbn [snd]. apply set_queue_length.
Qed.

Lemma discount_product_length products acc pid :
  length (SimulatorImpl.discount_product products acc pid).1 = length acc.1.
Proof.
  destruct acc as [wh log]. unfold SimulatorImpl.discount_product.
  pose proof (ApplyDiscountIfNeeded_length wh pid (product_at products pid)) as Hl.
  destruct (Warehouse.ApplyDiscountIfNeeded _ _ _) as [aff wh'].
  cbn [fst snd] in *. by destruct (0 <? aff).
Qed.

Lemma FulfillLine_length wh line pc (rng : G) st :
  length (Warehouse.FulfillLine wh line pc rng st).1.1.1 = length wh.
Proof.
  unfold Warehouse.FulfillLine.
  destruct (_ <=? 0); [done|]. destruct (_ <=? 0); [done|].
  destruct (Warehouse.choose_packages _ _ _) as [chosen rng'].
  destruct (Warehouse.drain _ _ _ _) as [dq st']. cbn [fst]. apply set_queue_length.
Qed.

Lemma fulfil_line_length products acc ln :
  length (SimulatorImpl.fulfil_line products acc ln).1.1.1.1 = length acc.1.1.1.1.
Proof.
  destruct acc as [[[[wh rng] st] lines] items]. unfold SimulatorImpl.fulfil_line.
  pose proof (FulfillLine_length wh ln
                (product_at products (OrderLine.productId ln)) rng st) as Hl.
  destruct (Warehouse.FulfillLine _ _ _ _ _) as [[[wh' ln'] rng'] st'].
  exact Hl.
Qed.

Lemma fulfil_order_length products day acc o :
  length (SimulatorImpl.fulfil_order products day acc o).1.1.1.1 = length acc.1.1.1.1.
Proof.
  destruct acc as [[[[wh rng] st] orders] ships]. unfold SimulatorImpl.fulfil_order.
  pose proof (fold_left_inv
                (fun a : Warehouse.t * G * DayStats.t * list OrderLine.t * list (Z * Z) =>
                   length a.1.1.1.1 = length wh)
                (SimulatorImpl.fulfil_line products) (Order.lines o)
                (wh, rng, st, [], [])) as Hl.
  destruct (fold_left _ _ _) as [[[[wh' rng'] st'] lines] items].
  cbn [fst] in *. apply Hl; [done|].
  intros a x _ Ha. by rewrite fulfil_line_length.
Qed.

Lemma CreateSupplierRequestIfNeeded_frame (s : SimulatorImpl.t G) pid :
  let s' := SimulatorImpl.CreateSupplierRequestIfNeeded s pid in
  SimulatorImpl.cfg s' = SimulatorImpl.cfg s /\
  SimulatorImpl.day s' = SimulatorImpl.day s /\
  SimulatorImpl.wh s' = SimulatorImpl.wh s /\
  SimulatorImpl.products s' = SimulatorImpl.products s /\
  SimulatorImpl.shopNames s' = SimulatorImpl.shopNames s /\
  SimulatorImpl.shipmentsByDay s' = SimulatorImpl.shipmentsByDay s /\
  SimulatorImpl.todaysOrders s' = SimulatorImpl.todaysOrders s.
Proof.
  cbv zeta. unfold SimulatorImpl.CreateSupplierRequestIfNeeded.
  repeat (destruct (_ <? _)); destruct_lets; repeat split; reflexivity.
Qed.

Lemma supplier_requests_frame pids (s : SimulatorImpl.t G) :
  let s' := fold_left SimulatorImpl.CreateSupplierRequestIfNeeded pids s in
  SimulatorImpl.cfg s' = SimulatorImpl.cfg s /\
  SimulatorImpl.day s' = SimulatorImpl.day s /\
  SimulatorImpl.wh s' = SimulatorImpl.wh s /\
  SimulatorImpl.products s' = SimulatorImpl.products s /\
  SimulatorImpl.shopNames s' = SimulatorImpl.shopNames s /\
  SimulatorImpl.shipmentsByDay s' = SimulatorImpl.shipmentsByDay s /\
  SimulatorImpl.todaysOrders s' = SimulatorImpl.todaysOrders s.
Proof.
  cbv zeta. apply (fold_left_inv (fun s' : SimulatorImpl.t G =>
    SimulatorImpl.cfg s' = SimulatorImpl.cfg s /\
    SimulatorImpl.day s' = SimulatorImpl.day s /\
    SimulatorImpl.wh s' = SimulatorImpl.wh s /\
    SimulatorImpl.products s' = SimulatorImpl.products s /\
    SimulatorImpl.shopNames s' = SimulatorImpl.shopNames s /\
    SimulatorImpl.shipmentsByDay s' = SimulatorImpl.shipmentsByDay s /\
    SimulatorImpl.todaysOrders s' = SimulatorImpl.todaysOrders s)); [done|].
  intros a pid _ (H1 & H2 & H3 & H4 & H5 & H6 & H7).
  destruct (CreateSupplierRequestIfNeeded_frame a pid)
    as (E1 & E2 & E3 & E4 & E5 & E6 & E7).
  repeat split; congruence.
Qed.

(** The members a simulated day keeps, the day it sets, and the sizes of
    the warehouse and the log after it. *)
Lemma AdvanceDay_fields (s : SimulatorImpl.t G) :
  SimulatorImpl.day s < SimConfig.N (SimulatorImpl.cfg s) ->
  let a := SimulatorImpl.AdvanceDay s in
  SimulatorImpl.cfg a = SimulatorImpl.cfg s /\
  SimulatorImpl.day a = add32 (SimulatorImpl.day s) 1 /\
  SimulatorImpl.products a = map ClampProduct (SimulatorImpl.products s) /\
  SimulatorImpl.shopNames a = SimulatorImpl.shopNames s /\
  length (SimulatorImpl.wh a) = length (SimulatorImpl.wh s) /\
  (1 <= length (SimulatorImpl.log a) <= 400)%nat.
Proof.
  intros Hday.
  destruct (AdvanceDay_phases s Hday)
    as (log0 & wh1 & log1 & wh3 & today3 & wos & log3 & wh4 & log4 & rng5 & orders5
        & wh6 & rng6 & today6 & orders6 & ships6 & shipments & log7 & s1
        & E1 & E3 & E4 & E5 & E6 & Es1 & Hc & Hd & Hw & Hp & Hs & _ & _ & _ & _
        & [line Hlog] & _).
  cbv zeta in *.
  match type of Es1 with _ = fold_left _ ?pids ?s0 =>
    destruct (supplier_requests_frame pids s0) as (F1 & F2 & F3 & F4 & F5 & _)
  end.
  cbv zeta in *. rewrite <- Es1 in *.
  cbn [SimulatorImpl.cfg SimulatorImpl.day SimulatorImpl.wh SimulatorImpl.products
       SimulatorImpl.shopNames] in *.
  split; [done|]. split; [done|]. split; [congruence|]. split; [congruence|]. split.
  - rewrite Hw, F3.
    pose proof (fold_left_inv
      (fun a : Warehouse.t * G * DayStats.t * list Order.t * list Shipment.t =>
         length a.1.1.1.1 = length wh4)
      (SimulatorImpl.fulfil_order (map ClampProduct (SimulatorImpl.products s))
         (add32 (SimulatorImpl.day s) 1)) orders5 (wh4, rng5, today3, [], [])) as L6.
    rewrite E6 in L6. cbn [fst] in L6. rewrite L6;
      [|done|intros a x _ Ha; by rewrite fulfil_order_length].
    pose proof (fold_left_inv
      (fun a : Warehouse.t * list string => length a.1 = length wh3)
      (SimulatorImpl.discount_product (map ClampProduct (SimulatorImpl.products s)))
      (seqZ 0 (SimConfig.K (SimulatorImpl.cfg s))) (wh3, log3)) as L4.
    rewrite E4 in L4. cbn [fst] in L4. rewrite L4;
      [|done|intros a x _ Ha; by rewrite discount_product_length].
    pose proof (fold_left_inv
      (fun a : Warehouse.t * DayStats.t * list (Z * Z) * list string =>
         length a.1.1.1 = length wh1)
      (SimulatorImpl.write_off_product (map ClampProduct (SimulatorImpl.products s)))
      (seqZ 0 (SimConfig.K (SimulatorImpl.cfg s)))
      (Warehouse.DecrementShelfLife wh1, DayStats.zero, [], log1)) as L3.
    rewrite E3 in L3. cbn [fst] in L3. rewrite L3;
      [|unfold Warehouse.DecrementShelfLife; by rewrite length_map
       |intros a x _ Ha; by rewrite write_off_product_length].
    match type of E1 with fold_left _ ?arr (?w0, _) = _ =>
      pose proof (fold_left_inv
        (fun a : Warehouse.t * list string => length a.1 = length w0)
        (SimulatorImpl.receive_arrival (map ClampProduct (SimulatorImpl.products s)))
        arr (w0, log0)) as L1
    end.
    rewrite E1 in L1. cbn [fst] in L1. rewrite L1;
      [|done|intros a x _ Ha; by rewrite receive_arrival_length].
    unfold SimulatorImpl.ClampAllProducts. cbn [snd].
    apply (reprice_fold (product_at (map ClampProduct (SimulatorImpl.products s)))).
  - rewrite Hlog, PushLog_length. lia.
Qed.

End Frames.

(** ** The shape of the reachable states *)

Lemma map_fixed {A} (f : A -> A) (l : list A) :
  Forall (fun x => f x = x) l -> map f l = l.
Proof. induction 1 as [|x l Hx _ IH]; [done|]. cbn [map]. by rewrite Hx, IH. Qed.

Lemma ClampConfig_fixed_ranges (c : SimConfig.t) :
  ClampConfig c = c ->
  10 <= SimConfig.N c <= 30 /\ 3 <= SimConfig.M c <= 9 /\
  12 <= SimConfig.K c <= 20 /\ 1 <= SimConfig.maxLinesPerOrder c <= 20 /\
  1 <= SimConfig.minUnitsPerLine c <= SimConfig.maxUnitsPerLine c /\
  1 <= SimConfig.supplierLeadTimeMin c <= 30 /\
  SimConfig.supplierLeadTimeMin c <= SimConfig.supplierLeadTimeMax c <= 60.
Proof. intros E. pose proof (ClampConfig_ranges c) as Hr. by rewrite E in Hr. Qed.

Lemma ClampProduct_fixed_ranges (p : ProductConfig.t) :
  ClampProduct p = p ->
  1 <= ProductConfig.unitsPerPackage p <= 1000 /\
  0 <= ProductConfig.capacityPackages p <= 5000 /\
  1 <= ProductConfig.shelfLifeDays p <= 365 /\
  0 <= ProductConfig.discountBeforeDays p <= ProductConfig.shelfLifeDays p /\
  0 <= ProductConfig.reorderThreshold p <= ProductConfig.capacityPackages p /\
  0 <= ProductConfig.reorderAmount p <= ProductConfig.capacityPackages p.
Proof. intros E. pose proof (ClampProduct_ranges p) as Hr. by rewrite E in Hr. Qed.

Lemma ClampProduct_default : ClampProduct ProductConfig.default = ProductConfig.default.
Proof. vm_compute. reflexivity. Qed.

Section Shape.
Context {G : Type} `{RandomStream G}.

Lemma init_product_shape (i : Z) (rng : G) (products : list ProductConfig.t)
    (wh : Warehouse.t) :
  let acc := SimulatorImpl.init_product i (rng, products, wh) in
  length acc.1.2 = length products /\ length acc.2 = length wh /\
  (Forall (fun p => ClampProduct p = p) products ->
   Forall (fun p => ClampProduct p = p) acc.1.2).
Proof.
  cbv zeta. unfold SimulatorImpl.init_product.
  destruct (RandInt rng 6 24) as [upp g1].
  destruct (RandInt g1 18 40) as [cap0 g2].
  destruct (RandInt g2 7 25) as [life g3].
  destruct (RandFloat g3 _ _) as [price g4].
  destruct (RandFloat g4 _ _) as [share g5].
  cbn [fst snd]. split; [by rewrite length_insert|].
  split; [apply Receive_length|].
  intros Hall. apply Forall_insert; [done|apply ClampProduct_idem].
Qed.

Lemma init_products_shape (cfg : SimConfig.t) (n : nat) :
  let acc := SimulatorImpl.init_products cfg (Z.of_nat n) in
  length acc.1.2 = Z.to_nat (SimConfig.K cfg) /\
  length acc.2 = Z.to_nat (SimConfig.K cfg) /\
  Forall (fun p => ClampProduct p = p) acc.1.2.
Proof.
  induction n as [|n IH]; cbv zeta.
  - unfold SimulatorImpl.init_products.
    change (seqZ 0 (Z.of_nat 0)) with (@nil Z). cbn [fold_left fst snd].
    rewrite !length_replicate. repeat split.
    apply Forall_replicate, ClampProduct_default.
  - cbv zeta in IH. unfold SimulatorImpl.init_products in *.
    rewrite Nat2Z.inj_succ, <- Z.add_1_r, seqZ_app by lia.
    rewrite fold_left_app.
    change (seqZ (0 + Z.of_nat n) 1) with [Z.of_nat n]. cbn [fold_left].
    match goal with
    | |- context [SimulatorImpl.init_product _ ?a] => destruct a as [[rng products] wh]
    end.
    cbn [fst snd] in IH. destruct IH as (Hlp & Hlw & Hfix).
    destruct (init_product_shape (Z.of_nat n) rng products wh) as (L1 & L2 & L3).
    split; [congruence|]. split; [congruence|]. by apply L3.
Qed.

Lemma well_formed_Reset (s : SimulatorImpl.t G) (c : SimConfig.t) :
  well_formed (SimulatorImpl.Reset s c).
Proof.
  pose proof (ClampConfig_ranges c) as Hr. cbv zeta in Hr.
  destruct Hr as (HN & HM & HK & _).
  pose proof (init_products_shape (ClampConfig c)
                (Z.to_nat (SimConfig.K (ClampConfig c)))) as Hs.
  rewrite Z2Nat.id in Hs by lia. cbv zeta in Hs.
  unfold SimulatorImpl.Reset. cbv zeta.
  destruct (SimulatorImpl.init_products _ _) as [[rng products] wh].
  cbn [fst snd] in Hs. destruct Hs as (Hlp & Hlw & Hfix).
  unfold well_formed.
  cbn [SimulatorImpl.cfg SimulatorImpl.day SimulatorImpl.products SimulatorImpl.wh
       SimulatorImpl.shopNames SimulatorImpl.log].
  split; [apply ClampConfig_idem|]. split; [lia|]. split; [lia|]. split; [lia|].
  split; [rewrite length_map, length_seqZ; lia|]. split; [exact Hfix|].
  rewrite PushLog_length. cbn [length]. lia.
Qed.

Lemma well_formed_AdvanceDay (s : SimulatorImpl.t G) :
  well_formed s -> well_formed (SimulatorImpl.AdvanceDay s).
Proof.
  intros Hwf.
  destruct (Z_le_gt_dec (SimConfig.N (SimulatorImpl.cfg s)) (SimulatorImpl.day s))
    as [Hover|Hday]; [by rewrite AdvanceDay_guard|].
  destruct Hwf as (Hcfg & Hd & Hlp & Hlw & Hls & Hfix & Hlog).
  destruct (ClampConfig_fixed_ranges _ Hcfg) as (HN & _).
  destruct (AdvanceDay_fields s ltac:(lia)) as (Ec & Ed & Ep & Es & Ew & El).
  unfold well_formed. rewrite Ec, Ed, Ep, Es, Ew, (map_fixed _ _ Hfix).
  unfold add32. rewrite wrap32_small by lia.
  repeat split; try assumption; lia.
Qed.

Lemma well_formed_SetRuntimeTuning (s : SimulatorImpl.t G) p maxL minU maxU boost spd :
  well_formed s ->
  exists s', SetRuntimeTuning (Some s) p maxL minU maxU boost spd = Some s' /\
             well_formed s' /\
             SimulatorImpl.wh s' = SimulatorImpl.wh s /\
             SimulatorImpl.pipeline s' = SimulatorImpl.pipeline s /\
             SimConfig.K (SimulatorImpl.cfg s') = SimConfig.K (SimulatorImpl.cfg s).
Proof.
  intros (Hcfg & Hd & Hlp & Hlw & Hls & Hfix & Hlog).
  destruct (ClampConfig_fixed_ranges _ Hcfg) as (HN & HM & HK & _).
  unfold SetRuntimeTuning. eexists. split; [reflexivity|].
  assert (EN : forall c', SimConfig.N (ClampConfig c') = clampZ (SimConfig.N c') 10 30)
    by done.
  assert (EM : forall c', SimConfig.M (ClampConfig c') = clampZ (SimConfig.M c') 3 9)
    by done.
  assert (EK : forall c', SimConfig.K (ClampConfig c') = clampZ (SimConfig.K c') 12 20)
    by done.
  unfold well_formed, set_cfg.
  cbn [SimulatorImpl.cfg SimulatorImpl.day SimulatorImpl.products SimulatorImpl.wh
       SimulatorImpl.shopNames SimulatorImpl.log SimulatorImpl.pipeline].
  rewrite EN, EM, EK. cbn [SimConfig.N SimConfig.M SimConfig.K].
  rewrite !clampZ_fixed by lia.
  split; [|done]. split; [apply ClampConfig_idem|]. repeat split; assumption || lia.
Qed.

Lemma well_formed_SetProductConfigs (s : SimulatorImpl.t G) (l : list ProductConfig.t) :
  well_formed s ->
  exists s', SetProductConfigs (Some s) l = Some s' /\ well_formed s' /\
             SimulatorImpl.cfg s' = SimulatorImpl.cfg s /\
             SimulatorImpl.pipeline s' = SimulatorImpl.pipeline s /\
             forall q, map Batch.packages (Warehouse.queue (SimulatorImpl.wh s') q)
                       = map Batch.packages (Warehouse.queue (SimulatorImpl.wh s) q) /\
                       map Batch.discounted (Warehouse.queue (SimulatorImpl.wh s') q)
                       = map Batch.discounted (Warehouse.queue (SimulatorImpl.wh s) q).
Proof.
  intros Hwf. unfold SetProductConfigs.
  destruct (Z.eqb_spec (Z.of_nat (length l)) (SimConfig.K (SimulatorImpl.cfg s)))
    as [Hlen|Hlen]; cbn [negb].
  - eexists. split; [reflexivity|].
    destruct Hwf as (Hcfg & Hd & Hlp & Hlw & Hls & Hfix & Hlog).
    pose proof (reprice_fold (product_at (map ClampProduct l)) (length l)
                  (SimulatorImpl.wh s)) as [Hl Hq].
    unfold well_formed, set_products, SimulatorImpl.ClampAllProducts.
    cbn [SimulatorImpl.cfg SimulatorImpl.day SimulatorImpl.products SimulatorImpl.wh
         SimulatorImpl.shopNames SimulatorImpl.log SimulatorImpl.pipeline fst snd].
    split; [|split; [done|split; [done|]]].
    + rewrite length_map, Hl.
      split; [done|]. split; [done|]. split; [done|]. split; [done|].
      split; [done|]. split; [|done].
      apply Forall_fmap, Forall_forall. intros p _. apply ClampProduct_idem.
    + intros q. rewrite Hq. destruct (_ && _); [|done].
      rewrite !map_map. split; by apply map_ext.
  - exists s. split; [done|]. split; [exact Hwf|]. repeat split.
Qed.

(** Every state a client can reach is well formed. *)
Lemma run_well_formed_state (c : SimConfig.t) (acts : list Action) :
  exists s, run (CreateSimulator c) acts = Some s /\ well_formed s.
Proof.
  unfold run.
  apply (fold_left_inv (fun h : SimulatorHandle G => exists s, h = Some s /\ well_formed s)).
  - eexists. split; [reflexivity|]. apply well_formed_Reset.
  - intros h a _ (s & -> & Hwf).
    destruct a as [|c'|p maxL minU maxU boost spd|l]; cbn [perform].
    + eexists. split; [reflexivity|]. by apply well_formed_AdvanceDay.
    + eexists. split; [reflexivity|]. apply well_formed_Reset.
    + destruct (well_formed_SetRuntimeTuning s p maxL minU maxU boost spd Hwf)
        as (s' & E & Hwf' & _). eauto.
    + destruct (well_formed_SetProductConfigs s l Hwf) as (s' & E & Hwf' & _). eauto.
Qed.

End Shape.

Section ReachableShape.
Context {G : Type} `{RandomStream G}.

(** X12. Whatever calls a client makes on a handle it created, the handle is
    never null, its configuration is normalised (a fixed point of
    [ClampConfig]), the day lies between 0 and [N], there are exactly [K]
    products, all normalised, and [M] shop names, only products of the
    catalogue can have stock, and [GetLog] returns between 1 and 400 lines
    whatever [maxLines] is asked for. *)
Theorem run_well_formed (c : SimConfig.t) (acts : list Action) :
  let h : SimulatorHandle G := run (CreateSimulator c) acts in
  let cfg := GetConfigCopy h in
  h <> None /\
  ClampConfig cfg = cfg /\
  0 <= GetDay h <= SimConfig.N cfg /\
  Z.of_nat (length (GetProductConfigs h)) = SimConfig.K cfg /\
  Z.of_nat (length (GetShopNames h)) = SimConfig.M cfg /\
  Forall (fun p => ClampProduct p = p) (GetProductConfigs h) /\
  (forall pid, 0 <= pid < SimConfig.K cfg \/ GetStockPackages h pid = 0) /\
  (forall maxLines, (1 <= length (GetLog h maxLines) <= 400)%nat).
Proof.
  cbv zeta. destruct (run_well_formed_state c acts) as (s & -> & Hwf).
  destruct Hwf as (Hcfg & Hd & Hlp & Hlw & Hls & Hfix & Hlog).
  cbn [GetConfigCopy GetDay GetProductConfigs GetShopNames GetStockPackages].
  split; [done|]. split; [done|]. split; [done|]. split; [done|]. split; [done|].
  split; [done|]. split.
  - intros pid.
    destruct (Warehouse.valid_pid (SimulatorImpl.wh s) pid) eqn:Hv.
    + apply valid_pid_iff in Hv. left. lia.
    + right. by apply TotalPackages_invalid.
  - intros maxLines. unfold GetLog. cbv zeta. rewrite length_drop.
    destruct (Z.ltb_spec (Z.max 1 maxLines)
                (Z.of_nat (length (SimulatorImpl.log s)))); lia.
Qed.

(** X13. On a handle a client can reach, [AdvanceDay] moves the day counter by
    exactly one while the horizon is not reached (and not at all after),
    and never changes the configuration, the product catalogue or the shop
    names. *)
Theorem AdvanceDay_keeps_catalogue (c : SimConfig.t) (acts : list Action) :
  let h : SimulatorHandle G := run (CreateSimulator c) acts in
  GetDay (AdvanceDay h)
  = (if GetDay h <? SimConfig.N (GetConfigCopy h) then GetDay h + 1 else GetDay h) /\
  GetConfigCopy (AdvanceDay h) = GetConfigCopy h /\
  GetProductConfigs (AdvanceDay h) = GetProductConfigs h /\
  GetShopNames (AdvanceDay h) = GetShopNames h.
Proof.
  cbv zeta. destruct (run_well_formed_state c acts) as (s & -> & Hwf).
  cbn [AdvanceDay GetConfigCopy GetDay GetProductConfigs GetShopNames].
  destruct (Z.ltb_spec (SimulatorImpl.day s) (SimConfig.N (SimulatorImpl.cfg s)))
    as [Hday|Hover]; [|by rewrite AdvanceDay_guard].
  destruct Hwf as (Hcfg & Hd & Hlp & Hlw & Hls & Hfix & Hlog).
  destruct (ClampConfig_fixed_ranges _ Hcfg) as (HN & _).
  destruct (AdvanceDay_fields s Hday) as (Ec & Ed & Ep & Es & _).
  rewrite Ec, Ed, Ep, Es, (map_fixed _ _ Hfix).
  unfold add32. rewrite wrap32_small by lia. done.
Qed.

Lemma replicate_snoc {A} (n : nat) (x : A) : replicate (S n) x = replicate n x ++ [x].
Proof. induction n as [|n IH]; [done|]. cbn [replicate app] in *. by rewrite <- IH. Qed.

(** X14. [n] calls of [AdvanceDay] on a fresh simulator leave the day at
    [min(n, N)], with [N] the normalised horizon: the counter counts the
    days and stops at the horizon. *)
Theorem days_counted (c : SimConfig.t) (n : nat) :
  GetDay (run (CreateSimulator (G := G) c) (replicate n DoAdvanceDay))
  = Z.min (Z.of_nat n) (SimConfig.N (ClampConfig c)).
Proof.
  assert (Hinv : exists s,
    run (CreateSimulator (G := G) c) (replicate n DoAdvanceDay) = Some s /\
    well_formed s /\ SimulatorImpl.cfg s = ClampConfig c /\
    SimulatorImpl.day s = Z.min (Z.of_nat n) (SimConfig.N (ClampConfig c))).
  { pose proof (ClampConfig_ranges c) as Hr. cbv zeta in Hr. destruct Hr as (HN & _).
    induction n as [|n IH].
    - eexists. split; [reflexivity|]. split; [apply well_formed_Reset|].
      unfold SimulatorImpl.create, SimulatorImpl.Reset. cbv zeta.
      destruct (SimulatorImpl.init_products _ _) as [[rng products] wh].
      cbn [SimulatorImpl.cfg SimulatorImpl.day]. split; [apply ClampConfig_idem|lia].
    - destruct IH as (s & E & Hwf & Hc & Hd).
      rewrite replicate_snoc. unfold run in *. rewrite fold_left_app, E.
      cbn [fold_left perform AdvanceDay]. eexists. split; [reflexivity|].
      split; [by apply well_formed_AdvanceDay|].
      destruct (Z_le_gt_dec (SimConfig.N (SimulatorImpl.cfg s)) (SimulatorImpl.day s))
        as [Hover|Hday].
      + rewrite AdvanceDay_guard by exact Hover. split; [done|].
        rewrite Hc in Hover. lia.
      + destruct (AdvanceDay_fields s ltac:(lia)) as (Ec & Ed & _).
        rewrite Ec, Ed. split; [done|]. rewrite Hc in Hday.
        unfold add32. rewrite wrap32_small by lia. lia. }
  destruct Hinv as (s & -> & _ & _ & Hd). exact Hd.
Qed.

(** X15. Editing the product catalogue moves no stock: for every handle, list
    and product, the stock, the discounted-stock indicator, the day and
    both statistics are the same before and after [SetProductConfigs],
    whether the list is accepted or not. *)
Theorem SetProductConfigs_keeps_stock (h : SimulatorHandle G)
    (l : list ProductConfig.t) (pid : Z) :
  GetStockPackages (SetProductConfigs h l) pid = GetStockPackages h pid /\
  HasDiscountStock (SetProductConfigs h l) pid = HasDiscountStock h pid /\
  GetDay (SetProductConfigs h l) = GetDay h /\
  GetTodaysStats (SetProductConfigs h l) = GetTodaysStats h /\
  GetTotalStats (SetProductConfigs h l) = GetTotalStats h.
Proof.
  destruct h as [s|]; [|done]. unfold SetProductConfigs.
  destruct (negb _); [done|].
  pose proof (reprice_fold (product_at (map ClampProduct l)) (length l)
                (SimulatorImpl.wh s)) as [Hl Hq].
  unfold GetStockPackages, HasDiscountStock, set_products,
    SimulatorImpl.ClampAllProducts.
  cbn [SimulatorImpl.wh SimulatorImpl.day SimulatorImpl.todaysStats
       SimulatorImpl.totalStats GetDay GetTodaysStats GetTotalStats fst snd].
  split; [|split; [|done]].
  - rewrite !TotalPackages_wrap, Hq. destruct (_ && _); [|done].
    by rewrite packages_of_reprice.
  - unfold Warehouse.HasDiscountStock, Warehouse.valid_pid. rewrite Hl.
    destruct (negb _); [done|]. rewrite Hq. destruct (_ && _); [|done].
    apply existsb_reprice.
Qed.

End ReachableShape.

(** ** Deliveries under way *)

Lemma incoming_of_app l l' pid :
  incoming_of (l ++ l') pid = incoming_of l pid + incoming_of l' pid.
Proof.
  induction l as [|d l IH]; cbn [app incoming_of foldr]; [done|].
  fold (incoming_of (l ++ l') pid). fold (incoming_of l pid).
  destruct (_ =? _); lia.
Qed.

Lemma incoming_of_cons d l pid :
  incoming_of (d :: l) pid
  = (if SupplierDelivery.productId d =? pid then SupplierDelivery.packages d else 0)
    + incoming_of l pid.
Proof.
  cbn [incoming_of foldr]. fold (incoming_of l pid). by destruct (_ =? _).
Qed.

Lemma incoming_of_nonneg l pid :
  Forall (fun d => 0 < SupplierDelivery.packages d) l -> 0 <= incoming_of l pid.
Proof.
  induction 1 as [|d l Hd _ IH]; [done|]. rewrite incoming_of_cons.
  destruct (_ =? _); lia.
Qed.

Lemma incoming_of_tick l pid :
  incoming_of (map SimulatorImpl.tick_delivery l) pid = incoming_of l pid.
Proof.
  induction l as [|d l IH]; [done|]. cbn [map]. rewrite !incoming_of_cons, IH.
  reflexivity.
Qed.

Lemma incoming_of_split (l : list SupplierDelivery.t) pid :
  incoming_of (filter (fun d => SimulatorImpl.arrived d = true) l) pid
  + incoming_of (filter (fun d => SimulatorImpl.arrived d = false) l) pid
  = incoming_of l pid.
Proof.
  induction l as [|d l IH]; [done|]. rewrite !filter_cons, incoming_of_cons.
  destruct (SimulatorImpl.arrived d) eqn:E.
  - rewrite decide_True by done. rewrite decide_False by done.
    rewrite incoming_of_cons. lia.
  - rewrite decide_False by done. rewrite decide_True by done.
    rewrite incoming_of_cons. lia.
Qed.

Lemma fold_incoming l pid a :
  fold_left (fun s d => if SupplierDelivery.productId d =? pid
                        then add32 s (SupplierDelivery.packages d) else s)
            l (wrap32 a)
  = wrap32 (a + incoming_of l pid).
Proof.
  revert a. induction l as [|d l IH]; intros a; cbn [fold_left].
  - cbn [incoming_of foldr]. f_equal. lia.
  - rewrite incoming_of_cons. destruct (_ =? _).
    + unfold add32 at 2. rewrite wrap32_add_l, IH. f_equal. lia.
    + rewrite IH. f_equal.
Qed.

Lemma IncomingPackages_wrap l pid :
  SimulatorImpl.IncomingPackages l pid = wrap32 (incoming_of l pid).
Proof.
  unfold SimulatorImpl.IncomingPackages. rewrite <- wrap32_0 at 1.
  by rewrite fold_incoming.
Qed.

(** ** Phases that only take stock away *)

Section Shrinking.
Context {G : Type} `{RandomStream G}.

Lemma shrinks_fold {A B} (proj : A -> Warehouse.t) (f : A -> B -> A)
    (l : list B) (a : A) :
  (forall a x, shrinks (proj a) (proj (f a x))) ->
  shrinks (proj a) (proj (fold_left f l a)).
Proof.
  intros Hstep. revert a. induction l as [|x l IH]; intros a q Hp Hs; [done|].
  cbn [fold_left]. destruct (Hstep a x q Hp Hs) as [Hp1 Hs1].
  destruct (IH (f a x) q Hp1 ltac:(lia)) as [Hp2 Hs2]. split; [done|lia].
Qed.

Lemma reprice_shrinks (f : Z -> ProductConfig.t) (n : nat) wh :
  shrinks wh (fold_left (fun w pid => Warehouse.RepriceBatches w pid (f pid))
                        (seqZ 0 (Z.of_nat n)) wh).
Proof.
  intros q Hp Hs. destruct (reprice_fold f n wh) as [_ Hq]. rewrite Hq.
  destruct (_ && _); [|split; [done|lia]].
  rewrite packages_of_reprice. split; [|lia].
  eapply positive_batches_map; [|exact Hp].
  rewrite map_map. by apply map_ext.
Qed.

Lemma age_shrinks wh : shrinks wh (Warehouse.DecrementShelfLife wh).
Proof.
  intros q Hp Hs. rewrite queue_DecrementShelfLife, packages_of_age.
  split; [|lia]. eapply positive_batches_map; [|exact Hp].
  rewrite map_map. by apply map_ext.
Qed.

Lemma WriteOffExpired_shrinks wh pid pc st :
  shrinks wh (Warehouse.WriteOffExpired wh pid pc st).1.2.
Proof.
  intros q Hp Hs. unfold Warehouse.WriteOffExpired.
  destruct (Warehouse.valid_pid wh pid) eqn:Hv; cbn [negb];
    [|cbn [fst snd]; split; [done|lia]].
  destruct (pop_expired_split (Warehouse.queue wh pid) 0) as (removed & Heq & _).
  destruct (Warehouse.pop_expired (Warehouse.queue wh pid) 0) as [n dq].
  cbn [fst snd] in *. rewrite queue_set_queue_cases, Hv. cbn [andb].
  destruct (Z.eqb_spec q pid) as [->|_]; [|split; [done|lia]].
  rewrite Heq in Hp, Hs |- *. rewrite packages_of_app in *.
  apply Forall_app in Hp as [Hr Hd].
  pose proof (packages_of_nonneg _ Hr). split; [done|lia].
Qed.

Lemma write_off_shrinks products pids acc :
  shrinks acc.1.1.1
    (fold_left (SimulatorImpl.write_off_product products) pids acc).1.1.1.
Proof.
  apply (shrinks_fold (fun a : Warehouse.t * DayStats.t * list (Z * Z) * list string
                       => a.1.1.1)).
  intros [[[wh st] wos] log] pid q Hp Hs. cbn [fst] in Hp, Hs.
  unfold SimulatorImpl.write_off_product.
  pose proof (WriteOffExpired_shrinks wh pid (product_at products pid) st q Hp Hs)
    as [Hp1 Hs1].
  destruct (Warehouse.WriteOffExpired _ _ _ _) as [[pk wh'] st'].
  cbn [fst snd] in *. by destruct (0 <? pk).
Qed.

Lemma ApplyDiscountIfNeeded_shrinks wh pid pc :
  shrinks wh (Warehouse.ApplyDiscountIfNeeded wh pid pc).2.
Proof.
  intros q Hp Hs. unfold Warehouse.ApplyDiscountIfNeeded.
  destruct (Warehouse.valid_pid wh pid) eqn:Hv; cbn [negb];
    [|cbn [snd]; split; [done|lia]].
  pose proof (discount_batches_sum pc (Warehouse.queue wh pid) 0) as Hsum.
  cbv zeta in Hsum. rewrite wrap32_0 in Hsum.
  destruct (Warehouse.discount_batches pc (Warehouse.queue wh pid) 0) as [n dq].
  cbn [fst snd] in *. destruct Hsum as (_ & Hpk & _).
  rewrite queue_set_queue_cases, Hv. cbn [andb].
  destruct (Z.eqb_spec q pid) as [->|_]; [|split; [done|lia]].
  rewrite (packages_of_map _ _ Hpk). split; [|lia].
  eapply positive_batches_map; [symmetry; exact Hpk|exact Hp].
Qed.

Lemma discount_shrinks products pids acc :
  shrinks acc.1 (fold_left (SimulatorImpl.discount_product products) pids acc).1.
Proof.
  apply (shrinks_fold (fun a : Warehouse.t * list string => a.1)).
  intros [wh log] pid q Hp Hs. cbn [fst] in Hp, Hs.
  unfold SimulatorImpl.discount_product.
  pose proof (ApplyDiscountIfNeeded_shrinks wh pid (product_at products pid) q Hp Hs)
    as [Hp1 Hs1].
  destruct (Warehouse.ApplyDiscountIfNeeded _ _ _) as [aff wh'].
  cbn [fst snd] in *. by destruct (0 <? aff).
Qed.

Lemma FulfillLine_shrinks wh line pc (rng : G) st :
  shrinks wh (Warehouse.FulfillLine wh line pc rng st).1.1.1.
Proof.
  intros q Hp Hs. unfold Warehouse.FulfillLine.
  destruct (_ <=? 0); [split; [done|cbn [fst]; lia]|].
  destruct (_ <=? 0); [split; [done|cbn [fst]; lia]|].
  destruct (Warehouse.choose_packages _ _ _) as [chosen rng'].
  set (pid := OrderLine.productId line).
  destruct (Z.eq_dec q pid) as [->|Hne].
  - pose proof (packages_of_nonneg _ Hp) as Hnn.
    assert (Htot : Warehouse.TotalPackages wh pid
                   = packages_of (Warehouse.queue wh pid))
      by (rewrite TotalPackages_wrap; apply wrap32_small; lia).
    rewrite Htot.
    set (give := Z.min chosen (packages_of (Warehouse.queue wh pid))).
    assert (Hgle : give <= packages_of (Warehouse.queue wh pid))
      by (unfold give; lia).
    clearbody give.
    destruct (Z_le_gt_dec give 0) as [Hno|Hyes].
    + rewrite drain_nothing by exact Hno. cbn [fst]. rewrite set_queue_same.
      split; [done|lia].
    + assert (Hv : Warehouse.valid_pid wh pid = true).
      { destruct (Warehouse.valid_pid wh pid) eqn:Hv; [done|].
        rewrite (queue_invalid _ _ Hv) in Hgle. cbn [packages_of foldr] in Hgle. lia. }
      pose proof (drain_conserves pc (Warehouse.queue wh pid) give st Hp
                    ltac:(lia) ltac:(lia)) as Hd. cbv zeta in Hd.
      destruct (Warehouse.drain pc give (Warehouse.queue wh pid) st) as [dq st'].
      cbn [fst snd] in *. destruct Hd as (Hp' & Hs' & _).
      rewrite queue_set_queue by exact Hv. split; [done|lia].
  - destruct (Warehouse.drain _ _ _ _) as [dq st']. cbn [fst].
    rewrite queue_set_queue_ne by exact Hne. split; [done|lia].
Qed.

Lemma fulfil_lines_shrinks products lines
    (acc : Warehouse.t * G * DayStats.t * list OrderLine.t * list (Z * Z)) :
  shrinks acc.1.1.1.1
    (fold_left (SimulatorImpl.fulfil_line products) lines acc).1.1.1.1.
Proof.
  apply (shrinks_fold
           (fun a : Warehouse.t * G * DayStats.t * list OrderLine.t * list (Z * Z)
            => a.1.1.1.1)).
  intros [[[[wh rng] st] done] items] ln q Hp Hs. cbn [fst] in Hp, Hs.
  unfold SimulatorImpl.fulfil_line.
  pose proof (FulfillLine_shrinks wh ln
                (product_at products (OrderLine.productId ln)) rng st q Hp Hs)
    as [Hp1 Hs1].
  destruct (Warehouse.FulfillLine _ _ _ _ _) as [[[wh' ln'] rng'] st'].
  cbn [fst snd] in *. by split.
Qed.

Lemma fulfil_orders_shrinks products day orders
    (acc : Warehouse.t * G * DayStats.t * list Order.t * list Shipment.t) :
  shrinks acc.1.1.1.1
    (fold_left (SimulatorImpl.fulfil_order products day) orders acc).1.1.1.1.
Proof.
  apply (shrinks_fold
           (fun a : Warehouse.t * G * DayStats.t * list Order.t * list Shipment.t
            => a.1.1.1.1)).
  intros [[[[wh rng] st] done] ships] o q Hp Hs. cbn [fst] in Hp, Hs.
  unfold SimulatorImpl.fulfil_order.
  pose proof (fulfil_lines_shrinks products (Order.lines o) (wh, rng, st, [], [])
                q Hp Hs) as [Hp1 Hs1].
  destruct (fold_left (SimulatorImpl.fulfil_line products) _ _)
    as [[[[wh' rng'] st'] lines] items].
  cbn [fst snd] in *. by split.
Qed.

End Shrinking.

(** ** Receipts *)

Lemma queue_Receive wh pid pk pc q :
  Warehouse.queue (Warehouse.Receive wh pid pk pc) q
  = if Warehouse.valid_pid wh pid && (0 <? pk) && (q =? pid)
    then Warehouse.queue wh q ++
         [Batch.mk pk (ProductConfig.shelfLifeDays pc) false
                   (ProductConfig.basePricePerUnit pc)]
    else Warehouse.queue wh q.
Proof.
  unfold Warehouse.Receive. destruct (Warehouse.valid_pid wh pid) eqn:Hv; cbn [negb andb];
    [|done].
  destruct (Z.leb_spec pk 0), (Z.ltb_spec 0 pk); try lia; cbn [andb]; [done|].
  rewrite queue_set_queue_cases, Hv. cbn [andb].
  by destruct (Z.eqb_spec q pid) as [->|_].
Qed.

Lemma Forall_queues (P : list Batch.t -> Prop) (wh : Warehouse.t) :
  (forall q, P (Warehouse.queue wh q)) -> Forall P wh.
Proof.
  intros Hq. apply Forall_lookup. intros i dq Hi.
  specialize (Hq (Z.of_nat i)). unfold Warehouse.queue in Hq.
  assert (Hv : Warehouse.valid_pid wh (Z.of_nat i) = true).
  { apply valid_pid_iff. apply lookup_lt_Some in Hi. lia. }
  rewrite Hv, list_lookup_total_alt, Nat2Z.id, Hi in Hq. exact Hq.
Qed.

Lemma receive_arrival_stock products wh log pid pk q :
  positive_batches (Warehouse.queue wh q) ->
  let wh' := (SimulatorImpl.receive_arrival products (wh, log) (pid, pk)).1 in
  positive_batches (Warehouse.queue wh' q) /\
  packages_of (Warehouse.queue wh' q)
  <= packages_of (Warehouse.queue wh q) + (if q =? pid then Z.max 0 pk else 0).
Proof.
  intros Hp. cbv zeta. unfold SimulatorImpl.receive_arrival.
  set (accepted := Z.max 0 (Z.min pk _)).
  assert (Hacc : accepted <= Z.max 0 pk) by (unfold accepted; lia).
  clearbody accepted.
  destruct (Z.ltb_spec 0 accepted) as [Hpos|Hno]; cbn [fst].
  - rewrite queue_Receive. destruct (_ && (q =? pid)) eqn:E.
    + apply andb_true_iff in E as [_ E]. rewrite E.
      rewrite packages_of_app. cbn [packages_of foldr Batch.packages].
      split; [|lia]. apply Forall_app. split; [done|].
      constructor; [cbn [Batch.packages]; lia|constructor].
    + split; [done|]. destruct (q =? pid); lia.
  - split; [done|]. destruct (q =? pid); lia.
Qed.

Lemma receive_arrivals_stock products (ds : list SupplierDelivery.t) :
  forall wh log q,
    Forall (fun d => 0 < SupplierDelivery.packages d) ds ->
    positive_batches (Warehouse.queue wh q) ->
    let wh' :=
      (fold_left (SimulatorImpl.receive_arrival products)
         (map (fun d => (SupplierDelivery.productId d, SupplierDelivery.packages d)) ds)
         (wh, log)).1 in
    positive_batches (Warehouse.queue wh' q) /\
    packages_of (Warehouse.queue wh' q)
    <= packages_of (Warehouse.queue wh q) + incoming_of ds q.
Proof.
  induction ds as [|d ds IH]; intros wh log q Hds Hp; cbv zeta.
  - cbn [map fold_left fst incoming_of foldr]. split; [done|lia].
  - inversion Hds as [|? ? Hd Hrest]; subst. cbn [map fold_left].
    pose proof (receive_arrival_stock products wh log (SupplierDelivery.productId d)
                  (SupplierDelivery.packages d) q Hp) as [Hp1 Hs1].
    destruct (SimulatorImpl.receive_arrival products (wh, log) _) as [wh1 log1].
    cbn [fst] in Hp1, Hs1.
    destruct (IH wh1 log1 q Hrest Hp1) as [Hp2 Hs2].
    split; [exact Hp2|]. rewrite incoming_of_cons.
    rewrite (Z.eqb_sym (SupplierDelivery.productId d) q).
    destruct (q =? SupplierDelivery.productId d); lia.
Qed.

(** ** Requests *)

Section Requests.
Context {G : Type} `{RandomStreamLaws G}.

Lemma CreateSupplierRequestIfNeeded_stocked (s : SimulatorImpl.t G) (pid : Z) :
  ClampConfig (SimulatorImpl.cfg s) = SimulatorImpl.cfg s ->
  Forall (fun p => ClampProduct p = p) (SimulatorImpl.products s) ->
  0 <= pid < SimConfig.K (SimulatorImpl.cfg s) ->
  well_stocked s ->
  well_stocked (SimulatorImpl.CreateSupplierRequestIfNeeded s pid).
Proof.
  intros Hcfg Hfix Hpid (Hpos & Hpipe & Hsum).
  destruct (ClampConfig_fixed_ranges _ Hcfg) as (_ & _ & _ & _ & _ & Hlo & Hhi).
  assert (Hcap : 0 <= ProductConfig.capacityPackages
                        (product_at (SimulatorImpl.products s) pid) <= 5000).
  { apply (product_at_Forall
             (fun p => 0 <= ProductConfig.capacityPackages p <= 5000)).
    - eapply Forall_impl; [exact Hfix|]. intros p Hp.
      by destruct (ClampProduct_fixed_ranges p Hp) as (_ & ? & _).
    - cbn. lia. }
  assert (Hinc : 0 <= incoming_of (SimulatorImpl.pipeline s) pid).
  { apply incoming_of_nonneg. eapply Forall_impl; [exact Hpipe|]. cbn. tauto. }
  destruct (TotalPackages_exact (SimulatorImpl.wh s) pid Hpos) as [Hcur Hnn].
  { specialize (Hsum pid). lia. }
  specialize (Hsum pid) as Hs.
  unfold SimulatorImpl.CreateSupplierRequestIfNeeded.
  rewrite Hcur, IncomingPackages_wrap, (wrap32_small (incoming_of _ _)) by lia.
  set (pc := product_at (SimulatorImpl.products s) pid) in *.
  set (cur := packages_of (Warehouse.queue (SimulatorImpl.wh s) pid)) in *.
  set (inc := incoming_of (SimulatorImpl.pipeline s) pid) in *.
  unfold add32, sub32. rewrite (wrap32_small (cur + inc)) by lia.
  rewrite (wrap32_small (_ - _)) by lia.
  destruct (_ <? ProductConfig.reorderThreshold pc); [|by repeat split].
  set (want := Z.min _ _).
  destruct (Z.ltb_spec 0 want) as [Hwant|_]; [|by repeat split].
  assert (Hw : cur + inc + want <= 5000) by (unfold want; lia).
  clearbody want.
  pose proof (uniform_int_range (SimulatorImpl.rng s)
                (SimConfig.supplierLeadTimeMin (SimulatorImpl.cfg s))
                (SimConfig.supplierLeadTimeMax (SimulatorImpl.cfg s)) ltac:(lia))
    as Hlead.
  unfold RandInt. destruct (uniform_int _ _ _) as [lead rng']. cbn [fst] in Hlead.
  unfold well_stocked, SimulatorImpl.set_supply.
  cbn [SimulatorImpl.wh SimulatorImpl.pipeline SimulatorImpl.cfg].
  split; [exact Hpos|]. split.
  - apply Forall_app. split; [exact Hpipe|].
    constructor; [|constructor].
    cbn [SupplierDelivery.productId SupplierDelivery.packages
         SupplierDelivery.daysUntilArrival]. lia.
  - intros q. rewrite incoming_of_app, incoming_of_cons.
    cbn [SupplierDelivery.productId SupplierDelivery.packages incoming_of foldr].
    destruct (Z.eqb_spec pid q) as [<-|_]; [fold cur; fold inc; lia|].
    specialize (Hsum q). lia.
Qed.

Lemma supplier_requests_stocked (pids : list Z) (s : SimulatorImpl.t G) :
  ClampConfig (SimulatorImpl.cfg s) = SimulatorImpl.cfg s ->
  Forall (fun p => ClampProduct p = p) (SimulatorImpl.products s) ->
  Forall (fun pid => 0 <= pid < SimConfig.K (SimulatorImpl.cfg s)) pids ->
  well_stocked s ->
  well_stocked (fold_left SimulatorImpl.CreateSupplierRequestIfNeeded pids s).
Proof.
  revert s. induction pids as [|pid pids IH]; intros s Hcfg Hfix Hpids Hst; [done|].
  inversion Hpids as [|? ? Hpid Hrest]; subst. cbn [fold_left].
  destruct (CreateSupplierRequestIfNeeded_frame s pid) as (Ec & _ & _ & Ep & _).
  apply IH.
  - by rewrite Ec.
  - by rewrite Ep.
  - by rewrite Ec.
  - by apply CreateSupplierRequestIfNeeded_stocked.
Qed.

End Requests.

(** ** The stock of the reachable states *)

Lemma cast_int_is_int v : is_int (cast_int v).
Proof.
  assert (Hmin : is_int INT_MIN).
  { unfold is_int, INT_MIN, INT_MAX. change (2 ^ 31) with 2147483648. lia. }
  unfold cast_int. destruct v as [z|]; [|exact Hmin].
  destruct (_ && _) eqn:E; [|exact Hmin].
  apply andb_true_iff in E as [E1 E2]. unfold is_int. lia.
Qed.

Lemma tick_pipeline (K : Z) (l : list SupplierDelivery.t) :
  Forall (fun d => 0 <= SupplierDelivery.productId d < K /\
                   0 < SupplierDelivery.packages d /\
                   1 <= SupplierDelivery.daysUntilArrival d <= 60) l ->
  Forall (fun d => 0 <= SupplierDelivery.productId d < K /\
                   0 < SupplierDelivery.packages d /\
                   1 <= SupplierDelivery.daysUntilArrival d <= 60)
         (filter (fun d => SimulatorImpl.arrived d = false)
                 (map SimulatorImpl.tick_delivery l)) /\
  Forall (fun d => 0 < SupplierDelivery.packages d)
         (filter (fun d => SimulatorImpl.arrived d = true)
                 (map SimulatorImpl.tick_delivery l)).
Proof.
  induction 1 as [|d l (Hp & Hk & Hd) _ [IH1 IH2]]; [by split|].
  cbn [map]. rewrite !filter_cons.
  destruct (SimulatorImpl.arrived (SimulatorImpl.tick_delivery d)) eqn:E.
  - rewrite decide_False by done. rewrite decide_True by done.
    split; [done|]. by constructor.
  - rewrite decide_True by done. rewrite decide_False by done.
    split; [|done]. constructor; [|done].
    unfold SimulatorImpl.arrived, SimulatorImpl.tick_delivery in *.
    cbn [SupplierDelivery.productId SupplierDelivery.packages
         SupplierDelivery.daysUntilArrival] in *.
    unfold sub32 in *. rewrite wrap32_small in * by lia. lia.
Qed.

Section Stocked.
Context {G : Type} `{RandomStreamLaws G}.

Lemma init_product_wh (i : Z) (rng : G) (products : list ProductConfig.t)
    (wh : Warehouse.t) :
  exists pk pc,
    (SimulatorImpl.init_product i (rng, products, wh)).2
    = Warehouse.Receive wh i pk pc /\ is_int pk.
Proof.
  unfold SimulatorImpl.init_product.
  destruct (RandInt rng 6 24) as [upp g1].
  destruct (RandInt g1 18 40) as [cap0 g2].
  destruct (RandInt g2 7 25) as [life g3].
  destruct (RandFloat g3 _ _) as [price g4].
  destruct (RandFloat g4 _ _) as [share g5].
  cbn [snd]. eexists _, _. split; [reflexivity|apply cast_int_is_int].
Qed.

Lemma init_products_single (cfg : SimConfig.t) (n : nat) :
  Z.of_nat n <= SimConfig.K cfg ->
  forall q,
    let wh := (SimulatorImpl.init_products cfg (Z.of_nat n)).2 in
    Warehouse.queue wh q = [] \/
    exists b, Warehouse.queue wh q = [b] /\ 0 < Batch.packages b /\
              is_int (Batch.packages b).
Proof.
  induction n as [|n IH]; intros Hn q; cbv zeta.
  - left. unfold SimulatorImpl.init_products.
    change (seqZ 0 (Z.of_nat 0)) with (@nil Z). cbn [fold_left snd].
    apply queue_replicate.
  - specialize (IH ltac:(lia)). cbv zeta in IH.
    destruct (init_products_inv cfg n ltac:(lia)) as (_ & _ & _ & Hempty & _).
    unfold SimulatorImpl.init_products in *.
    rewrite Nat2Z.inj_succ, <- Z.add_1_r, seqZ_app by lia.
    rewrite fold_left_app.
    change (seqZ (0 + Z.of_nat n) 1) with [Z.of_nat n]. cbn [fold_left].
    match goal with
    | |- context [SimulatorImpl.init_product _ ?a] => destruct a as [[rng products] wh]
    end.
    cbn [fst snd] in *.
    destruct (init_product_wh (Z.of_nat n) rng products wh) as (pk & pc & -> & Hpk).
    rewrite queue_Receive. destruct (_ && (q =? Z.of_nat n)) eqn:E; [|apply IH].
    apply andb_true_iff in E as [E Eq]. apply andb_true_iff in E as [_ Epk].
    apply Z.eqb_eq in Eq as ->. rewrite Hempty by lia. right.
    eexists. split; [reflexivity|]. cbn [Batch.packages]. split; [lia|done].
Qed.

Lemma well_stocked_Reset (s : SimulatorImpl.t G) (c : SimConfig.t) :
  well_stocked (SimulatorImpl.Reset s c).
Proof.
  pose proof (ClampConfig_ranges c) as Hr. cbv zeta in Hr.
  destruct Hr as (_ & _ & HK & _).
  pose proof (init_products_single (ClampConfig c)
                (Z.to_nat (SimConfig.K (ClampConfig c)))) as Hsingle.
  pose proof (init_products_inv (ClampConfig c)
                (Z.to_nat (SimConfig.K (ClampConfig c)))) as Hinv.
  rewrite Z2Nat.id in Hsingle, Hinv by lia.
  specialize (Hsingle ltac:(lia)). specialize (Hinv ltac:(lia)).
  cbv zeta in Hsingle, Hinv.
  unfold SimulatorImpl.Reset. cbv zeta.
  destruct (SimulatorImpl.init_products _ _) as [[rng products] wh].
  cbn [fst snd] in *. destruct Hinv as (_ & _ & Hcaps & _ & Htot).
  assert (Hq : forall q, positive_batches (Warehouse.queue wh q) /\
                         packages_of (Warehouse.queue wh q) <= 5000).
  { intros q. destruct (Hsingle q) as [E|(b & E & Hb & Hint)].
    - rewrite E. split; [constructor|cbn; lia].
    - destruct (Warehouse.valid_pid wh q) eqn:Hv;
        [|by rewrite queue_invalid in E].
      specialize (Htot q Hv). rewrite TotalPackages_wrap, E in Htot.
      rewrite E. cbn [packages_of foldr] in *. rewrite Z.add_0_r in *.
      rewrite wrap32_id in Htot by exact Hint.
      assert (ProductConfig.capacityPackages (product_at products q) <= 5000).
      { apply (product_at_Forall
                 (fun p => ProductConfig.capacityPackages p <= 5000)).
        - eapply Forall_impl; [exact Hcaps|]. cbn. intros; lia.
        - cbn. lia. }
      split; [|lia]. constructor; [done|constructor]. }
  unfold well_stocked. cbn [SimulatorImpl.wh SimulatorImpl.pipeline SimulatorImpl.cfg].
  split; [apply Forall_queues; intros q; apply Hq|]. split; [constructor|].
  intros q. cbn [incoming_of foldr]. destruct (Hq q). lia.
Qed.

(** The stock when the orders of a day are about to be served. *)
Lemma stock_before_orders (s : SimulatorImpl.t G) log0 wh1 log1 wh3 today3 wos log3
    wh4 log4 :
  well_stocked s ->
  let products := map ClampProduct (SimulatorImpl.products s) in
  let ticked := map SimulatorImpl.tick_delivery (SimulatorImpl.pipeline s) in
  let due := filter (fun d => SimulatorImpl.arrived d = true) ticked in
  let rest := filter (fun d => SimulatorImpl.arrived d = false) ticked in
  fold_left (SimulatorImpl.receive_arrival products)
    (map (fun d => (SupplierDelivery.productId d, SupplierDelivery.packages d)) due)
    ((SimulatorImpl.ClampAllProducts (SimulatorImpl.products s)
        (SimulatorImpl.wh s)).2, log0)
    = (wh1, log1) ->
  fold_left (SimulatorImpl.write_off_product products)
    (seqZ 0 (SimConfig.K (SimulatorImpl.cfg s)))
    (Warehouse.DecrementShelfLife wh1, DayStats.zero, [], log1)
    = (wh3, today3, wos, log3) ->
  fold_left (SimulatorImpl.discount_product products)
    (seqZ 0 (SimConfig.K (SimulatorImpl.cfg s))) (wh3, log3)
    = (wh4, log4) ->
  forall q, positive_batches (Warehouse.queue wh4 q) /\
            0 <= incoming_of rest q /\
            packages_of (Warehouse.queue wh4 q) + incoming_of rest q <= 5000.
Proof.
  intros (Hpos & Hpipe & Hsum). cbv zeta. intros E1 E3 E4 q.
  destruct (tick_pipeline _ _ Hpipe) as [Hrest Hdue].
  set (ticked := map SimulatorImpl.tick_delivery (SimulatorImpl.pipeline s)) in *.
  set (due := filter (fun d => SimulatorImpl.arrived d = true) ticked) in *.
  set (rest := filter (fun d => SimulatorImpl.arrived d = false) ticked) in *.
  set (products := map ClampProduct (SimulatorImpl.products s)) in *.
  pose proof (queue_positive _ q Hpos) as P.
  pose proof (packages_of_nonneg _ P) as Nn.
  pose proof (Hsum q) as S.
  assert (Hsplit : incoming_of due q + incoming_of rest q
                   = incoming_of (SimulatorImpl.pipeline s) q).
  { rewrite <- (incoming_of_tick (SimulatorImpl.pipeline s) q).
    apply incoming_of_split. }
  assert (0 <= incoming_of due q) by (by apply incoming_of_nonneg).
  assert (0 <= incoming_of rest q).
  { apply incoming_of_nonneg. eapply Forall_impl; [exact Hrest|]. cbn. tauto. }
  destruct (reprice_shrinks (product_at products)
              (length (SimulatorImpl.products s)) (SimulatorImpl.wh s) q P
              ltac:(lia)) as [P0 S0].
  pose proof (receive_arrivals_stock products due _ log0 q Hdue P0) as R1.
  cbv zeta in R1. unfold SimulatorImpl.ClampAllProducts in E1. cbn [snd] in E1.
  fold products in E1. rewrite E1 in R1. cbn [fst] in R1. destruct R1 as [P1 S1].
  destruct (age_shrinks wh1 q P1 ltac:(lia)) as [P2 S2].
  pose proof (write_off_shrinks products
                (seqZ 0 (SimConfig.K (SimulatorImpl.cfg s)))
                (Warehouse.DecrementShelfLife wh1, DayStats.zero, [], log1) q) as R3.
  rewrite E3 in R3. cbn [fst] in R3. destruct (R3 P2 ltac:(lia)) as [P3 S3].
  pose proof (discount_shrinks products
                (seqZ 0 (SimConfig.K (SimulatorImpl.cfg s))) (wh3, log3) q) as R4.
  rewrite E4 in R4. cbn [fst] in R4. destruct (R4 P3 ltac:(lia)) as [P4 S4].
  split; [exact P4|]. split; lia.
Qed.

Lemma well_stocked_AdvanceDay (s : SimulatorImpl.t G) :
  well_formed s -> well_stocked s -> well_stocked (SimulatorImpl.AdvanceDay s).
Proof.
  intros Hwf Hst.
  destruct (Z_le_gt_dec (SimConfig.N (SimulatorImpl.cfg s)) (SimulatorImpl.day s))
    as [Hover|Hday]; [by rewrite AdvanceDay_guard|].
  destruct Hwf as (Hcfg & Hd & Hlp & Hlw & Hls & Hfix & Hlog).
  destruct (AdvanceDay_phases s ltac:(lia))
    as (log0 & wh1 & log1 & wh3 & today3 & wos & log3 & wh4 & log4 & rng5 & orders5
        & wh6 & rng6 & today6 & orders6 & ships6 & shipments & log7 & s1
        & E1 & E3 & E4 & E5 & E6 & Es1 & Hc & _ & Hw & _ & _ & Hpl & _).
  cbv zeta in *.
  pose proof (stock_before_orders s log0 wh1 log1 wh3 today3 wos log3 wh4 log4
                Hst E1 E3 E4) as Hq4. cbv zeta in Hq4.
  destruct Hst as (Hpos & Hpipe & Hsum).
  destruct (tick_pipeline _ _ Hpipe) as [Hrest Hdue].
  set (ticked := map SimulatorImpl.tick_delivery (SimulatorImpl.pipeline s)) in *.
  set (rest := filter (fun d => SimulatorImpl.arrived d = false) ticked) in *.
  set (products := map ClampProduct (SimulatorImpl.products s)) in *.
  assert (Hq6 : forall q, positive_batches (Warehouse.queue wh6 q) /\
                          packages_of (Warehouse.queue wh6 q) + incoming_of rest q
                          <= 5000).
  { intros q. destruct (Hq4 q) as (P4 & I4 & S4).
    pose proof (fulfil_orders_shrinks products (add32 (SimulatorImpl.day s) 1)
                  orders5 (wh4, rng5, today3, [], []) q) as R6.
    rewrite E6 in R6. cbn [fst] in R6. destruct (R6 P4 ltac:(lia)) as [P6 S6].
    split; [exact P6|lia]. }
  match type of Es1 with _ = fold_left _ ?pids ?s0 =>
    assert (Hs0 : well_stocked s0);
    [|pose proof (supplier_requests_stocked pids s0) as Hs1;
      destruct (supplier_requests_frame pids s0) as (F1 & _)]
  end.
  { unfold well_stocked.
    cbn [SimulatorImpl.wh SimulatorImpl.pipeline SimulatorImpl.cfg].
    split; [apply Forall_queues; intros q; apply Hq6|]. split; [exact Hrest|].
    intros q. apply Hq6. }
  cbv zeta in F1. rewrite <- Es1 in Hs1, F1.
  cbn [SimulatorImpl.cfg SimulatorImpl.products] in Hs1, F1.
  specialize (Hs1 Hcfg).
  assert (Hs1' : well_stocked s1).
  { apply Hs1; [|by apply Forall_forall; intros x Hx; apply elem_of_seqZ in Hx; lia
                |exact Hs0].
    apply Forall_fmap, Forall_forall. intros p _. apply ClampProduct_idem. }
  destruct Hs1' as (A1 & A2 & A3). unfold well_stocked.
  rewrite Hw, Hpl, Hc. rewrite F1 in A2. by repeat split.
Qed.

(** Every state a client can reach is well formed and well stocked. *)
Lemma run_stocked_state (c : SimConfig.t) (acts : list Action) :
  exists s, run (CreateSimulator c) acts = Some s /\ well_formed s /\ well_stocked s.
Proof.
  unfold run.
  apply (fold_left_inv (fun h : SimulatorHandle G =>
           exists s, h = Some s /\ well_formed s /\ well_stocked s)).
  - eexists. split; [reflexivity|].
    split; [apply well_formed_Reset|apply well_stocked_Reset].
  - intros h a _ (s & -> & Hwf & Hst).
    destruct a as [|c'|p maxL minU maxU boost spd|l]; cbn [perform].
    + eexists. split; [reflexivity|].
      split; [by apply well_formed_AdvanceDay|by apply well_stocked_AdvanceDay].
    + eexists. split; [reflexivity|].
      split; [apply well_formed_Reset|apply well_stocked_Reset].
    + destruct (well_formed_SetRuntimeTuning s p maxL minU maxU boost spd Hwf)
        as (s' & E & Hwf' & Ew & Ep & EK).
      exists s'. split; [exact E|]. split; [exact Hwf'|].
      destruct Hst as (A1 & A2 & A3). unfold well_stocked.
      rewrite Ew, Ep, EK. by repeat split.
    + destruct (well_formed_SetProductConfigs s l Hwf)
        as (s' & E & Hwf' & Ec & Ep & Eq).
      exists s'. split; [exact E|]. split; [exact Hwf'|].
      destruct Hst as (A1 & A2 & A3). unfold well_stocked. rewrite Ep, Ec.
      split; [|split; [exact A2|]].
      * apply Forall_queues. intros q. destruct (Eq q) as [Epk _].
        eapply positive_batches_map; [symmetry; exact Epk|].
        by apply queue_positive.
      * intros q. destruct (Eq q) as [Epk _].
        rewrite (packages_of_map _ _ Epk). apply A3.
Qed.

End Stocked.

Lemma discounted_stock_positive dq :
  positive_batches dq ->
  existsb (fun b => (0 <? Batch.packages b) && Batch.discounted b) dq = true ->
  0 < packages_of dq.
Proof.
  intros Hp. pose proof (packages_of_nonneg _ Hp) as Hn. revert Hn.
  induction Hp as [|b dq Hb Hp IH]; [done|]. intros _ _.
  pose proof (packages_of_nonneg _ Hp). rewrite packages_of_cons. lia.
Qed.

Section ReachableStock.
Context {G : Type} `{RandomStreamLaws G}.

(** X16. With a generator that keeps the range contract of the standard
    distributions, whatever calls a client makes on a handle it created:
    every batch in the warehouse holds at least one package, the stock the
    API reports for a product is the exact sum of its batches (the [int]
    sum never wraps) and lies between 0 and 5000, and a product reported to
    have discounted stock has stock. *)
Theorem stock_within_bounds (c : SimConfig.t) (acts : list Action) (pid : Z) :
  let h : SimulatorHandle G := run (CreateSimulator c) acts in
  0 <= GetStockPackages h pid <= 5000 /\
  (HasDiscountStock h pid = true -> 0 < GetStockPackages h pid) /\
  exists s, h = Some s /\
            Forall positive_batches (SimulatorImpl.wh s) /\
            GetStockPackages h pid
            = packages_of (Warehouse.queue (SimulatorImpl.wh s) pid).
Proof.
  cbv zeta. destruct (run_stocked_state c acts) as (s & -> & Hwf & Hst).
  destruct Hst as (Hpos & Hpipe & Hsum).
  assert (Hinc : 0 <= incoming_of (SimulatorImpl.pipeline s) pid).
  { apply incoming_of_nonneg. eapply Forall_impl; [exact Hpipe|]. cbn. tauto. }
  pose proof (Hsum pid) as Hs.
  destruct (TotalPackages_exact (SimulatorImpl.wh s) pid Hpos ltac:(lia)) as [Ht Hn].
  cbn [GetStockPackages HasDiscountStock]. rewrite Ht.
  split; [lia|]. split; [|by exists s].
  unfold Warehouse.HasDiscountStock. destruct (negb _); [done|].
  apply discounted_stock_positive. by apply queue_positive.
Qed.

(** X17. In every state a client can reach (same contract on the generator),
    each delivery under way is for a product of the catalogue, carries at
    least one package and is between 1 and 60 days away; for every product
    the packages in stock plus the packages under way lie between 0 and
    5000, so the sums and the difference [CreateSupplierRequestIfNeeded]
    computes are exact [int]s, and the lead-time interval it draws from is
    not empty. *)
Theorem requests_never_wrap (c : SimConfig.t) (acts : list Action) (pid : Z) :
  exists s : SimulatorImpl.t G,
    run (CreateSimulator c) acts = Some s /\
    Forall (fun d => 0 <= SupplierDelivery.productId d < SimConfig.K (SimulatorImpl.cfg s) /\
                     0 < SupplierDelivery.packages d /\
                     1 <= SupplierDelivery.daysUntilArrival d <= 60)
           (SimulatorImpl.pipeline s) /\
    let stock := Warehouse.TotalPackages (SimulatorImpl.wh s) pid +
                 SimulatorImpl.IncomingPackages (SimulatorImpl.pipeline s) pid in
    let pc := product_at (SimulatorImpl.products s) pid in
    0 <= stock <= 5000 /\
    stock = packages_of (Warehouse.queue (SimulatorImpl.wh s) pid) +
            incoming_of (SimulatorImpl.pipeline s) pid /\
    is_int (ProductConfig.capacityPackages pc - stock) /\
    1 <= SimConfig.supplierLeadTimeMin (SimulatorImpl.cfg s)
      <= SimConfig.supplierLeadTimeMax (SimulatorImpl.cfg s) /\
    SimConfig.supplierLeadTimeMax (SimulatorImpl.cfg s) <= 60.
Proof.
  destruct (run_stocked_state c acts) as (s & E & Hwf & Hst).
  exists s. split; [exact E|].
  destruct Hwf as (Hcfg & _ & _ & _ & _ & Hfix & _).
  destruct Hst as (Hpos & Hpipe & Hsum).
  split; [exact Hpipe|]. cbv zeta.
  assert (Hinc : 0 <= incoming_of (SimulatorImpl.pipeline s) pid).
  { apply incoming_of_nonneg. eapply Forall_impl; [exact Hpipe|]. cbn. tauto. }
  pose proof (Hsum pid) as Hs.
  destruct (TotalPackages_exact (SimulatorImpl.wh s) pid Hpos ltac:(lia)) as [Ht Hn].
  rewrite Ht, IncomingPackages_wrap, wrap32_small by lia.
  assert (Hcap : 0 <= ProductConfig.capacityPackages
                        (product_at (SimulatorImpl.products s) pid) <= 5000).
  { apply (product_at_Forall
             (fun p => 0 <= ProductConfig.capacityPackages p <= 5000)).
    - eapply Forall_impl; [exact Hfix|]. intros p Hp.
      by destruct (ClampProduct_fixed_ranges p Hp) as (_ & ? & _).
    - cbn. lia. }
  destruct (ClampConfig_fixed_ranges _ Hcfg) as (_ & _ & _ & _ & _ & Hlo & Hhi).
  split; [lia|]. split; [done|]. split; [apply is_int_small; lia|lia].
Qed.

End ReachableStock.

Lemma stock_within_bounds_witness :
  0 <= GetStockPackages (run (CreateSimulator (G := Z) SimConfig.default)
                             [DoAdvanceDay; DoAdvanceDay]) 3 <= 5000.
Proof.
  exact (proj1 (@stock_within_bounds Z lcg_stream lcg_laws SimConfig.default
                  [DoAdvanceDay; DoAdvanceDay] 3)).
Defined.

Lemma requests_never_wrap_witness :
  exists s : SimulatorImpl.t Z,
    run (CreateSimulator SimConfig.default) [DoAdvanceDay; DoAdvanceDay] = Some s /\
    Forall (fun d => 0 <= SupplierDelivery.productId d < SimConfig.K (SimulatorImpl.cfg s) /\
                     0 < SupplierDelivery.packages d /\
                     1 <= SupplierDelivery.daysUntilArrival d <= 60)
           (SimulatorImpl.pipeline s).
Proof.
  destruct (@requests_never_wrap Z lcg_stream lcg_laws SimConfig.default
              [DoAdvanceDay; DoAdvanceDay] 0) as (s & E & Hp & _).
  exists s. split; [exact E|exact Hp].
Defined.


(** ** Resetting and tuning *)

Section Resetting.
Context {G : Type} `{RandomStream G}.

Lemma run_app (h : SimulatorHandle G) (acts acts' : list Action) :
  run h (acts ++ acts') = run (run h acts) acts'.
Proof. unfold run. apply fold_left_app. Qed.

Lemma run_some (s : SimulatorImpl.t G) (acts : list Action) :
  exists s', run (Some s) acts = Some s'.
Proof.
  unfold run. apply (fold_left_inv (fun h : SimulatorHandle G => exists s', h = Some s'));
    [by eexists|].
  intros h a _ [s' ->]. destruct a; cbn [perform AdvanceDay ResetSimulator
    SetRuntimeTuning SetProductConfigs]; try by eexists.
  destruct (negb _); by eexists.
Qed.

(** X18. A reset erases the history: whatever was done to a handle before,
    after [ResetSimulator] with a configuration it behaves, call for call,
    like a handle freshly created with that configuration. *)
Theorem reset_erases_history (c0 c : SimConfig.t) (before after : list Action) :
  run (CreateSimulator (G := G) c0) (before ++ DoReset c :: after)
  = run (CreateSimulator c) after.
Proof.
  rewrite run_app. destruct (run_some (SimulatorImpl.create (ClampConfig c0)) before)
    as [s Hs].
  unfold CreateSimulator at 1. rewrite Hs.
  unfold run. cbn [fold_left perform ResetSimulator]. reflexivity.
Qed.

(** X19. On a handle a client can reach, [SetRuntimeTuning] cannot change the
    structure of the simulation: horizon, shops, catalogue size, seed and
    lead times stay as they are, and so do the day, the products and the
    stock; the three integer tunables are stored clamped. *)
Theorem SetRuntimeTuning_keeps_structure (c : SimConfig.t) (acts : list Action)
    (orderProbability : float) (maxLinesPerOrder minUnitsPerLine maxUnitsPerLine : Z)
    (discountDemandBoost secondsPerDay : float) (pid : Z) :
  let h : SimulatorHandle G := run (CreateSimulator c) acts in
  let h' := SetRuntimeTuning h orderProbability maxLinesPerOrder minUnitsPerLine
              maxUnitsPerLine discountDemandBoost secondsPerDay in
  let cfg := GetConfigCopy h in
  let cfg' := GetConfigCopy h' in
  SimConfig.N cfg' = SimConfig.N cfg /\
  SimConfig.M cfg' = SimConfig.M cfg /\
  SimConfig.K cfg' = SimConfig.K cfg /\
  SimConfig.seed cfg' = SimConfig.seed cfg /\
  SimConfig.supplierLeadTimeMin cfg' = SimConfig.supplierLeadTimeMin cfg /\
  SimConfig.supplierLeadTimeMax cfg' = SimConfig.supplierLeadTimeMax cfg /\
  SimConfig.maxLinesPerOrder cfg' = clampZ maxLinesPerOrder 1 20 /\
  SimConfig.minUnitsPerLine cfg' = Z.max 1 minUnitsPerLine /\
  SimConfig.maxUnitsPerLine cfg' = Z.max (Z.max 1 minUnitsPerLine) maxUnitsPerLine /\
  GetDay h' = GetDay h /\
  GetProductConfigs h' = GetProductConfigs h /\
  GetStockPackages h' pid = GetStockPackages h pid.
Proof.
  cbv zeta. destruct (run_well_formed_state c acts) as (s & -> & Hwf).
  destruct Hwf as (Hcfg & _).
  destruct (ClampConfig_fixed_ranges _ Hcfg) as (HN & HM & HK & _ & _ & Hlo & Hhi).
  unfold SetRuntimeTuning, GetConfigCopy, set_cfg, ClampConfig.
  cbn [SimulatorImpl.cfg SimConfig.N SimConfig.M SimConfig.K SimConfig.seed
       SimConfig.supplierLeadTimeMin SimConfig.supplierLeadTimeMax
       SimConfig.maxLinesPerOrder SimConfig.minUnitsPerLine SimConfig.maxUnitsPerLine
       GetDay GetProductConfigs GetStockPackages SimulatorImpl.day
       SimulatorImpl.products SimulatorImpl.wh].
  rewrite !clampZ_fixed by (rewrite ?clampZ_fixed by lia; lia).
  repeat split.
Qed.

End Resetting.

(** ** The animations of a day *)

Section Animations.
Context {G : Type} `{RandomStream G}.

Lemma supply_anims_types (arrivals : list (Z * Z)) :
  map Anim.type
    (map (fun a : Z * Z => Anim.mk SupplyTruck (F32.lit 2 100) (F32.lit 22 100) (-1) a.2)
         arrivals)
  = replicate (length arrivals) SupplyTruck.
Proof.
  induction arrivals as [|a l IH]; [done|]. cbn [map length replicate Anim.type].
  by rewrite IH.
Qed.

Lemma order_anims_types (orders : list Order.t) :
  forall (anims : list Anim.t) (rng : G),
    map Anim.type (fold_left SimulatorImpl.order_anim orders (anims, rng)).1
    = map Anim.type anims ++ replicate (length orders) OrderPaper.
Proof.
  induction orders as [|o orders IH]; intros anims rng.
  - cbn [fold_left fst length replicate]. by rewrite app_nil_r.
  - cbn [fold_left]. unfold SimulatorImpl.order_anim at 2.
    destruct (RandFloat rng _ _) as [a g1]. destruct (RandFloat g1 _ _) as [b g2].
    rewrite IH, map_app, <- (assoc_L (++)). reflexivity.
Qed.

Lemma shipment_anims_types (count : Z) (due : list Shipment.t) :
  forall (anims : list Anim.t) (idx : Z),
    map Anim.type (fold_left (SimulatorImpl.shipment_anim count) due (anims, idx)).1
    = map Anim.type anims ++ replicate (length due) ShipmentTruck.
Proof.
  induction due as [|sh due IH]; intros anims idx.
  - cbn [fold_left fst length replicate]. by rewrite app_nil_r.
  - cbn [fold_left]. unfold SimulatorImpl.shipment_anim at 2.
    rewrite IH, map_app, <- (assoc_L (++)). reflexivity.
Qed.

(** X20. The animations of a day are one supply truck per arrival, then one
    order paper per order, then a single waste truck if anything was written
    off, then one shipment truck per shipment due, in this order; and a day
    without orders leaves the generator as it was. *)
Theorem BuildDailyAnimations_events (rng : G) (supplierArrivals : list (Z * Z))
    (orders : list Order.t) (shipmentsDueToday : list Shipment.t)
    (writeOffByProduct : list (Z * Z)) :
  let '(anims, rng') :=
    SimulatorImpl.BuildDailyAnimations rng supplierArrivals orders
      shipmentsDueToday writeOffByProduct in
  map Anim.type anims
  = replicate (length supplierArrivals) SupplyTruck ++
    replicate (length orders) OrderPaper ++
    (if 0 <? fold_left (fun n w => add32 n w.2) writeOffByProduct 0
     then [WasteTruck] else []) ++
    replicate (length shipmentsDueToday) ShipmentTruck /\
  match orders with [] => rng' = rng | _ :: _ => True end.
Proof.
  unfold SimulatorImpl.BuildDailyAnimations.
  pose proof (order_anims_types orders
    (map (fun a : Z * Z => Anim.mk SupplyTruck (F32.lit 2 100) (F32.lit 22 100) (-1) a.2)
         supplierArrivals) rng) as Ho.
  assert (Hr : match orders with
               | [] =>
                   (fold_left SimulatorImpl.order_anim orders
                      (map (fun a : Z * Z =>
                              Anim.mk SupplyTruck (F32.lit 2 100) (F32.lit 22 100) (-1) a.2)
                           supplierArrivals, rng)).2 = rng
               | _ :: _ => True
               end) by (by destruct orders).
  destruct (fold_left SimulatorImpl.order_anim orders _) as [anims1 rng1].
  cbn [fst snd] in Ho, Hr. split; [|by destruct orders].
  rewrite shipment_anims_types.
  rewrite supply_anims_types in Ho.
  destruct (0 <? _).
  - rewrite map_app, Ho. cbn [map Anim.type]. by rewrite <- !(assoc_L (++)).
  - rewrite Ho. cbn [app]. by rewrite <- !(assoc_L (++)).
Qed.

End Animations.

(** ** The orders of a day *)

Section Orders.
Context {G : Type} `{RandomStreamLaws G}.

Lemma order_lines_spec (cfg : SimConfig.t) (picked : list Z) :
  forall (rng : G) (lines : list OrderLine.t),
    SimConfig.minUnitsPerLine cfg <= SimConfig.maxUnitsPerLine cfg ->
    let r := fold_left (SimulatorImpl.order_line cfg) picked (rng, lines) in
    map OrderLine.productId r.2 = map OrderLine.productId lines ++ picked /\
    (Forall (fun ln => SimConfig.minUnitsPerLine cfg <= OrderLine.requestedUnits ln
                       <= SimConfig.maxUnitsPerLine cfg) lines ->
     Forall (fun ln => SimConfig.minUnitsPerLine cfg <= OrderLine.requestedUnits ln
                       <= SimConfig.maxUnitsPerLine cfg) r.2).
Proof.
  induction picked as [|pid picked IH]; intros rng lines Hmm; cbv zeta.
  - cbn [fold_left snd]. by rewrite app_nil_r.
  - cbn [fold_left].
    pose proof (uniform_int_range rng _ _ Hmm) as Hr.
    assert (Hstep : SimulatorImpl.order_line cfg (rng, lines) pid
                    = ((RandInt rng (SimConfig.minUnitsPerLine cfg)
                          (SimConfig.maxUnitsPerLine cfg)).2,
                       lines ++ [OrderLine.mk pid
                                   (RandInt rng (SimConfig.minUnitsPerLine cfg)
                                      (SimConfig.maxUnitsPerLine cfg)).1 0 0 0])).
    { unfold SimulatorImpl.order_line. by destruct (RandInt rng _ _). }
    rewrite Hstep. unfold RandInt in *.
    destruct (uniform_int rng _ _) as [units rng']. cbn [fst snd] in *.
    destruct (IH rng' (lines ++ [OrderLine.mk pid units 0 0 0]) Hmm) as [Hp Hq].
    split.
    + rewrite Hp, map_app, <- (assoc_L (++)). reflexivity.
    + intros Hall. apply Hq. apply Forall_app. split; [done|].
      constructor; [cbn [OrderLine.requestedUnits]; lia|constructor].
Qed.

Lemma shop_orders_fresh (cfg : SimConfig.t) (products : list ProductConfig.t)
    (wh : Warehouse.t) (day : Z) (shops : list Z) (acc : G * list Order.t) :
  SimConfig.minUnitsPerLine cfg <= SimConfig.maxUnitsPerLine cfg ->
  Forall (fun s => 0 <= s < SimConfig.M cfg) shops ->
  Forall (fun o => Order.day o = day /\ 0 <= Order.shopId o < SimConfig.M cfg /\
                   NoDup (map OrderLine.productId (Order.lines o)) /\
                   Forall (line_requested cfg) (Order.lines o)) acc.2 ->
  Forall (fun o => Order.day o = day /\ 0 <= Order.shopId o < SimConfig.M cfg /\
                   NoDup (map OrderLine.productId (Order.lines o)) /\
                   Forall (line_requested cfg) (Order.lines o))
         (fold_left (SimulatorImpl.shop_order cfg products wh day) shops acc).2.
Proof.
  intros Hmm Hshops Hacc.
  apply (fold_left_inv (fun a : G * list Order.t =>
           Forall (fun o => Order.day o = day /\
                            0 <= Order.shopId o < SimConfig.M cfg /\
                            NoDup (map OrderLine.productId (Order.lines o)) /\
                            Forall (line_requested cfg) (Order.lines o)) a.2));
    [exact Hacc|].
  intros [rng orders] s Hs Hall. cbn [snd] in Hall.
  rewrite Forall_forall in Hshops. specialize (Hshops s Hs).
  unfold SimulatorImpl.shop_order.
  destruct (RandBernoulli rng _) as [today g1].
  destruct (negb today); [exact Hall|].
  destruct (RandInt g1 _ _) as [lines g2].
  unfold SimulatorImpl.PickDistinctProductsWeighted.
  pose proof (pick_loop_distinct cfg products wh
                (Z.to_nat (Z.min lines (SimConfig.K cfg))) g2
                (seqZ 0 (SimConfig.K cfg)) [] (NoDup_seqZ _ _)) as Hpick.
  cbv zeta in Hpick.
  destruct (SimulatorImpl.pick_loop cfg products wh _ g2 _ []) as [picked g3].
  cbn [fst app] in Hpick. destruct Hpick as (Hnd & Hsub & _).
  assert (Hin : Forall (fun pid => 0 <= pid < SimConfig.K cfg) picked).
  { apply Forall_forall. intros x Hx. apply Hsub, elem_of_seqZ in Hx. lia. }
  destruct (order_lines_spec cfg picked g3 [] Hmm) as [Hp Hq].
  destruct (fold_left (SimulatorImpl.order_line cfg) picked (g3, [])) as [g4 lns].
  cbn [snd map app] in *.
  apply Forall_app. split; [exact Hall|]. constructor; [|constructor].
  cbn [Order.day Order.shopId Order.lines].
  split; [done|]. split; [done|]. split; [by rewrite Hp|].
  specialize (Hq ltac:(constructor)).
  apply Forall_forall. intros ln Hln. split.
  - rewrite Forall_forall in Hin. apply Hin. rewrite <- Hp.
    by apply (list_elem_of_fmap_2 OrderLine.productId).
  - rewrite Forall_forall in Hq. by apply Hq.
Qed.

End Orders.

Section Serving.
Context {G : Type} `{RandomStream G}.

Lemma FulfillLine_line wh ln pc (rng : G) st :
  let ln' := (Warehouse.FulfillLine wh ln pc rng st).1.1.2 in
  OrderLine.productId ln' = OrderLine.productId ln /\
  OrderLine.requestedUnits ln' = OrderLine.requestedUnits ln /\
  (0 < OrderLine.requestedUnits ln /\ 0 < ProductConfig.unitsPerPackage pc ->
   OrderLine.deliveredPackages ln' <= OrderLine.chosenPackages ln' /\
   OrderLine.deliveredUnits ln'
   = mul32 (OrderLine.deliveredPackages ln') (ProductConfig.unitsPerPackage pc)).
Proof.
  cbv zeta. unfold Warehouse.FulfillLine.
  destruct (Z.leb_spec (OrderLine.requestedUnits ln) 0);
    [cbn [fst snd]; repeat split; lia|].
  destruct (Z.leb_spec (ProductConfig.unitsPerPackage pc) 0);
    [cbn [fst snd]; repeat split; lia|].
  destruct (Warehouse.choose_packages _ _ _) as [chosen rng'].
  destruct (Warehouse.drain _ _ _ _) as [dq st'].
  cbn [fst snd OrderLine.productId OrderLine.requestedUnits
       OrderLine.deliveredPackages OrderLine.chosenPackages OrderLine.deliveredUnits].
  repeat split. lia.
Qed.

Lemma fulfil_lines_spec (products : list ProductConfig.t) (lines : list OrderLine.t) :
  forall acc : Warehouse.t * G * DayStats.t * list OrderLine.t * list (Z * Z),
    exists new,
      (fold_left (SimulatorImpl.fulfil_line products) lines acc).1.2 = acc.1.2 ++ new /\
      Forall2 (fun ln ln' =>
                 OrderLine.productId ln' = OrderLine.productId ln /\
                 OrderLine.requestedUnits ln' = OrderLine.requestedUnits ln /\
                 (0 < OrderLine.requestedUnits ln /\
                  0 < ProductConfig.unitsPerPackage
                        (product_at products (OrderLine.productId ln)) ->
                  line_served products ln'))
              lines new.
Proof.
  induction lines as [|ln lines IH]; intros acc.
  - exists []. cbn [fold_left]. split; [by rewrite app_nil_r|constructor].
  - cbn [fold_left]. destruct acc as [[[[wh rng] st] done] items].
    unfold SimulatorImpl.fulfil_line at 2.
    pose proof (FulfillLine_line wh ln
                  (product_at products (OrderLine.productId ln)) rng st) as Hl.
    cbv zeta in Hl.
    destruct (Warehouse.FulfillLine _ _ _ _ _) as [[[wh' ln'] rng'] st'].
    cbn [fst snd] in Hl. destruct Hl as (Hp & Hr & Hs).
    match goal with |- context [fold_left _ lines ?a] => destruct (IH a) as (new & E & F) end.
    cbn [fst snd] in E. exists (ln' :: new). split.
    + rewrite E, <- (assoc_L (++)). reflexivity.
    + constructor; [|exact F]. split; [done|]. split; [done|].
      intros Hpos. unfold line_served. rewrite Hp. by apply Hs.
Qed.

Lemma fulfil_orders_spec (products : list ProductConfig.t) (day : Z)
    (orders : list Order.t) :
  forall acc : Warehouse.t * G * DayStats.t * list Order.t * list Shipment.t,
    exists new,
      (fold_left (SimulatorImpl.fulfil_order products day) orders acc).1.2
      = acc.1.2 ++ new /\
      Forall2 (fun o o' =>
                 Order.day o' = Order.day o /\ Order.shopId o' = Order.shopId o /\
                 Forall2 (fun ln ln' =>
                            OrderLine.productId ln' = OrderLine.productId ln /\
                            OrderLine.requestedUnits ln' = OrderLine.requestedUnits ln /\
                            (0 < OrderLine.requestedUnits ln /\
                             0 < ProductConfig.unitsPerPackage
                                   (product_at products (OrderLine.productId ln)) ->
                             line_served products ln'))
                         (Order.lines o) (Order.lines o'))
              orders new.
Proof.
  induction orders as [|o orders IH]; intros acc.
  - exists []. cbn [fold_left]. split; [by rewrite app_nil_r|constructor].
  - cbn [fold_left]. destruct acc as [[[[wh rng] st] done] ships].
    unfold SimulatorImpl.fulfil_order at 2.
    destruct (fulfil_lines_spec products (Order.lines o) (wh, rng, st, [], []))
      as (lines' & E & F).
    destruct (fold_left (SimulatorImpl.fulfil_line products) _ _)
      as [[[[wh' rng'] st'] lines] items].
    cbn [fst snd app] in E. subst lines.
    match goal with |- context [fold_left _ orders ?a] => destruct (IH a) as (new & E & F') end.
    cbn [fst snd] in E.
    exists (Order.mk (Order.day o) (Order.shopId o) lines' :: new). split.
    + rewrite E, <- (assoc_L (++)). reflexivity.
    + constructor; [|exact F']. cbn [Order.day Order.shopId Order.lines]. by repeat split.
Qed.

End Serving.

Lemma served_lines (cfg : SimConfig.t) (products : list ProductConfig.t)
    (lines lines' : list OrderLine.t) :
  1 <= SimConfig.minUnitsPerLine cfg ->
  (forall pid, 0 < ProductConfig.unitsPerPackage (product_at products pid)) ->
  Forall2 (fun ln ln' =>
             OrderLine.productId ln' = OrderLine.productId ln /\
             OrderLine.requestedUnits ln' = OrderLine.requestedUnits ln /\
             (0 < OrderLine.requestedUnits ln /\
              0 < ProductConfig.unitsPerPackage
                    (product_at products (OrderLine.productId ln)) ->
              line_served products ln'))
          lines lines' ->
  Forall (line_requested cfg) lines ->
  map OrderLine.productId lines' = map OrderLine.productId lines /\
  Forall (line_requested cfg) lines' /\
  Forall (line_served products) lines'.
Proof.
  intros Hmin Hupp. induction 1 as [|ln ln' lines lines' (Hp & Hr & Hs) _ IH];
    intros Hreq; [by repeat split|].
  inversion Hreq as [|? ? [Hpid Hunits] Hrest]; subst.
  destruct (IH Hrest) as (E & Q & S). cbn [map]. split; [by rewrite Hp, E|].
  split; constructor; try assumption.
  - unfold line_requested. rewrite Hp, Hr. by split.
  - apply Hs. split; [lia|apply Hupp].
Qed.

Lemma served_orders (cfg : SimConfig.t) (products : list ProductConfig.t) (day : Z)
    (orders orders' : list Order.t) :
  1 <= SimConfig.minUnitsPerLine cfg ->
  (forall pid, 0 < ProductConfig.unitsPerPackage (product_at products pid)) ->
  Forall2 (fun o o' =>
             Order.day o' = Order.day o /\ Order.shopId o' = Order.shopId o /\
             Forall2 (fun ln ln' =>
                        OrderLine.productId ln' = OrderLine.productId ln /\
                        OrderLine.requestedUnits ln' = OrderLine.requestedUnits ln /\
                        (0 < OrderLine.requestedUnits ln /\
                         0 < ProductConfig.unitsPerPackage
                               (product_at products (OrderLine.productId ln)) ->
                         line_served products ln'))
                     (Order.lines o) (Order.lines o'))
          orders orders' ->
  Forall (fun o => Order.day o = day /\ 0 <= Order.shopId o < SimConfig.M cfg /\
                   NoDup (map OrderLine.productId (Order.lines o)) /\
                   Forall (line_requested cfg) (Order.lines o)) orders ->
  Forall (order_ok cfg products day) orders'.
Proof.
  intros Hmin Hupp. induction 1 as [|o o' os os' (Ed & Es & Fl) _ IH];
    intros Hfresh; [by apply Forall_nil|].
  inversion Hfresh as [|? ? (Hod & Hos & Hnd & Hrq) Hrest]; subst.
  constructor; [|by apply IH].
  destruct (served_lines cfg products _ _ Hmin Hupp Fl Hrq) as (Ep & Q & S).
  unfold order_ok. rewrite Ed, Es, Ep.
  split; [done|]. split; [done|]. split; [done|]. by split.
Qed.

Section DayOrders.
Context {G : Type} `{RandomStreamLaws G}.

(** X21. On a handle a client can reach and a day that is simulated (generator
    within the range contract), the orders [AdvanceDay] leaves are all of
    the new day and of shops that exist; within an order no product occurs
    twice and every line asks for a product of the catalogue and a number
    of units within the configured bounds; every line delivers no more
    packages than it chose, and its delivered units are its delivered
    packages times the package size of its product. *)
Theorem AdvanceDay_orders (c : SimConfig.t) (acts : list Action) :
  let h : SimulatorHandle G := run (CreateSimulator c) acts in
  simulates_a_day h = true ->
  match AdvanceDay h with
  | Some s' =>
      Forall (order_ok (SimulatorImpl.cfg s') (SimulatorImpl.products s')
                       (SimulatorImpl.day s'))
             (SimulatorImpl.todaysOrders s')
  | None => False
  end.
Proof.
  cbv zeta. destruct (run_well_formed_state c acts) as (s & -> & Hwf).
  cbn [simulates_a_day AdvanceDay]. intros Hsim. apply Z.ltb_lt in Hsim.
  destruct Hwf as (Hcfg & Hd & Hlp & Hlw & Hls & Hfix & Hlog).
  destruct (ClampConfig_fixed_ranges _ Hcfg) as (HN & HM & HK & _ & Hunits & _).
  destruct (AdvanceDay_phases s Hsim)
    as (log0 & wh1 & log1 & wh3 & today3 & wos & log3 & wh4 & log4 & rng5 & orders5
        & wh6 & rng6 & today6 & orders6 & ships6 & shipments & log7 & s1
        & E1 & E3 & E4 & E5 & E6 & Es1 & Hc & Hday & _ & Hp & _ & _ & _ & Ho & _).
  cbv zeta in *.
  match type of Es1 with _ = fold_left _ ?pids ?s0 =>
    destruct (supplier_requests_frame pids s0) as (_ & _ & _ & F4 & _ & _ & F7)
  end.
  cbv zeta in F4, F7. rewrite <- Es1 in F4, F7.
  cbn [SimulatorImpl.products SimulatorImpl.todaysOrders] in F4, F7.
  rewrite Ho, F7, Hp, F4, Hc, Hday.
  set (products := map ClampProduct (SimulatorImpl.products s)) in *.
  set (day := add32 (SimulatorImpl.day s) 1) in *.
  assert (Hupp : forall pid,
            0 < ProductConfig.unitsPerPackage (product_at products pid)).
  { intros pid.
    apply (product_at_Forall (fun p => 0 < ProductConfig.unitsPerPackage p)).
    - unfold products. apply Forall_fmap, Forall_forall. intros p _.
      pose proof (ClampProduct_ranges p) as Hr. cbv zeta in Hr.
      change (0 < ProductConfig.unitsPerPackage (ClampProduct p)). lia.
    - cbn. lia. }
  pose proof (shop_orders_fresh (SimulatorImpl.cfg s) products wh4 day
                (seqZ 0 (SimConfig.M (SimulatorImpl.cfg s)))
                (SimulatorImpl.rng s, []) ltac:(lia)) as Hfresh.
  rewrite E5 in Hfresh. cbn [snd] in Hfresh.
  specialize (Hfresh
    ltac:(apply Forall_forall; intros x Hx; apply elem_of_seqZ in Hx; lia)
    ltac:(constructor)).
  destruct (fulfil_orders_spec products day orders5 (wh4, rng5, today3, [], []))
    as (new & E & F).
  rewrite E6 in E. cbn [fst snd app] in E. subst new.
  by apply (served_orders (SimulatorImpl.cfg s) products day orders5 orders6);
    [lia| | |].
Qed.

End DayOrders.

Lemma AdvanceDay_orders_witness :
  match AdvanceDay (run (CreateSimulator (G := Z) SimConfig.default) []) with
  | Some s' =>
      Forall (order_ok (SimulatorImpl.cfg s') (SimulatorImpl.products s')
                       (SimulatorImpl.day s'))
             (SimulatorImpl.todaysOrders s')
  | None => False
  end.
Proof.
  apply (@AdvanceDay_orders Z lcg_stream lcg_laws SimConfig.default []).
  vm_compute. reflexivity.
Defined.

(** ** The units sold on a day *)

Lemma filter_map_comm {A B} (p : B -> bool) (g : A -> B) (l : list A) :
  List.filter p (map g l) = map g (List.filter (fun x => p (g x)) l).
Proof.
  induction l as [|x l IH]; [done|]. cbn [map List.filter].
  destruct (p (g x)); cbn [map]; by rewrite IH.
Qed.

Lemma rows_units (orders : list Order.t) :
  map OrderRow.deliveredUnits
    (List.filter (fun r => 0 <? OrderRow.deliveredPackages r)
                 (concat (map order_rows orders)))
  = flat_map (fun o => map OrderLine.deliveredUnits
                         (List.filter (fun ln => 0 <? OrderLine.deliveredPackages ln)
                                      (Order.lines o)))
             orders.
Proof.
  induction orders as [|o orders IH]; [done|].
  cbn [map concat flat_map]. rewrite List.filter_app, map_app, IH. f_equal.
  unfold order_rows. rewrite filter_map_comm, map_map. reflexivity.
Qed.

Section Sold.
Context {G : Type} `{RandomStream G}.

Lemma write_offs_sold (products : list ProductConfig.t) (pids : list Z)
    (acc : Warehouse.t * DayStats.t * list (Z * Z) * list string) :
  DayStats.totalSoldUnits
    (fold_left (SimulatorImpl.write_off_product products) pids acc).1.1.2
  = DayStats.totalSoldUnits acc.1.1.2.
Proof.
  apply (fold_left_inv
           (fun a : Warehouse.t * DayStats.t * list (Z * Z) * list string =>
              DayStats.totalSoldUnits a.1.1.2 = DayStats.totalSoldUnits acc.1.1.2));
    [done|].
  intros [[[wh st] wos] log] pid _ Ha. cbn [fst snd] in Ha.
  unfold SimulatorImpl.write_off_product, Warehouse.WriteOffExpired.
  destruct (negb _); cbn [fst snd].
  - destruct (0 <? 0); exact Ha.
  - destruct (Warehouse.pop_expired _ _) as [n dq].
    assert (DayStats.totalSoldUnits
              (Warehouse.book_write_off (product_at products pid) st n)
            = DayStats.totalSoldUnits st)
      by (unfold Warehouse.book_write_off; by destruct (0 <? n)).
    destruct (0 <? n); cbn [fst snd]; congruence.
Qed.

Lemma fulfil_lines_sold (products : list ProductConfig.t) (lines : list OrderLine.t) :
  (forall pid, 0 < ProductConfig.unitsPerPackage (product_at products pid)) ->
  Forall (fun ln => 0 < OrderLine.requestedUnits ln) lines ->
  forall acc : Warehouse.t * G * DayStats.t * list OrderLine.t * list (Z * Z),
    (forall q, positive_batches (Warehouse.queue acc.1.1.1.1 q) /\
               packages_of (Warehouse.queue acc.1.1.1.1 q) <= 5000) ->
    let r := fold_left (SimulatorImpl.fulfil_line products) lines acc in
    exists new,
      r.1.2 = acc.1.2 ++ new /\
      DayStats.totalSoldUnits r.1.1.2
      = fold_left add32
          (map OrderLine.deliveredUnits
             (List.filter (fun ln => 0 <? OrderLine.deliveredPackages ln) new))
          (DayStats.totalSoldUnits acc.1.1.2) /\
      (forall q, positive_batches (Warehouse.queue r.1.1.1.1 q) /\
                 packages_of (Warehouse.queue r.1.1.1.1 q) <= 5000).
Proof.
  intros Hupp. induction 1 as [|ln lines Hreq _ IH]; intros acc Hinv; cbv zeta.
  - exists []. cbn [fold_left]. split; [by rewrite app_nil_r|]. by split.
  - cbn [fold_left]. destruct acc as [[[[wh rng] st] done] items].
    cbn [fst snd] in Hinv.
    destruct (Hinv (OrderLine.productId ln)) as [Pq Sq].
    pose proof (FulfillLine_sold wh ln
                  (product_at products (OrderLine.productId ln)) rng st Hreq
                  (Hupp _) Pq Sq) as Hsold.
    cbv zeta in Hsold.
    pose proof (FulfillLine_shrinks wh ln
                  (product_at products (OrderLine.productId ln)) rng st) as Hs.
    destruct (SimulatorImpl.fulfil_line products (wh, rng, st, done, items) ln)
      as [[[[wh1 rng1] st1] done1] items1] eqn:Estep.
    unfold SimulatorImpl.fulfil_line in Estep.
    destruct (Warehouse.FulfillLine _ _ _ _ _) as [[[wh' ln'] rng'] st'].
    injection Estep as <- <- <- <- <-.
    cbn [fst snd] in Hs, Hsold.
    match goal with |- context [fold_left _ lines ?a] =>
      destruct (IH a) as (new & E & S & I)
    end.
    { intros q. cbn [fst]. destruct (Hinv q) as [P Sm].
      destruct (Hs q P Sm). split; [done|lia]. }
    cbn [fst snd] in E, S, I. exists (ln' :: new). split; [|split; [|exact I]].
    + cbn [fst snd]. rewrite E, <- (assoc_L (++)). reflexivity.
    + cbn [fst snd]. rewrite S, Hsold. cbn [List.filter].
      by destruct (0 <? OrderLine.deliveredPackages ln').
Qed.

Lemma fulfil_orders_sold (products : list ProductConfig.t) (day : Z)
    (orders : list Order.t) :
  (forall pid, 0 < ProductConfig.unitsPerPackage (product_at products pid)) ->
  Forall (fun o => Forall (fun ln => 0 < OrderLine.requestedUnits ln) (Order.lines o))
         orders ->
  forall acc : Warehouse.t * G * DayStats.t * list Order.t * list Shipment.t,
    (forall q, positive_batches (Warehouse.queue acc.1.1.1.1 q) /\
               packages_of (Warehouse.queue acc.1.1.1.1 q) <= 5000) ->
    let r := fold_left (SimulatorImpl.fulfil_order products day) orders acc in
    exists new,
      r.1.2 = acc.1.2 ++ new /\
      DayStats.totalSoldUnits r.1.1.2
      = fold_left add32
          (flat_map (fun o => map OrderLine.deliveredUnits
                                (List.filter
                                   (fun ln => 0 <? OrderLine.deliveredPackages ln)
                                   (Order.lines o)))
                    new)
          (DayStats.totalSoldUnits acc.1.1.2) /\
      (forall q, positive_batches (Warehouse.queue r.1.1.1.1 q) /\
                 packages_of (Warehouse.queue r.1.1.1.1 q) <= 5000).
Proof.
  intros Hupp. induction 1 as [|o orders Hreq _ IH]; intros acc Hinv; cbv zeta.
  - exists []. cbn [fold_left]. split; [by rewrite app_nil_r|]. by split.
  - cbn [fold_left]. destruct acc as [[[[wh rng] st] done] ships].
    cbn [fst snd] in Hinv.
    destruct (fulfil_lines_sold products (Order.lines o) Hupp Hreq
                (wh, rng, st, [], []) Hinv) as (lines' & E & S & I).
    destruct (SimulatorImpl.fulfil_order products day (wh, rng, st, done, ships) o)
      as [[[[wh1 rng1] st1] done1] ships1] eqn:Estep.
    unfold SimulatorImpl.fulfil_order in Estep.
    destruct (fold_left (SimulatorImpl.fulfil_line products) _ _)
      as [[[[wh' rng'] st'] lines] items].
    injection Estep as <- <- <- <- <-.
    cbn [fst snd app] in E, S, I. subst lines.
    match goal with |- context [fold_left _ orders ?a] =>
      destruct (IH a I) as (new & E' & S' & I')
    end.
    cbn [fst snd] in E', S', I'.
    exists (Order.mk (Order.day o) (Order.shopId o) lines' :: new).
    split; [|split; [|exact I']].
    + cbn [fst snd]. rewrite E', <- (assoc_L (++)). reflexivity.
    + cbn [fst snd flat_map Order.lines]. rewrite S', S, fold_left_app. reflexivity.
Qed.

End Sold.

Section DaySold.
Context {G : Type} `{RandomStreamLaws G}.

(** X22. On a handle a client can reach and a day that is simulated (generator
    within the range contract), the units sold that [GetTodaysStats]
    reports are exactly the delivered units of the day's order rows that
    delivered at least one package, summed in [int] arithmetic in row
    order. *)
Theorem sold_units_match_rows (c : SimConfig.t) (acts : list Action) :
  let h : SimulatorHandle G := run (CreateSimulator c) acts in
  simulates_a_day h = true ->
  DayStats.totalSoldUnits (GetTodaysStats (AdvanceDay h))
  = fold_left add32
      (map OrderRow.deliveredUnits
         (List.filter (fun r => 0 <? OrderRow.deliveredPackages r)
                      (GetTodaysOrderRows (AdvanceDay h))))
      0.
Proof.
  cbv zeta. destruct (run_stocked_state c acts) as (s & -> & Hwf & Hst).
  cbn [simulates_a_day AdvanceDay GetTodaysStats GetTodaysOrderRows].
  intros Hsim. apply Z.ltb_lt in Hsim.
  destruct Hwf as (Hcfg & Hd & Hlp & Hlw & Hls & Hfix & Hlog).
  destruct (ClampConfig_fixed_ranges _ Hcfg) as (HN & HM & HK & _ & Hunits & _).
  destruct (AdvanceDay_phases s Hsim)
    as (log0 & wh1 & log1 & wh3 & today3 & wos & log3 & wh4 & log4 & rng5 & orders5
        & wh6 & rng6 & today6 & orders6 & ships6 & shipments & log7 & s1
        & E1 & E3 & E4 & E5 & E6 & Es1 & _ & _ & _ & _ & _ & _ & _ & Ho & Ht & _).
  cbv zeta in *.
  pose proof (stock_before_orders s log0 wh1 log1 wh3 today3 wos log3 wh4 log4
                Hst E1 E3 E4) as Hq4. cbv zeta in Hq4.
  match type of Es1 with _ = fold_left _ ?pids ?s0 =>
    destruct (supplier_requests_frame pids s0) as (_ & _ & _ & _ & _ & _ & F7);
    destruct (supplier_requests_stats s0 pids) as [Fs _]
  end.
  cbv zeta in F7. rewrite <- Es1 in F7, Fs.
  cbn [SimulatorImpl.todaysOrders SimulatorImpl.todaysStats] in F7, Fs.
  rewrite Ho, F7, Ht, Fs, rows_units.
  set (products := map ClampProduct (SimulatorImpl.products s)) in *.
  set (day := add32 (SimulatorImpl.day s) 1) in *.
  assert (Hupp : forall pid,
            0 < ProductConfig.unitsPerPackage (product_at products pid)).
  { intros pid.
    apply (product_at_Forall (fun p => 0 < ProductConfig.unitsPerPackage p)).
    - unfold products. apply Forall_fmap, Forall_forall. intros p _.
      pose proof (ClampProduct_ranges p) as Hr. cbv zeta in Hr.
      change (0 < ProductConfig.unitsPerPackage (ClampProduct p)). lia.
    - cbn. lia. }
  pose proof (shop_orders_fresh (SimulatorImpl.cfg s) products wh4 day
                (seqZ 0 (SimConfig.M (SimulatorImpl.cfg s)))
                (SimulatorImpl.rng s, []) ltac:(lia)) as Hfresh.
  rewrite E5 in Hfresh. cbn [snd] in Hfresh.
  specialize (Hfresh
    ltac:(apply Forall_forall; intros x Hx; apply elem_of_seqZ in Hx; lia)
    ltac:(constructor)).
  assert (Hreq : Forall (fun o => Forall (fun ln => 0 < OrderLine.requestedUnits ln)
                                         (Order.lines o)) orders5).
  { eapply Forall_impl; [exact Hfresh|]. intros o (_ & _ & _ & Hl).
    eapply Forall_impl; [exact Hl|]. intros ln [_ Hu]. lia. }
  destruct (fulfil_orders_sold products day orders5 Hupp Hreq
              (wh4, rng5, today3, [], [])) as (new & E & S & _).
  { intros q. cbn [fst]. destruct (Hq4 q) as (P & I & Sm). split; [done|lia]. }
  rewrite E6 in E, S. cbn [fst snd app] in E, S. subst new. rewrite S.
  f_equal.
  pose proof (write_offs_sold products (seqZ 0 (SimConfig.K (SimulatorImpl.cfg s)))
                (Warehouse.DecrementShelfLife wh1, DayStats.zero, [], log1)) as Hw.
  rewrite E3 in Hw. exact Hw.
Qed.

End DaySold.

Lemma sold_units_match_rows_witness :
  DayStats.totalSoldUnits
    (GetTodaysStats (AdvanceDay (run (CreateSimulator (G := Z) SimConfig.default) [])))
  = fold_left add32
      (map OrderRow.deliveredUnits
         (List.filter (fun r => 0 <? OrderRow.deliveredPackages r)
                      (GetTodaysOrderRows
                         (AdvanceDay (run (CreateSimulator (G := Z) SimConfig.default)
                                          [])))))
      0.
Proof.
  apply (@sold_units_match_rows Z lcg_stream lcg_laws SimConfig.default []).
  vm_compute. reflexivity.
Defined.

(** ** First in, first out *)

Lemma drain_fifo (pc : ProductConfig.t) (dq : list Batch.t) :
  forall (remaining : Z) (st : DayStats.t),
    let r := (Warehouse.drain pc remaining dq st).1 in
    exists k : nat,
      map (fun b => (Batch.daysLeft b, Batch.discounted b, Batch.unitPrice b)) r
      = drop k (map (fun b => (Batch.daysLeft b, Batch.discounted b, Batch.unitPrice b))
                    dq) /\
      tail r = drop (S k) dq.
Proof.
  induction dq as [|b dq IH]; intros remaining st; cbv zeta; cbn [Warehouse.drain].
  - exists 0%nat. by split.
  - destruct (0 <? remaining); [|exists 0%nat; cbn [fst drop tail]; by rewrite drop_0].
    destruct (_ =? 0).
    + destruct (IH (sub32 remaining (Z.min remaining (Batch.packages b)))
                  (Warehouse.book_sale pc b (Z.min remaining (Batch.packages b)) st))
        as (k & Hm & Ht).
      exists (S k). by split.
    + exists 0%nat. cbn [fst drop tail map Batch.daysLeft Batch.discounted
                           Batch.unitPrice]. by rewrite drop_0.
Qed.

Section Fifo.
Context {G : Type} `{RandomStream G}.

(** X23. [FulfillLine] serves first in, first out: what is left of the
    product's queue is the old queue without some of its oldest batches,
    every remaining batch keeps its days left, discount flag and price, and
    only the first remaining batch can hold fewer packages than before. *)
Theorem FulfillLine_fifo (wh : Warehouse.t) (line : OrderLine.t)
    (pc : ProductConfig.t) (rng : G) (st : DayStats.t) :
  let wh' := (Warehouse.FulfillLine wh line pc rng st).1.1.1 in
  let pid := OrderLine.productId line in
  exists k : nat,
    map (fun b => (Batch.daysLeft b, Batch.discounted b, Batch.unitPrice b))
        (Warehouse.queue wh' pid)
    = drop k (map (fun b => (Batch.daysLeft b, Batch.discounted b, Batch.unitPrice b))
                  (Warehouse.queue wh pid)) /\
    tail (Warehouse.queue wh' pid) = drop (S k) (Warehouse.queue wh pid).
Proof.
  cbv zeta. unfold Warehouse.FulfillLine.
  assert (Hsame : exists k : nat,
    map (fun b => (Batch.daysLeft b, Batch.discounted b, Batch.unitPrice b))
        (Warehouse.queue wh (OrderLine.productId line))
    = drop k (map (fun b => (Batch.daysLeft b, Batch.discounted b, Batch.unitPrice b))
                  (Warehouse.queue wh (OrderLine.productId line))) /\
    tail (Warehouse.queue wh (OrderLine.productId line))
    = drop (S k) (Warehouse.queue wh (OrderLine.productId line))).
  { exists 0%nat. split; [by rewrite drop_0|].
    destruct (Warehouse.queue wh _); cbn [tail drop]; by rewrite ?drop_0. }
  destruct (_ <=? 0); [exact Hsame|]. destruct (_ <=? 0); [exact Hsame|].
  destruct (Warehouse.choose_packages _ _ _) as [chosen rng'].
  pose proof (drain_fifo pc (Warehouse.queue wh (OrderLine.productId line))
                (Z.min chosen (Warehouse.TotalPackages wh (OrderLine.productId line)))
                st) as Hd.
  cbv zeta in Hd.
  destruct (Warehouse.drain _ _ _ _) as [dq st']. cbn [fst] in *.
  destruct (Warehouse.valid_pid wh (OrderLine.productId line)) eqn:Hv.
  - by rewrite queue_set_queue.
  - unfold Warehouse.set_queue. rewrite Hv. exact Hsame.
Qed.

End Fifo.

(** ** The generated catalogue *)

Lemma product_name_base (i : nat) :
  (i < 20)%nat -> Some (SimulatorImpl.product_name (Z.of_nat i))
                  = SimulatorImpl.baseNames !! i.
Proof.
  intros Hi. unfold SimulatorImpl.product_name.
  change (Z.of_nat (length SimulatorImpl.baseNames)) with 20.
  destruct (Z.ltb_spec (Z.of_nat i) 20); [|lia]. rewrite Nat2Z.id.
  destruct (lookup_lt_is_Some_2 SimulatorImpl.baseNames i) as [x Hx];
    [cbn [SimulatorImpl.baseNames length]; lia|].
  by rewrite Hx.
Qed.

Section Catalogue.
Context {G : Type} `{RandomStreamLaws G}.

Lemma init_product_entry (i : Z) (rng : G) (products : list ProductConfig.t)
    (wh : Warehouse.t) :
  exists p,
    (SimulatorImpl.init_product i (rng, products, wh)).1.2
    = <[Z.to_nat i := p]> products /\
    generated_product p /\ ProductConfig.name p = SimulatorImpl.product_name i.
Proof.
  unfold SimulatorImpl.init_product.
  pose proof (uniform_int_range rng 6 24 ltac:(lia)) as Hu.
  unfold RandInt. destruct (uniform_int rng 6 24) as [upp g1].
  pose proof (uniform_int_range g1 18 40 ltac:(lia)) as Hc.
  destruct (uniform_int g1 18 40) as [cap g2].
  pose proof (uniform_int_range g2 7 25 ltac:(lia)) as Hl.
  destruct (uniform_int g2 7 25) as [life g3].
  destruct (RandFloat g3 _ _) as [price g4].
  destruct (RandFloat g4 _ _) as [share g5].
  cbn [fst snd] in *. eexists. split; [reflexivity|].
  assert (Hq5 : 1 <= Z.quot life 5 <= 5)
    by (rewrite Z.quot_div_nonneg by lia; split;
        [apply Z.div_le_lower_bound|apply Z.div_le_upper_bound]; lia).
  assert (Hc5 : 0 <= Z.quot cap 5 <= cap)
    by (rewrite Z.quot_div_nonneg by lia; split;
        [apply Z.div_pos|apply Z.div_le_upper_bound]; lia).
  assert (Hc2 : 0 <= Z.quot cap 2 <= cap)
    by (rewrite Z.quot_div_nonneg by lia; split;
        [apply Z.div_pos|apply Z.div_le_upper_bound]; lia).
  unfold generated_product, ClampProduct.
  cbn [ProductConfig.name ProductConfig.unitName
    ProductConfig.unitsPerPackage ProductConfig.capacityPackages
    ProductConfig.shelfLifeDays ProductConfig.discountBeforeDays
    ProductConfig.basePricePerUnit ProductConfig.discountPercent
    ProductConfig.reorderThreshold ProductConfig.reorderAmount].
  rewrite !clampZ_fixed by (rewrite ?clampZ_fixed by lia; lia).
  split; [|reflexivity].
  split; [reflexivity|]. split; [lia|]. split; [lia|]. split; [lia|].
  split; [reflexivity|]. split; [by vm_compute|]. by split.
Qed.

Lemma init_products_entries (cfg : SimConfig.t) (n : nat) :
  Z.of_nat n <= SimConfig.K cfg ->
  let acc := SimulatorImpl.init_products cfg (Z.of_nat n) in
  length acc.1.2 = Z.to_nat (SimConfig.K cfg) /\
  forall (i : nat) p, (i < n)%nat -> acc.1.2 !! i = Some p ->
    generated_product p /\ ProductConfig.name p = SimulatorImpl.product_name (Z.of_nat i).
Proof.
  induction n as [|n IH]; intros Hn; cbv zeta.
  - split; [|intros; lia]. unfold SimulatorImpl.init_products.
    change (seqZ 0 (Z.of_nat 0)) with (@nil Z). cbn [fold_left fst snd].
    apply length_replicate.
  - specialize (IH ltac:(lia)). cbv zeta in IH.
    unfold SimulatorImpl.init_products in *.
    rewrite Nat2Z.inj_succ, <- Z.add_1_r, seqZ_app by lia.
    rewrite fold_left_app.
    change (seqZ (0 + Z.of_nat n) 1) with [Z.of_nat n]. cbn [fold_left].
    match goal with
    | |- context [SimulatorImpl.init_product _ ?a] => destruct a as [[rng products] wh]
    end.
    cbn [fst snd] in IH. destruct IH as [Hlen Hent].
    destruct (init_product_entry (Z.of_nat n) rng products wh) as (p & -> & Hp & Hname).
    rewrite Nat2Z.id. split; [by rewrite length_insert|].
    intros i q Hi Hq. destruct (Nat.eq_dec i n) as [->|Hne].
    + rewrite list_lookup_insert_eq in Hq by lia. by injection Hq as <-.
    + rewrite list_lookup_insert_ne in Hq by lia. apply Hent; [lia|done].
Qed.

(** X24. A fresh simulator (generator within the range contract) has a
    catalogue of generated products: package sizes in 6..24, capacities in
    18..40, shelf lives in 7..25, the discount window, reorder threshold and
    reorder amount derived from them as [Reset] computes them, a discount
    of 25 percent; and the names are the first [K] base names, so the
    numbered fallback name is never used. *)
Theorem CreateSimulator_catalogue (c : SimConfig.t) :
  let h : SimulatorHandle G := CreateSimulator c in
  Forall generated_product (GetProductConfigs h) /\
  map ProductConfig.name (GetProductConfigs h)
  = take (Z.to_nat (SimConfig.K (GetConfigCopy h))) SimulatorImpl.baseNames.
Proof.
  cbv zeta. unfold CreateSimulator, SimulatorImpl.create.
  pose proof (ClampConfig_ranges (ClampConfig c)) as Hr. cbv zeta in Hr.
  destruct Hr as (_ & _ & HK & _).
  pose proof (init_products_entries (ClampConfig (ClampConfig c))
                (Z.to_nat (SimConfig.K (ClampConfig (ClampConfig c))))) as He.
  rewrite Z2Nat.id in He by lia. specialize (He ltac:(lia)). cbv zeta in He.
  unfold SimulatorImpl.Reset. cbv zeta.
  destruct (SimulatorImpl.init_products _ _) as [[rng products] wh].
  cbn [fst snd GetProductConfigs GetConfigCopy SimulatorImpl.products SimulatorImpl.cfg]
    in *.
  destruct He as [Hlen Hent].
  set (K := SimConfig.K (ClampConfig (ClampConfig c))) in *.
  split.
  - apply Forall_lookup. intros i p Hp. apply (Hent i p); [|done].
    apply lookup_lt_Some in Hp. lia.
  - apply list_eq. intros i.
    change (map ProductConfig.name products) with (ProductConfig.name <$> products).
    rewrite list_lookup_fmap.
    destruct (lt_dec i (Z.to_nat K)) as [Hi|Hi].
    + rewrite lookup_take_lt by lia.
      destruct (lookup_lt_is_Some_2 products i ltac:(lia)) as [p Hp].
      rewrite Hp. cbn [fmap option_fmap option_map].
      destruct (Hent i p Hi Hp) as [_ ->]. apply product_name_base. lia.
    + rewrite lookup_take_ge by lia.
      rewrite (lookup_ge_None_2 products i) by lia. reflexivity.
Qed.

End Catalogue.

Lemma CreateSimulator_catalogue_witness :
  Forall generated_product
    (GetProductConfigs (CreateSimulator (G := Z) SimConfig.default)).
Proof.
  exact (proj1 (@CreateSimulator_catalogue Z lcg_stream lcg_laws SimConfig.default)).
Defined.

(** ** Shipments *)

Lemma shipment_trucks_app (l l' : list Anim.t) :
  shipment_trucks (l ++ l') = shipment_trucks l ++ shipment_trucks l'.
Proof. unfold shipment_trucks. by rewrite List.filter_app, map_app. Qed.

Lemma items_total (lines : list OrderLine.t) (a : Z) :
  fold_left (fun n (it : Z * Z) => add32 n it.2)
    (map (fun ln => (OrderLine.productId ln, OrderLine.deliveredPackages ln)) lines) a
  = fold_left add32 (map OrderLine.deliveredPackages lines) a.
Proof.
  revert a. induction lines as [|ln lines IH]; intros a; [done|].
  cbn [map fold_left snd]. apply IH.
Qed.

Section Shipments.
Context {G : Type} `{RandomStream G}.

Lemma shipment_anims_trucks (count : Z) (due : list Shipment.t) :
  forall (anims : list Anim.t) (idx : Z),
    shipment_trucks (fold_left (SimulatorImpl.shipment_anim count) due (anims, idx)).1
    = shipment_trucks anims ++
      map (fun sh => (Shipment.shopId sh,
                      fold_left (fun n (it : Z * Z) => add32 n it.2)
                                (Shipment.items sh) 0))
          due.
Proof.
  induction due as [|sh due IH]; intros anims idx.
  - cbn [fold_left fst map]. by rewrite app_nil_r.
  - cbn [fold_left map]. unfold SimulatorImpl.shipment_anim at 2.
    rewrite IH, shipment_trucks_app, <- (assoc_L (++)). reflexivity.
Qed.

Lemma order_anims_trucks (orders : list Order.t) :
  forall (anims : list Anim.t) (rng : G),
    shipment_trucks (fold_left SimulatorImpl.order_anim orders (anims, rng)).1
    = shipment_trucks anims.
Proof.
  induction orders as [|o orders IH]; intros anims rng; [done|].
  cbn [fold_left].
  destruct (SimulatorImpl.order_anim (anims, rng) o) as [anims' rng'] eqn:E.
  unfold SimulatorImpl.order_anim in E.
  destruct (RandFloat rng _ _) as [a g1]. destruct (RandFloat g1 _ _) as [b g2].
  injection E as <- <-. rewrite IH, shipment_trucks_app. cbn. by rewrite app_nil_r.
Qed.

Lemma BuildDailyAnimations_trucks (rng : G) arrivals orders due wos :
  shipment_trucks (SimulatorImpl.BuildDailyAnimations rng arrivals orders due wos).1
  = map (fun sh => (Shipment.shopId sh,
                    fold_left (fun n (it : Z * Z) => add32 n it.2)
                              (Shipment.items sh) 0))
        due.
Proof.
  unfold SimulatorImpl.BuildDailyAnimations.
  pose proof (order_anims_trucks orders
    (map (fun a : Z * Z => Anim.mk SupplyTruck (F32.lit 2 100) (F32.lit 22 100) (-1) a.2)
         arrivals) rng) as Ho.
  destruct (fold_left SimulatorImpl.order_anim orders _) as [anims1 rng1].
  cbn [fst] in *. rewrite shipment_anims_trucks.
  assert (Hs : shipment_trucks
                 (map (fun a : Z * Z =>
                         Anim.mk SupplyTruck (F32.lit 2 100) (F32.lit 22 100) (-1) a.2)
                      arrivals) = []).
  { clear. induction arrivals as [|a l IH]; [done|]. exact IH. }
  rewrite Hs in Ho.
  destruct (0 <? _); [rewrite shipment_trucks_app|]; rewrite Ho; reflexivity.
Qed.

Lemma fulfil_lines_items (products : list ProductConfig.t) (lines : list OrderLine.t) :
  forall acc : Warehouse.t * G * DayStats.t * list OrderLine.t * list (Z * Z),
    let r := fold_left (SimulatorImpl.fulfil_line products) lines acc in
    exists new,
      r.1.2 = acc.1.2 ++ new /\
      r.2 = acc.2 ++
            map (fun ln => (OrderLine.productId ln, OrderLine.deliveredPackages ln))
                (List.filter (fun ln => 0 <? OrderLine.deliveredPackages ln) new).
Proof.
  induction lines as [|ln lines IH]; intros acc; cbv zeta.
  - exists []. cbn [fold_left List.filter map]. by rewrite !app_nil_r.
  - cbn [fold_left]. destruct acc as [[[[wh rng] st] done] items].
    destruct (SimulatorImpl.fulfil_line products (wh, rng, st, done, items) ln)
      as [[[[wh1 rng1] st1] done1] items1] eqn:Estep.
    unfold SimulatorImpl.fulfil_line in Estep.
    destruct (Warehouse.FulfillLine _ _ _ _ _) as [[[wh' ln'] rng'] st'].
    injection Estep as <- <- <- <- <-.
    match goal with |- context [fold_left _ lines ?a] => destruct (IH a) as (new & E & I) end.
    cbn [fst snd] in *. exists (ln' :: new). split.
    + rewrite E, <- (assoc_L (++)). reflexivity.
    + rewrite I. cbn [List.filter].
      destruct (0 <? OrderLine.deliveredPackages ln'); [|done].
      rewrite <- (assoc_L (++)). reflexivity.
Qed.

Lemma fulfil_orders_trucks (products : list ProductConfig.t) (day : Z)
    (orders : list Order.t) :
  forall acc : Warehouse.t * G * DayStats.t * list Order.t * list Shipment.t,
    let r := fold_left (SimulatorImpl.fulfil_order products day) orders acc in
    exists new,
      r.1.2 = acc.1.2 ++ new /\
      map (fun sh => (Shipment.shopId sh,
                      fold_left (fun n (it : Z * Z) => add32 n it.2)
                                (Shipment.items sh) 0))
          r.2
      = map (fun sh => (Shipment.shopId sh,
                        fold_left (fun n (it : Z * Z) => add32 n it.2)
                                  (Shipment.items sh) 0))
            acc.2
        ++ flat_map order_truck new.
Proof.
  induction orders as [|o orders IH]; intros acc; cbv zeta.
  - exists []. cbn [fold_left flat_map]. by rewrite !app_nil_r.
  - cbn [fold_left]. destruct acc as [[[[wh rng] st] done] ships].
    destruct (fulfil_lines_items products (Order.lines o) (wh, rng, st, [], []))
      as (lines' & E & I).
    destruct (SimulatorImpl.fulfil_order products day (wh, rng, st, done, ships) o)
      as [[[[wh1 rng1] st1] done1] ships1] eqn:Estep.
    unfold SimulatorImpl.fulfil_order in Estep.
    destruct (fold_left (SimulatorImpl.fulfil_line products) _ _)
      as [[[[wh' rng'] st'] lines] items].
    injection Estep as <- <- <- <- <-.
    cbn [fst snd app] in E, I. subst lines items.
    match goal with |- context [fold_left _ orders ?a] =>
      destruct (IH a) as (new & E' & I')
    end.
    cbn [fst snd] in *.
    exists (Order.mk (Order.day o) (Order.shopId o) lines' :: new). split.
    + rewrite E', <- (assoc_L (++)). reflexivity.
    + rewrite I'. cbn [flat_map]. rewrite (assoc_L (++)). f_equal.
      unfold order_truck. cbn [Order.lines Order.shopId].
      destruct (List.filter _ lines') as [|ln lns] eqn:Ef; cbn [map].
      * by rewrite app_nil_r.
      * rewrite map_app. f_equal. cbn [map Shipment.shopId Shipment.items].
        f_equal. f_equal. apply (items_total (ln :: lns)).
Qed.

(** What a simulated day does to the shipments on file. *)
Lemma AdvanceDay_shipments (s : SimulatorImpl.t G) :
  well_formed s ->
  SimulatorImpl.day s < SimConfig.N (SimulatorImpl.cfg s) ->
  (forall k, SimulatorImpl.day s + 1 < k -> SimulatorImpl.shipmentsByDay s !! k = None) ->
  let a := SimulatorImpl.AdvanceDay s in
  (forall k, SimulatorImpl.day a + 1 < k -> SimulatorImpl.shipmentsByDay a !! k = None) /\
  map (fun sh => (Shipment.shopId sh,
                  fold_left (fun n (it : Z * Z) => add32 n it.2) (Shipment.items sh) 0))
      (default [] (SimulatorImpl.shipmentsByDay a !! (SimulatorImpl.day a + 1)))
  = flat_map order_truck (SimulatorImpl.todaysOrders a).
Proof.
  intros Hwf Hday Hfut.
  destruct Hwf as (Hcfg & Hd & _).
  destruct (ClampConfig_fixed_ranges _ Hcfg) as (HN & _).
  destruct (AdvanceDay_phases s Hday)
    as (log0 & wh1 & log1 & wh3 & today3 & wos & log3 & wh4 & log4 & rng5 & orders5
        & wh6 & rng6 & today6 & orders6 & ships6 & shipments & log7 & s1
        & _ & _ & _ & _ & E6 & Es1 & _ & Hdy & _ & _ & _ & _ & Hsh & Ho & _ & _ & _
        & Hmap).
  cbv zeta in *.
  match type of Es1 with _ = fold_left _ ?pids ?s0 =>
    destruct (supplier_requests_frame pids s0) as (_ & _ & _ & _ & _ & F6 & F7)
  end.
  cbv zeta in F6, F7. rewrite <- Es1 in F6, F7.
  cbn [SimulatorImpl.shipmentsByDay SimulatorImpl.todaysOrders] in F6, F7.
  rewrite Hsh, F6, Ho, F7, Hdy.
  unfold add32 in *. rewrite (wrap32_small (SimulatorImpl.day s + 1)) in * by lia.
  rewrite (wrap32_small (SimulatorImpl.day s + 1 + 1)) in * by lia.
  destruct (fulfil_orders_trucks (map ClampProduct (SimulatorImpl.products s))
              (SimulatorImpl.day s + 1) orders5 (wh4, rng5, today3, [], []))
    as (new & E & I).
  rewrite E6 in E, I. cbn [fst snd app map] in E, I. subst new.
  rewrite <- I. subst shipments. destruct ships6 as [|sh ships].
  - split; [intros k Hk; apply Hfut; lia|].
    by rewrite (Hfut (SimulatorImpl.day s + 1 + 1)) by lia.
  - split.
    + intros k Hk. rewrite lookup_insert_ne by lia. apply Hfut. lia.
    + rewrite lookup_insert_eq, (Hfut (SimulatorImpl.day s + 1 + 1)) by lia.
      reflexivity.
Qed.

Lemma run_shipments_state (c : SimConfig.t) (acts : list Action) :
  exists s, run (CreateSimulator c) acts = Some s /\ well_formed s /\
            forall k, SimulatorImpl.day s + 1 < k ->
                      SimulatorImpl.shipmentsByDay s !! k = None.
Proof.
  unfold run.
  apply (fold_left_inv (fun h : SimulatorHandle G =>
           exists s, h = Some s /\ well_formed s /\
                     forall k, SimulatorImpl.day s + 1 < k ->
                               SimulatorImpl.shipmentsByDay s !! k = None)).
  - eexists. split; [reflexivity|]. split; [apply well_formed_Reset|].
    intros k _. unfold SimulatorImpl.create, SimulatorImpl.Reset. cbv zeta.
    destruct (SimulatorImpl.init_products _ _) as [[rng products] wh].
    apply lookup_empty.
  - intros h a _ (s & -> & Hwf & Hfut).
    destruct a as [|c'|p maxL minU maxU boost spd|l]; cbn [perform].
    + eexists. split; [reflexivity|]. split; [by apply well_formed_AdvanceDay|].
      destruct (Z_le_gt_dec (SimConfig.N (SimulatorImpl.cfg s)) (SimulatorImpl.day s))
        as [Hover|Hday]; [by rewrite AdvanceDay_guard|].
      apply AdvanceDay_shipments; [done|lia|done].
    + eexists. split; [reflexivity|]. split; [apply well_formed_Reset|].
      intros k _. unfold SimulatorImpl.Reset. cbv zeta.
      destruct (SimulatorImpl.init_products _ _) as [[rng products] wh].
      apply lookup_empty.
    + destruct (well_formed_SetRuntimeTuning s p maxL minU maxU boost spd Hwf)
        as (s' & E & Hwf' & _).
      exists s'. split; [exact E|]. split; [exact Hwf'|].
      unfold SetRuntimeTuning in E. injection E as <-. exact Hfut.
    + destruct (well_formed_SetProductConfigs s l Hwf) as (s' & E & Hwf' & _).
      exists s'. split; [exact E|]. split; [exact Hwf'|].
      unfold SetProductConfigs in E. destruct (negb _); injection E as <-; exact Hfut.
Qed.

(** X25. On a handle a client can reach, when two days in a row are simulated:
    the shipment trucks animated on the second day are, in order, exactly
    the trucks of the first day's orders, one for each order that delivered
    at least one package, for that order's shop and carrying the packages
    its lines delivered. *)
Theorem shipments_arrive_next_day (c : SimConfig.t) (acts : list Action) :
  let h : SimulatorHandle G := run (CreateSimulator c) acts in
  simulates_a_day h = true ->
  simulates_a_day (AdvanceDay h) = true ->
  match AdvanceDay h with
  | Some s1 =>
      shipment_trucks (GetDailyAnims (AdvanceDay (AdvanceDay h)))
      = flat_map order_truck (SimulatorImpl.todaysOrders s1)
  | None => False
  end.
Proof.
  cbv zeta. destruct (run_shipments_state c acts) as (s & -> & Hwf & Hfut).
  cbn [AdvanceDay simulates_a_day GetDailyAnims]. intros Hd1 Hd2.
  apply Z.ltb_lt in Hd1, Hd2.
  destruct (AdvanceDay_shipments s Hwf Hd1 Hfut) as [_ Htr]. cbv zeta in Htr.
  pose proof (well_formed_AdvanceDay s Hwf) as Hwf1.
  set (s1 := SimulatorImpl.AdvanceDay s) in *.
  destruct Hwf1 as (Hcfg & Hd & _).
  destruct (ClampConfig_fixed_ranges _ Hcfg) as (HN & _).
  destruct (AdvanceDay_phases s1 Hd2)
    as (log0 & wh1 & log1 & wh3 & today3 & wos & log3 & wh4 & log4 & rng5 & orders5
        & wh6 & rng6 & today6 & orders6 & ships6 & shipments & log7 & s2
        & _ & _ & _ & _ & _ & _ & _ & _ & _ & _ & _ & _ & _ & _ & _ & _ & Han & _).
  cbv zeta in Han.
  rewrite <- Htr.
  replace (SimulatorImpl.dailyAnims (SimulatorImpl.AdvanceDay s1))
    with (SimulatorImpl.dailyAnims (SimulatorImpl.AdvanceDay s1),
          SimulatorImpl.rng (SimulatorImpl.AdvanceDay s1)).1 by done.
  rewrite Han, BuildDailyAnimations_trucks.
  unfold add32. rewrite wrap32_small by lia. reflexivity.
Qed.

End Shipments.

Lemma shipments_arrive_next_day_witness :
  match AdvanceDay (run (CreateSimulator (G := Z) SimConfig.default) []) with
  | Some s1 =>
      shipment_trucks
        (GetDailyAnims
           (AdvanceDay (AdvanceDay (run (CreateSimulator (G := Z) SimConfig.default) []))))
      = flat_map order_truck (SimulatorImpl.todaysOrders s1)
  | None => False
  end.
Proof.
  apply (@shipments_arrive_next_day Z lcg_stream SimConfig.default []);
    vm_compute; reflexivity.
Defined.

(** ** The totals as sums *)

Lemma fold_add32_sum (l : list Z) (a : Z) :
  fold_left add32 l (wrap32 a) = wrap32 (a + sum_of l).
Proof.
  revert a. induction l as [|x l IH]; intros a; cbn [fold_left sum_of foldr].
  - by rewrite Z.add_0_r.
  - unfold add32 at 2. rewrite wrap32_add_l, IH. unfold sum_of. f_equal. lia.
Qed.

Lemma wrap32_fixed (x : Z) : wrap32 x = x <-> is_int x.
Proof.
  split; [|apply wrap32_id]. intros <-. apply wrap32_range.
Qed.

(** C5. After any sequence of API calls, each member of the cumulative
    statistics is the sum, in the arithmetic of its type, of that member of
    [todaysStats] over the days simulated since the last reset: the three
    amounts are added as doubles in day order, the two counters as 32-bit
    integers, so a counter is the sum of the days reduced modulo [2^32]
    into the range of an [int], and it is that sum itself exactly when the
    sum lies in that range. *)
Theorem totalStats_is_sum_of_days {G} `{RandomStream G} (c : SimConfig.t)
    (acts : list Action) :
  let h := run (CreateSimulator c) acts in
  let days := days_since_reset (CreateSimulator c) acts in
  let sold := sum_of (map DayStats.totalSoldUnits days) in
  let written := sum_of (map DayStats.totalWriteOffUnits days) in
  DayStats.revenue (GetTotalStats h)
    = fold_left F64.add (map DayStats.revenue days) F64.zero /\
  DayStats.discountLoss (GetTotalStats h)
    = fold_left F64.add (map DayStats.discountLoss days) F64.zero /\
  DayStats.writeOffLoss (GetTotalStats h)
    = fold_left F64.add (map DayStats.writeOffLoss days) F64.zero /\
  DayStats.totalSoldUnits (GetTotalStats h) = wrap32 sold /\
  DayStats.totalWriteOffUnits (GetTotalStats h) = wrap32 written /\
  (DayStats.totalSoldUnits (GetTotalStats h) = sold <-> is_int sold) /\
  (DayStats.totalWriteOffUnits (GetTotalStats h) = written <-> is_int written).
Proof.
  intros h days sold written.
  assert (Htot : GetTotalStats h
                 = fold_left SimulatorImpl.DayStats_add days DayStats.zero).
  { subst h days. unfold days_since_reset.
    rewrite <- (record_day_run acts (CreateSimulator c) []).
    apply totals_invariant. cbn [CreateSimulator GetTotalStats].
    unfold SimulatorImpl.create, SimulatorImpl.Reset. destruct_lets.
    reflexivity. }
  rewrite Htot, fold_DayStats_add.
  cbn [DayStats.revenue DayStats.discountLoss DayStats.writeOffLoss
       DayStats.totalSoldUnits DayStats.totalWriteOffUnits DayStats.zero].
  change 0 with (wrap32 0). rewrite !fold_add32_sum, !Z.add_0_l.
  fold sold written.
  split; [reflexivity|]. split; [reflexivity|]. split; [reflexivity|].
  split; [reflexivity|]. split; [reflexivity|].
  split; apply wrap32_fixed.
Qed.

(** C5, as the claim states it, fails on a run the simulator reaches with
    every setting inside its clamp: in the bulk run each of the 25 days
    sells a positive number of units, the days add up to 2190152000, more
    than an [int] holds, and [totalSoldUnits] reads -2104815296. *)
Lemma totalSoldUnits_wraps :
  let h := run (CreateSimulator (G := Z) bulk_config) bulk_run in
  let days := days_since_reset (CreateSimulator (G := Z) bulk_config) bulk_run in
  map DayStats.totalSoldUnits days
  = [159000; 100000000; 90000000; 90000000; 94999000; 95000000; 100000000;
     90000000; 100000000; 74999000; 99999000; 84999000; 85000000; 65000000;
     85000000; 100000000; 95000000; 100000000; 79999000; 95000000; 99999000;
     99999000; 95000000; 80000000; 90000000] /\
  sum_of (map DayStats.totalSoldUnits days) = 2190152000 /\
  DayStats.totalSoldUnits (GetTotalStats h) = -2104815296 /\
  DayStats.totalSoldUnits (GetTotalStats h)
  <> sum_of (map DayStats.totalSoldUnits days).
Proof.
  cbv zeta.
  assert (Hdays : map DayStats.totalSoldUnits
                    (days_since_reset (CreateSimulator (G := Z) bulk_config) bulk_run)
                  = [159000; 100000000; 90000000; 90000000; 94999000; 95000000;
                     100000000; 90000000; 100000000; 74999000; 99999000; 84999000;
                     85000000; 65000000; 85000000; 100000000; 95000000; 100000000;
                     79999000; 95000000; 99999000; 99999000; 95000000; 80000000;
                     90000000])
    by (vm_compute; reflexivity).
  assert (Htot : DayStats.totalSoldUnits
                   (GetTotalStats (run (CreateSimulator (G := Z) bulk_config) bulk_run))
                 = -2104815296)
    by (vm_compute; reflexivity).
  rewrite Hdays, Htot. split; [reflexivity|]. split; [reflexivity|].
  split; [reflexivity|]. discriminate.
Qed.

(** ** Stock and capacity *)

(** One capped receipt lifts no product above the larger of what it held
    and its capacity. *)
Lemma receive_arrival_capped products wh log pid pk q :
  positive_batches (Warehouse.queue wh pid) ->
  packages_of (Warehouse.queue wh pid) <= 5000 ->
  0 <= ProductConfig.capacityPackages (product_at products pid) <= 5000 ->
  let wh' := (SimulatorImpl.receive_arrival products (wh, log) (pid, pk)).1 in
  packages_of (Warehouse.queue wh' q)
  <= Z.max (packages_of (Warehouse.queue wh q))
           (ProductConfig.capacityPackages (product_at products q)).
Proof.
  intros Hp Hs Hcap. cbv zeta. unfold SimulatorImpl.receive_arrival.
  pose proof (packages_of_nonneg _ Hp) as Hnn.
  rewrite TotalPackages_wrap, wrap32_small by lia.
  unfold sub32. rewrite wrap32_small by lia.
  set (accepted := Z.max 0 (Z.min pk _)).
  assert (Hacc : packages_of (Warehouse.queue wh pid) + accepted
                 <= Z.max (packages_of (Warehouse.queue wh pid))
                          (ProductConfig.capacityPackages (product_at products pid)))
    by (unfold accepted; lia).
  clearbody accepted.
  destruct (Z.ltb_spec 0 accepted); cbn [fst]; [|lia].
  rewrite queue_Receive. destruct (_ && (q =? pid)) eqn:E; [|lia].
  apply andb_true_iff in E as [_ E]. apply Z.eqb_eq in E as ->.
  rewrite packages_of_app. cbn [packages_of foldr Batch.packages]. lia.
Qed.

Lemma receive_arrivals_capped products (arrivals : list (Z * Z)) :
  (forall q, 0 <= ProductConfig.capacityPackages (product_at products q) <= 5000) ->
  forall wh log,
    (forall q, positive_batches (Warehouse.queue wh q)) ->
    (forall q, packages_of (Warehouse.queue wh q) <= 5000) ->
    let wh' :=
      (fold_left (SimulatorImpl.receive_arrival products) arrivals (wh, log)).1 in
    forall q,
      positive_batches (Warehouse.queue wh' q) /\
      packages_of (Warehouse.queue wh' q)
      <= Z.max (packages_of (Warehouse.queue wh q))
               (ProductConfig.capacityPackages (product_at products q)).
Proof.
  intros Hcap. induction arrivals as [|[pid pk] arrivals IH];
    intros wh log Hp Hs; cbv zeta; intros q.
  - cbn [fold_left fst]. split; [apply Hp|lia].
  - cbn [fold_left].
    assert (Hp1 : forall r, positive_batches
                   (Warehouse.queue
                      (SimulatorImpl.receive_arrival products (wh, log) (pid, pk)).1 r)).
    { intros r. apply (receive_arrival_stock products wh log pid pk r (Hp r)). }
    assert (Hs1 : forall r,
               packages_of
                 (Warehouse.queue
                    (SimulatorImpl.receive_arrival products (wh, log) (pid, pk)).1 r)
               <= Z.max (packages_of (Warehouse.queue wh r))
                        (ProductConfig.capacityPackages (product_at products r))).
    { intros r. apply receive_arrival_capped; [apply Hp|apply Hs|apply Hcap]. }
    destruct (SimulatorImpl.receive_arrival products (wh, log) (pid, pk))
      as [wh1 log1].
    cbn [fst] in Hp1, Hs1.
    assert (Hs1' : forall r, packages_of (Warehouse.queue wh1 r) <= 5000).
    { intros r. specialize (Hs1 r). specialize (Hs r). specialize (Hcap r). lia. }
    destruct (IH wh1 log1 Hp1 Hs1' q) as [Hp2 Hs2].
    split; [exact Hp2|]. specialize (Hs1 q). lia.
Qed.

Section Capacity.
Context {G : Type} `{RandomStreamLaws G}.

Lemma Reset_within_capacity (s : SimulatorImpl.t G) (c : SimConfig.t) (pid : Z) :
  Warehouse.TotalPackages (SimulatorImpl.wh (SimulatorImpl.Reset s c)) pid
  <= ProductConfig.capacityPackages
       (product_at (SimulatorImpl.products (SimulatorImpl.Reset s c)) pid).
Proof.
  pose proof (ClampConfig_ranges c) as Hr. cbv zeta in Hr.
  destruct Hr as (_ & _ & HK & _).
  pose proof (init_products_inv (ClampConfig c)
                (Z.to_nat (SimConfig.K (ClampConfig c)))) as Hinv.
  rewrite Z2Nat.id in Hinv by lia. specialize (Hinv ltac:(lia)).
  cbv zeta in Hinv. unfold SimulatorImpl.Reset. cbv zeta.
  destruct (SimulatorImpl.init_products _ _) as [[rng products] wh].
  cbn [fst snd SimulatorImpl.wh SimulatorImpl.products] in *.
  destruct Hinv as (_ & _ & Hcaps & _ & Hinv).
  destruct (Warehouse.valid_pid wh pid) eqn:Hv; [by apply Hinv|].
  rewrite TotalPackages_invalid by exact Hv.
  apply (product_at_Forall (fun p => 0 <= ProductConfig.capacityPackages p)).
  - eapply Forall_impl; [exact Hcaps|]. cbn. intros; lia.
  - cbn. lia.
Qed.

(** A day lifts no product above the larger of what it held and its
    capacity, and keeps the products. *)
Lemma AdvanceDay_capped (s : SimulatorImpl.t G) (pid : Z) :
  well_formed s -> well_stocked s ->
  SimulatorImpl.products (SimulatorImpl.AdvanceDay s) = SimulatorImpl.products s /\
  Warehouse.TotalPackages (SimulatorImpl.wh (SimulatorImpl.AdvanceDay s)) pid
  <= Z.max (Warehouse.TotalPackages (SimulatorImpl.wh s) pid)
           (ProductConfig.capacityPackages
              (product_at (SimulatorImpl.products s) pid)).
Proof.
  intros Hwf Hst.
  destruct (Z_le_gt_dec (SimConfig.N (SimulatorImpl.cfg s)) (SimulatorImpl.day s))
    as [Hover|Hday]; [rewrite AdvanceDay_guard by exact Hover; split; [done|lia]|].
  destruct Hwf as (Hcfg & Hd & Hlp & Hlw & Hls & Hfix & Hlog).
  destruct (AdvanceDay_fields s ltac:(lia)) as (_ & _ & Eprod & _).
  rewrite (map_fixed _ _ Hfix) in Eprod. split; [exact Eprod|].
  destruct (AdvanceDay_phases s ltac:(lia))
    as (log0 & wh1 & log1 & wh3 & today3 & wos & log3 & wh4 & log4 & rng5 & orders5
        & wh6 & rng6 & today6 & orders6 & ships6 & shipments & log7 & s1
        & E1 & E3 & E4 & E5 & E6 & Es1 & _ & _ & Hw & _).
  cbv zeta in *. rewrite (map_fixed _ _ Hfix) in *.
  destruct Hst as (Hpos & Hpipe & Hsum).
  set (products := SimulatorImpl.products s) in *.
  assert (Hcap : forall q,
             0 <= ProductConfig.capacityPackages (product_at products q) <= 5000).
  { intros q. apply (product_at_Forall
             (fun p => 0 <= ProductConfig.capacityPackages p <= 5000)).
    - eapply Forall_impl; [exact Hfix|]. intros p Hp.
      by destruct (ClampProduct_fixed_ranges p Hp) as (_ & ? & _).
    - cbn. lia. }
  assert (Hq : forall q, positive_batches (Warehouse.queue (SimulatorImpl.wh s) q) /\
                         0 <= packages_of (Warehouse.queue (SimulatorImpl.wh s) q)
                           <= 5000).
  { intros q. pose proof (queue_positive _ q Hpos) as P.
    pose proof (packages_of_nonneg _ P). specialize (Hsum q).
    assert (0 <= incoming_of (SimulatorImpl.pipeline s) q).
    { apply incoming_of_nonneg. eapply Forall_impl; [exact Hpipe|]. cbn. tauto. }
    split; [exact P|lia]. }
  assert (Hq0 : forall q,
             positive_batches
               (Warehouse.queue
                  (SimulatorImpl.ClampAllProducts products (SimulatorImpl.wh s)).2 q) /\
             packages_of
               (Warehouse.queue
                  (SimulatorImpl.ClampAllProducts products (SimulatorImpl.wh s)).2 q)
             <= packages_of (Warehouse.queue (SimulatorImpl.wh s) q)).
  { intros q. destruct (Hq q) as [P S].
    unfold SimulatorImpl.ClampAllProducts. cbn [snd].
    apply (reprice_shrinks (product_at (map ClampProduct products))
             (length products) (SimulatorImpl.wh s) q P). lia. }
  match type of E1 with fold_left _ ?arrivals _ = _ =>
    pose proof (receive_arrivals_capped products arrivals Hcap _ log0
                  (fun q => proj1 (Hq0 q))
                  (fun q => Z.le_trans _ _ _ (proj2 (Hq0 q)) (proj2 (proj2 (Hq q))))
                  pid) as R1
  end.
  cbv zeta in R1. rewrite E1 in R1. cbn [fst] in R1. destruct R1 as [P1 S1].
  destruct (Hq pid) as [P S]. destruct (Hq0 pid) as [P0 S0]. specialize (Hcap pid).
  destruct (age_shrinks wh1 pid P1 ltac:(lia)) as [P2 S2].
  pose proof (write_off_shrinks products
                (seqZ 0 (SimConfig.K (SimulatorImpl.cfg s)))
                (Warehouse.DecrementShelfLife wh1, DayStats.zero, [], log1) pid) as R3.
  rewrite E3 in R3. cbn [fst] in R3. destruct (R3 P2 ltac:(lia)) as [P3 S3].
  pose proof (discount_shrinks products
                (seqZ 0 (SimConfig.K (SimulatorImpl.cfg s))) (wh3, log3) pid) as R4.
  rewrite E4 in R4. cbn [fst] in R4. destruct (R4 P3 ltac:(lia)) as [P4 S4].
  pose proof (fulfil_orders_shrinks products (add32 (SimulatorImpl.day s) 1)
                orders5 (wh4, rng5, today3, [], []) pid) as R6.
  rewrite E6 in R6. cbn [fst] in R6. destruct (R6 P4 ltac:(lia)) as [P6 S6].
  match type of Es1 with _ = fold_left _ ?pids ?s0 =>
    destruct (supplier_requests_frame pids s0) as (_ & _ & F3 & _)
  end.
  cbv zeta in F3. rewrite <- Es1 in F3. cbn [SimulatorImpl.wh] in F3.
  rewrite Hw, F3, !TotalPackages_wrap.
  pose proof (packages_of_nonneg _ P6).
  rewrite !wrap32_small by lia. lia.
Qed.

(** Without a product edit since the last reset, every product of a
    reachable state holds no more than its capacity. *)
Lemma run_within_capacity (c : SimConfig.t) (acts : list Action) :
  unedited acts = true ->
  exists s, run (CreateSimulator c) acts = Some s /\
            forall pid,
              Warehouse.TotalPackages (SimulatorImpl.wh s) pid
              <= ProductConfig.capacityPackages
                   (product_at (SimulatorImpl.products s) pid).
Proof.
  induction acts as [|a acts IH] using rev_ind; intros Hun.
  - eexists. split; [reflexivity|]. intros pid. apply Reset_within_capacity.
  - rewrite run_app. cbn [run fold_left].
    destruct (run_stocked_state c acts) as (s & E & Hwf & Hst). rewrite E.
    unfold unedited in Hun. rewrite fold_left_app in Hun. cbn [fold_left] in Hun.
    fold (unedited acts) in Hun.
    destruct a as [|c'|p maxL minU maxU boost spd|l]; cbn [perform].
    + destruct (IH Hun) as (s0 & E0 & Hcap). rewrite E in E0.
      injection E0 as <-. eexists. split; [reflexivity|]. intros pid.
      destruct (AdvanceDay_capped s pid Hwf Hst) as [-> Hle].
      specialize (Hcap pid). lia.
    + eexists. split; [reflexivity|]. intros pid. apply Reset_within_capacity.
    + destruct (IH Hun) as (s0 & E0 & Hcap). rewrite E in E0.
      injection E0 as <-. eexists. split; [reflexivity|]. exact Hcap.
    + discriminate.
Qed.

End Capacity.

(** C3. After every [Receive] the simulation performs, the product
    received holds no more packages than its capacity: in [Reset], after any
    number of rounds of the stocking loop and so at its end, for every
    product; in [AdvanceDay], where the products are the clamped ones, for
    the product of each arrival, from whatever warehouse the loop has
    reached.  On every state a client can reach, a day of [AdvanceDay]
    leaves every product with no more than the larger of its capacity and
    what it held before the day; so as long as no [SetProductConfigs] call
    was made since the simulator was created or last reset, every product
    of every reachable state holds no more than its capacity. *)
Theorem capacity_after_receive {G} `{RandomStreamLaws G} :
  (forall (c : SimConfig.t) (n : nat) (pid : Z),
     Z.of_nat n <= SimConfig.K (ClampConfig c) ->
     let acc := SimulatorImpl.init_products (ClampConfig c) (Z.of_nat n) in
     Warehouse.TotalPackages acc.2 pid
     <= ProductConfig.capacityPackages (product_at acc.1.2 pid)) /\
  (forall (s : SimulatorImpl.t G) (c : SimConfig.t) (pid : Z),
     Warehouse.TotalPackages (SimulatorImpl.wh (SimulatorImpl.Reset s c)) pid
     <= ProductConfig.capacityPackages
          (product_at (SimulatorImpl.products (SimulatorImpl.Reset s c)) pid)) /\
  (forall (products0 : list ProductConfig.t) (wh : Warehouse.t)
          (log : list string) (pid pk : Z),
     let products := (SimulatorImpl.ClampAllProducts products0 wh).1 in
     let pc := product_at products pid in
     let accepted :=
       Z.max 0 (Z.min pk (sub32 (ProductConfig.capacityPackages pc)
                                (Warehouse.TotalPackages wh pid))) in
     let wh' := (SimulatorImpl.receive_arrival products (wh, log) (pid, pk)).1 in
     wh' = (if 0 <? accepted then Warehouse.Receive wh pid accepted pc else wh) /\
     (0 < accepted ->
      Warehouse.TotalPackages wh' pid <= ProductConfig.capacityPackages pc)) /\
  (forall (c : SimConfig.t) (acts : list Action) (pid : Z),
     let h := run (CreateSimulator c) acts in
     GetProductConfigs (AdvanceDay h) = GetProductConfigs h /\
     GetStockPackages (AdvanceDay h) pid
     <= Z.max (GetStockPackages h pid)
              (ProductConfig.capacityPackages
                 (product_at (GetProductConfigs h) pid))) /\
  (forall (c : SimConfig.t) (acts : list Action) (pid : Z),
     unedited acts = true ->
     let h := run (CreateSimulator c) acts in
     GetStockPackages h pid
     <= ProductConfig.capacityPackages (product_at (GetProductConfigs h) pid)).
Proof.
  split.
  { intros c n pid Hn acc. subst acc.
    destruct (init_products_inv (ClampConfig c) n Hn) as (_ & _ & Hcaps & _ & Hinv).
    destruct (Warehouse.valid_pid
                (SimulatorImpl.init_products (ClampConfig c) (Z.of_nat n)).2 pid)
      eqn:Hv; [by apply Hinv|].
    rewrite TotalPackages_invalid by exact Hv.
    apply (product_at_Forall (fun p => 0 <= ProductConfig.capacityPackages p)).
    - eapply Forall_impl; [exact Hcaps|]. cbn. intros; lia.
    - cbn. lia. }
  split; [apply Reset_within_capacity|]. split.
  { intros products0 wh log pid pk. cbn [SimulatorImpl.ClampAllProducts fst].
    apply receive_arrival_capacity.
    apply (product_at_Forall (fun p => 0 <= ProductConfig.capacityPackages p <= 5000)).
    - apply Forall_fmap, Forall_forall. intros p _. apply ClampProduct_capacity.
    - cbn. lia. }
  split.
  - intros c acts pid h. subst h.
    destruct (run_stocked_state c acts) as (s & -> & Hwf & Hst).
    cbn [AdvanceDay GetProductConfigs GetStockPackages].
    by apply AdvanceDay_capped.
  - intros c acts pid Hun h. subst h.
    destruct (run_within_capacity c acts Hun) as (s & -> & Hcap).
    cbn [GetProductConfigs GetStockPackages]. apply Hcap.
Qed.

(** The day that receives the requests of the lowered run, and a run of two
    days without a product edit. *)
Lemma capacity_after_receive_witness :
  Warehouse.TotalPackages (SimulatorImpl.wh demo_sim) 3
  <= ProductConfig.capacityPackages (product_at (SimulatorImpl.products demo_sim) 3) /\
  (let h := run (CreateSimulator (G := Z) edited_config)
                (lowered_prefix ++ [lowered_edit]) in
   GetStockPackages (AdvanceDay h) 0
   <= Z.max (GetStockPackages h 0)
            (ProductConfig.capacityPackages (product_at (GetProductConfigs h) 0))) /\
  (let h := run (CreateSimulator (G := Z) SimConfig.default)
                [DoAdvanceDay; DoAdvanceDay] in
   GetStockPackages h 3
   <= ProductConfig.capacityPackages (product_at (GetProductConfigs h) 3)).
Proof.
  pose proof (@capacity_after_receive Z lcg_stream lcg_laws)
    as (_ & Hreset & _ & Hday & Hrun).
  split; [exact (Hreset demo_sim SimConfig.default 3)|]. split.
  - exact (proj2 (Hday edited_config (lowered_prefix ++ [lowered_edit]) 0)).
  - apply (Hrun SimConfig.default [DoAdvanceDay; DoAdvanceDay] 3). reflexivity.
Defined.

(** C3, as the claim states it, fails on a state the simulator reaches:
    after the editor has lowered the capacity of product 1 to 2 while it
    holds 7 packages, the next day receives the deliveries of the other
    products (product 0 goes from 9 to 29 packages) and leaves product 1
    with 7 packages, above its capacity. *)
Lemma capacity_lowered_below_stock :
  let before := run (CreateSimulator (G := Z) edited_config)
                    (lowered_prefix ++ [lowered_edit]) in
  let after := run (CreateSimulator (G := Z) edited_config) lowered_run in
  after = AdvanceDay before /\
  GetStockPackages before 0 = 9 /\ GetStockPackages after 0 = 29 /\
  ProductConfig.capacityPackages (product_at (GetProductConfigs after) 1) = 2 /\
  GetStockPackages after 1 = 7 /\
  ~ (GetStockPackages after 1
     <= ProductConfig.capacityPackages (product_at (GetProductConfigs after) 1)).
Proof.
  cbv zeta. split.
  - unfold lowered_run. replace (lowered_prefix ++ [lowered_edit; DoAdvanceDay])
      with ((lowered_prefix ++ [lowered_edit]) ++ [DoAdvanceDay])
      by (by rewrite <- (assoc_L (++))).
    unfold run. by rewrite fold_left_app.
  - assert (E0 : GetStockPackages
                   (run (CreateSimulator (G := Z) edited_config)
                        (lowered_prefix ++ [lowered_edit])) 0 = 9)
      by (vm_compute; reflexivity).
    assert (E1 : GetStockPackages
                   (run (CreateSimulator (G := Z) edited_config) lowered_run) 0 = 29)
      by (vm_compute; reflexivity).
    assert (E2 : ProductConfig.capacityPackages
                   (product_at
                      (GetProductConfigs
                         (run (CreateSimulator (G := Z) edited_config) lowered_run)) 1)
                 = 2)
      by (vm_compute; reflexivity).
    assert (E3 : GetStockPackages
                   (run (CreateSimulator (G := Z) edited_config) lowered_run) 1 = 7)
      by (vm_compute; reflexivity).
    rewrite E0, E1, E2, E3. repeat (split; [reflexivity|]). lia.
Qed.
